(** * Badminton court booking: availability, pricing and waitlist

    A shallow embedding of the booking core of the repository
    ([booking/models.py], [booking/services/*.py], [booking/views.py]) and
    the properties of its specification, proved or refuted on that embedding.

    Conventions of the embedding.
    - A database table is the list of its rows, in the order the engine
      scans them; a primary key is a [Z].
    - [datetime.date] is its proleptic ordinal ([date.toordinal()]),
      [datetime.time] and timestamps are integers that keep the order.
    - [decimal.Decimal] is a coefficient and an exponent, with the rounding of
      the default context (28 significant digits, half-even); a [float] is
      an IEEE 754 binary64 number, with the operations of the library's
      [SpecFloat].
    - A string is the list of its code points, each below 256.
    - A view is a function from the database to a response and the database
      it leaves behind; [transaction.atomic()] restores the database it was
      entered with when its body raises. *)

From Stdlib Require Import ZArith List String Ascii Bool Lia.
From Stdlib Require Import Permutation Sorted.
From Stdlib Require SpecFloat.
Import ListNotations.
Open Scope Z_scope.

(* ------------------------------------------------------------------ *)
(** ** [decimal.Decimal] under the default context *)

Module Decimal.

(** The number [coef * 10 ^ expo]. Special values (NaN, infinities), the
    sign of zero and the exponent limits Emin/Emax are not represented:
    none can be read from a [DecimalField]. *)
Record t : Type := mk { coef : Z; expo : Z }.

Definition prec : Z := 28.

Fixpoint ndigits_fuel (fuel : nat) (n : Z) : Z :=
  match fuel with
  | O => 1
  | S f => if n <? 10 then 1 else 1 + ndigits_fuel f (n / 10)
  end.

(** [len(str(abs(n)))] *)
Definition ndigits (n : Z) : Z :=
  ndigits_fuel (Z.to_nat (Z.log2 (Z.abs n))) (Z.abs n).

(** ROUND_HALF_EVEN of the non-negative [c] with its [d > 0] last digits
    dropped. *)
Definition round_half_even (c d : Z) : Z :=
  let p := 10 ^ d in
  let q := c / p in
  let r := c mod p in
  let half := 5 * 10 ^ (d - 1) in
  if (half <? r) || ((r =? half) && Z.odd q) then q + 1 else q.

(** [Decimal._fix]: round to [prec] significant digits when there are
    more. *)
Definition fix_ (x : t) : t :=
  let a := Z.abs (coef x) in
  let n := ndigits a in
  if n <=? prec then x
  else
    let d := n - prec in
    let q := round_half_even a d in
    if prec <? ndigits q
    then mk (Z.sgn (coef x) * (q / 10)) (expo x + d + 1)
    else mk (Z.sgn (coef x) * q) (expo x + d).

Definition of_int (n : Z) : t := mk n 0.

Definition neg (x : t) : t := mk (- coef x) (expo x).

Definition add (x y : t) : t :=
  let e := Z.min (expo x) (expo y) in
  fix_ (mk (coef x * 10 ^ (expo x - e) + coef y * 10 ^ (expo y - e)) e).

Definition sub (x y : t) : t := add x (neg y).

Definition mul (x y : t) : t :=
  fix_ (mk (coef x * coef y) (expo x + expo y)).

(** [x == y]: equality of the values, whatever the exponents. *)
Definition eqb (x y : t) : bool :=
  let e := Z.min (expo x) (expo y) in
  coef x * 10 ^ (expo x - e) =? coef y * 10 ^ (expo y - e).

(** [sum(l, Decimal(0))], left to right. *)
Definition sum (l : list t) : t := fold_left add l (of_int 0).

End Decimal.

Declare Scope dec_scope.
Delimit Scope dec_scope with dec.
Bind Scope dec_scope with Decimal.t.
Infix "+" := Decimal.add : dec_scope.
Infix "-" := Decimal.sub : dec_scope.
Infix "*" := Decimal.mul : dec_scope.
Infix "==" := Decimal.eqb (at level 70, no associativity) : dec_scope.

(** [Decimal('500.00')] and the like: a number of hundredths. *)
Definition cents (n : Z) : Decimal.t := Decimal.mk n (-2).

(* ------------------------------------------------------------------ *)
(** ** [float]: IEEE 754 binary64, rounding to nearest even *)

Module PyFloat.

Definition prec : Z := 53.
Definition emax : Z := 1024.

Definition t : Type := SpecFloat.spec_float.

Definition zero : t := SpecFloat.S754_zero false.

(** [float(n)] for an integer [n] *)
Definition of_Z (n : Z) : t := SpecFloat.binary_normalize prec emax n 0 false.

(** [float(d)] for a Decimal [d]: the float nearest to the number, the
    even one of two that are as near; beyond the largest float it is an
    infinity. For a negative exponent the number is the quotient of the
    coefficient by a power of ten, rounded once. *)
Definition of_decimal (d : Decimal.t) : t :=
  let c := Decimal.coef d in
  let e := Decimal.expo d in
  if 0 <=? e then of_Z (c * 10 ^ e)
  else
    match c with
    | Z0 => zero
    | Zpos m =>
        SpecFloat.SFdiv prec emax (SpecFloat.S754_finite false m 0)
          (SpecFloat.S754_finite false (Z.to_pos (10 ^ (- e))) 0)
    | Zneg m =>
        SpecFloat.SFdiv prec emax (SpecFloat.S754_finite true m 0)
          (SpecFloat.S754_finite false (Z.to_pos (10 ^ (- e))) 0)
    end.

(** [x + y] *)
Definition add : t -> t -> t := SpecFloat.SFadd prec emax.

(** [0 + x1 + x2 + ...], left to right. *)
Definition sum (l : list t) : t := fold_left add l zero.

(** [math.isfinite(x)] *)
Definition is_finite (x : t) : bool :=
  match x with
  | SpecFloat.S754_zero _ | SpecFloat.S754_finite _ _ _ => true
  | SpecFloat.S754_infinity _ | SpecFloat.S754_nan => false
  end.


End PyFloat.

(* ------------------------------------------------------------------ *)
(** ** Dates and times *)

Definition Date := Z.
Definition Time := Z.
Definition Timestamp := Z.

(** [date.weekday()]: Monday is 0. *)
Definition weekday (d : Date) : Z := (d + 6) mod 7.

(** [datetime.time(h, m)], in microseconds since midnight. *)
Definition hm (h m : Z) : Time := (h * 60 + m) * 60000000.

(* ------------------------------------------------------------------ *)
(** ** [PricingEngine._time_overlaps] *)

Definition _time_overlaps (start1 end1 start2 end2 : Time) : bool :=
  (start1 <? end2) && (end1 >? start2).

(* ------------------------------------------------------------------ *)
(** ** Exceptions and the error monad *)

Inductive Exn : Type :=
| DoesNotExist          (* Model.DoesNotExist, from [objects.get] *)
| ValueError            (* [int()] on a string that is no number *)
| IntegrityError        (* a constraint of the schema refused a row *)
| AttributeError        (* an attribute read on [None] *)
| InvalidOperation      (* decimal.InvalidOperation, from [quantize] *)
| NotificationError.    (* the notification side effect raised *)

Definition Result (A : Type) : Type := (Exn + A)%type.

Definition ret {A : Type} (a : A) : Result A := inr a.
Definition raise {A : Type} (e : Exn) : Result A := inl e.

Definition bind {A B : Type} (m : Result A) (k : A -> Result B) : Result B :=
  match m with
  | inl e => inl e
  | inr a => k a
  end.

Notation "x <- m ;; k" := (bind m (fun x => k))
  (at level 61, m at next level, right associativity).
Notation "' pat <- m ;; k" := (bind m (fun x => match x with pat => k end))
  (at level 61, pat pattern, m at next level, right associativity).

(** [for x in l: ...] with a body that may raise, threading [s]. *)
Fixpoint foldM {A S : Type} (f : S -> A -> Result S) (l : list A) (s : S)
  : Result S :=
  match l with
  | [] => ret s
  | x :: l' => s' <- f s x ;; foldM f l' s'
  end.

(** [[f(x) for x in l]] with an [f] that may raise. *)
Fixpoint mapM {A B : Type} (f : A -> Result B) (l : list A) : Result (list B) :=
  match l with
  | [] => ret []
  | x :: l' => y <- f x ;; ys <- mapM f l' ;; ret (y :: ys)
  end.

(** [objects.get]: the row, or [DoesNotExist]. *)
Definition get_or_raise {A : Type} (o : option A) : Result A :=
  match o with
  | Some a => ret a
  | None => raise DoesNotExist
  end.

(* ------------------------------------------------------------------ *)
(** ** [DecimalField(max_digits, decimal_places)] *)

Module DecimalField.

(** [Decimal._rescale(exp, ROUND_HALF_EVEN)]: the number with exponent
    [exp], zeros appended or digits rounded away. *)
Definition rescale (x : Decimal.t) (exp : Z) : Decimal.t :=
  if exp <=? Decimal.expo x
  then Decimal.mk (Decimal.coef x * 10 ^ (Decimal.expo x - exp)) exp
  else Decimal.mk (Z.sgn (Decimal.coef x)
                   * Decimal.round_half_even (Z.abs (Decimal.coef x))
                       (exp - Decimal.expo x))
                  exp.

(** What the column takes on a save: Django's [format_number], which is
    [value.quantize(Decimal(1).scaleb(-decimal_places), context)] under a
    context of precision [max_digits]. [quantize] raises
    [decimal.InvalidOperation] when the number has more than [max_digits]
    digits at that exponent, before the rounding or after it. *)
Definition get_db_prep_save (max_digits decimal_places : Z) (value : Decimal.t)
  : Result Decimal.t :=
  let exp := - decimal_places in
  if Decimal.coef value =? 0 then ret (Decimal.mk 0 exp)
  else if Decimal.ndigits (Decimal.coef value) + Decimal.expo value - 1
          - exp + 1 >? max_digits
  then raise InvalidOperation
  else
    let ans := rescale value exp in
    if Decimal.ndigits (Decimal.coef ans) >? max_digits
    then raise InvalidOperation
    else ret ans.

End DecimalField.

(* ------------------------------------------------------------------ *)
(** ** [QuerySet.order_by]: a stable insertion sort *)

Section OrderBy.
Context {A : Type} (leb : A -> A -> bool).

Fixpoint insert_by (x : A) (l : list A) : list A :=
  match l with
  | [] => [x]
  | y :: l' => if leb x y then x :: l else y :: insert_by x l'
  end.

(** Rows that compare equal stay in the order of the scan: the SQL says
    nothing about them. *)
Fixpoint order_by (l : list A) : list A :=
  match l with
  | [] => []
  | x :: l' => insert_by x (order_by l')
  end.

End OrderBy.

(** [QuerySet.first()] *)
Definition first {A : Type} (l : list A) : option A := hd_error l.

(** The comparison of [order_by('field')] for an integer field. *)
Definition on_key {A : Type} (key : A -> Z) (x y : A) : bool := key x <=? key y.

(** What [on_key] decides. *)
Definition le_on {A : Type} (key : A -> Z) (x y : A) : Prop := key x <= key y.

(* ------------------------------------------------------------------ *)
(** ** The models of [booking/models.py] *)

Module Court.
Inductive court_type_t : Type := INDOOR | OUTDOOR.
Record t : Type := mk
  { id : Z; name : string; court_type : court_type_t; is_active : bool }.
End Court.

Module Equipment.
Inductive equipment_type_t : Type := RACKET | SHOES.
Record t : Type := mk
  { id : Z; name : string; equipment_type : equipment_type_t;
    total_quantity : Z }.
End Equipment.

Module Coach.
Record t : Type := mk
  { id : Z; name : string; hourly_fee : Decimal.t; is_active : bool }.
End Coach.

Module CoachAvailability.
Record t : Type := mk
  { id : Z; coach : Z; day_of_week : Z; start_time : Time; end_time : Time }.
End CoachAvailability.

Module PricingRule.
(** [rule_type] stays a string: the engine falls through on a type it does
    not know. *)
Record t : Type := mk
  { id : Z; name : string; rule_type : string;
    multiplier : Decimal.t; flat_fee : Decimal.t;
    is_percentage : bool; is_enabled : bool; priority : Z;
    start_time : option Time; end_time : option Time;
    applies_to_days : string }.
End PricingRule.

(** One entry of [price_breakdown]. [amount] and [multiplier] are floats;
    [is_percentage] is [None] on the base entry, which has no such key, and
    [multiplier] is [None] there and on a flat fee. *)
Module BreakdownItem.
Record t : Type := mk
  { rule : string; type_ : string; amount : PyFloat.t;
    is_percentage : option bool; multiplier : option PyFloat.t }.

(** What a JSON column can hold: no infinity and no NaN. *)
Definition json_valid (item : t) : bool :=
  PyFloat.is_finite (amount item)
  && match multiplier item with
     | Some m => PyFloat.is_finite m
     | None => true
     end.
End BreakdownItem.

Module Booking.
Inductive status_t : Type := CONFIRMED | CANCELLED.
Record t : Type := mk
  { id : Z; user : Z; court : Z; date : Date;
    start_time : Time; end_time : Time; coach : option Z;
    base_price : Decimal.t; total_price : Decimal.t;
    price_breakdown : list BreakdownItem.t;
    status : status_t; created_at : Timestamp; updated_at : Timestamp }.

Definition is_confirmed (b : t) : bool :=
  match status b with CONFIRMED => true | CANCELLED => false end.

Definition set_status (s : status_t) (now : Timestamp) (b : t) : t :=
  mk (id b) (user b) (court b) (date b) (start_time b) (end_time b) (coach b)
     (base_price b) (total_price b) (price_breakdown b) s (created_at b) now.
End Booking.

Module BookingEquipment.
Record t : Type := mk { id : Z; booking : Z; equipment : Z; quantity : Z }.
End BookingEquipment.

Module Waitlist.
Inductive status_t : Type := WAITING | NOTIFIED | EXPIRED.
Record t : Type := mk
  { id : Z; user : Z; court : Z; date : Date;
    start_time : Time; end_time : Time;
    status : status_t; created_at : Timestamp;
    notified_at : option Timestamp }.

Definition is_waiting (w : t) : bool :=
  match status w with WAITING => true | _ => false end.

Definition is_notified (w : t) : bool :=
  match status w with NOTIFIED => true | _ => false end.

Definition set_status (s : status_t) (w : t) : t :=
  mk (id w) (user w) (court w) (date w) (start_time w) (end_time w)
     s (created_at w) (notified_at w).

Definition set_notified_at (ts : Timestamp) (w : t) : t :=
  mk (id w) (user w) (court w) (date w) (start_time w) (end_time w)
     (status w) (created_at w) (Some ts).
End Waitlist.

(** The database: one list per table, and the sequences the auto-increment
    keys of the tables written by the core are drawn from. *)
Record DB : Type := mkDB
  { courts : list Court.t;
    equipment : list Equipment.t;
    coaches : list Coach.t;
    coach_availability : list CoachAvailability.t;
    pricing_rules : list PricingRule.t;
    bookings : list Booking.t;
    booking_equipment : list BookingEquipment.t;
    waitlist : list Waitlist.t;
    booking_seq : Z;
    booking_equipment_seq : Z;
    waitlist_seq : Z }.

Definition with_bookings (db : DB) (bs : list Booking.t) (seq : Z) : DB :=
  mkDB (courts db) (equipment db) (coaches db) (coach_availability db)
       (pricing_rules db) bs (booking_equipment db) (waitlist db)
       seq (booking_equipment_seq db) (waitlist_seq db).

Definition with_booking_equipment (db : DB) (l : list BookingEquipment.t)
  (seq : Z) : DB :=
  mkDB (courts db) (equipment db) (coaches db) (coach_availability db)
       (pricing_rules db) (bookings db) l (waitlist db)
       (booking_seq db) seq (waitlist_seq db).

Definition with_waitlist (db : DB) (ws : list Waitlist.t) (seq : Z) : DB :=
  mkDB (courts db) (equipment db) (coaches db) (coach_availability db)
       (pricing_rules db) (bookings db) (booking_equipment db) ws
       (booking_seq db) (booking_equipment_seq db) seq.

(** [Model.objects.get(id=...)] *)
Definition get_court (db : DB) (i : Z) : Result Court.t :=
  get_or_raise (find (fun c => Court.id c =? i) (courts db)).

Definition get_equipment (db : DB) (i : Z) : Result Equipment.t :=
  get_or_raise (find (fun e => Equipment.id e =? i) (equipment db)).

Definition get_coach (db : DB) (i : Z) : Result Coach.t :=
  get_or_raise (find (fun c => Coach.id c =? i) (coaches db)).

(* ------------------------------------------------------------------ *)
(** ** The string operations of the WEEKEND rule *)

Module PyStr.

(** [str.isspace] on the code points below 256: the ASCII white space,
    the separators U+001C to U+001F, NEL (U+0085) and the no-break space
    (U+00A0). *)
Definition is_space (c : ascii) : bool :=
  let n := Z.of_nat (nat_of_ascii c) in
  (n =? 32) || ((9 <=? n) && (n <=? 13)) || ((28 <=? n) && (n <=? 31))
  || (n =? 133) || (n =? 160).

Fixpoint lstrip (s : string) : string :=
  match s with
  | EmptyString => EmptyString
  | String c s' => if is_space c then lstrip s' else s
  end.

Fixpoint rstrip (s : string) : string :=
  match s with
  | EmptyString => EmptyString
  | String c s' =>
      match rstrip s' with
      | EmptyString => if is_space c then EmptyString else String c EmptyString
      | r => String c r
      end
  end.

(** [s.strip()] *)
Definition strip (s : string) : string := rstrip (lstrip s).

(** [s.split(sep)] for a separator of one character. *)
Fixpoint split (sep : ascii) (s : string) : list string :=
  match s with
  | EmptyString => [EmptyString]
  | String c s' =>
      if Ascii.eqb c sep then EmptyString :: split sep s'
      else match split sep s' with
           | h :: t => String c h :: t
           | [] => [String c EmptyString]
           end
  end.

(** The truth value of a string. *)
Definition truthy (s : string) : bool :=
  match s with EmptyString => false | _ => true end.

Definition digit_of (c : ascii) : option Z :=
  let n := Z.of_nat (nat_of_ascii c) in
  if (48 <=? n) && (n <=? 57) then Some (n - 48) else None.

(** Decimal digits, single underscores allowed between two of them. *)
Fixpoint parse_digits (s : string) (acc : Z) (after_digit : bool) : option Z :=
  match s with
  | EmptyString => if after_digit then Some acc else None
  | String c s' =>
      match digit_of c with
      | Some d => parse_digits s' (10 * acc + d) true
      | None =>
          if Ascii.eqb c "_"%char && after_digit then parse_digits s' acc false
          else None
      end
  end.

(** The number of digits of a literal, the underscores not counted. *)
Fixpoint count_digits (s : string) : Z :=
  match s with
  | EmptyString => 0
  | String c s' =>
      (match digit_of c with Some _ => 1 | None => 0 end) + count_digits s'
  end.

(** [sys.int_info.default_max_str_digits] *)
Definition max_str_digits : Z := 4300.

(** The digits after the sign: a well-formed literal of more digits than
    the interpreter converts is refused with the same [ValueError]. *)
Definition int_of_digits (s : string) : option Z :=
  match parse_digits s 0 false with
  | Some n => if count_digits s >? max_str_digits then None else Some n
  | None => None
  end.

(** [int(s)]: white space around, a sign, decimal digits. Below 256 the
    only decimal digits are the ASCII ones; the digits of other scripts,
    which Python also reads, have code points the embedding does not
    hold. *)
Definition int (s : string) : Result Z :=
  let r :=
    match strip s with
    | String "-"%char s' => option_map Z.opp (int_of_digits s')
    | String "+"%char s' => int_of_digits s'
    | s' => int_of_digits s'
    end in
  match r with
  | Some n => ret n
  | None => raise ValueError
  end.

End PyStr.

(* ------------------------------------------------------------------ *)
(** ** [booking/services/pricing.py]: PricingEngine *)

Module PricingEngine.
Local Open Scope string_scope.

Definition BASE_COURT_PRICE : Decimal.t := cents 50000.

Record PricingData : Type := mkPricingData
  { total_price : Decimal.t;
    base_price : Decimal.t;
    breakdown : list BreakdownItem.t }.

(** The request a price is computed for. *)
Record Request : Type := mkRequest
  { court : Court.t; date : Date; start_time : Time; end_time : Time;
    equipment_list : list Equipment.t; coach : option Coach.t }.

(** [PricingRule.objects.filter(is_enabled=True).order_by('priority')]:
    the explicit [order_by] replaces [Meta.ordering]. *)
Definition enabled_rules (db : DB) : list PricingRule.t :=
  order_by (on_key PricingRule.priority)
           (filter PricingRule.is_enabled (pricing_rules db)).

(** [[int(d.strip()) for d in s.split(',') if d.strip()]] *)
Definition applicable_days (s : string) : Result (list Z) :=
  mapM PyStr.int
       (filter PyStr.truthy (map PyStr.strip (PyStr.split ","%char s))).

(** The first chain of tests of the loop body: does the rule apply? *)
Definition applies (q : Request) (rule : PricingRule.t) : Result bool :=
  let ty := PricingRule.rule_type rule in
  if ty =? "PEAK_HOURS" then
    match PricingRule.start_time rule, PricingRule.end_time rule with
    | Some rs, Some re =>
        ret (_time_overlaps (start_time q) (end_time q) rs re)
    | _, _ => ret false
    end
  else if ty =? "WEEKEND" then
    if PyStr.truthy (PricingRule.applies_to_days rule) then
      days <- applicable_days (PricingRule.applies_to_days rule) ;;
      ret (existsb (Z.eqb (weekday (date q))) days)
    else ret false
  else if ty =? "INDOOR_PREMIUM" then
    ret (match Court.court_type (court q) with
         | Court.INDOOR => true
         | Court.OUTDOOR => false
         end)
  else if ty =? "EQUIPMENT_FEE" then
    ret (match equipment_list q with [] => false | _ => true end)
  else if ty =? "COACH_FEE" then
    ret (match coach q with Some _ => true | None => false end)
  else ret false.

(** The amount an applied rule adds to the running price [current_price].
    The COACH_FEE branch reads [coach.hourly_fee]; it is reached only with
    a coach, and without one the attribute access would raise. *)
Definition rule_amount (q : Request) (current_price : Decimal.t)
  (rule : PricingRule.t) : Result Decimal.t :=
  if PricingRule.is_percentage rule then
    ret (current_price * (PricingRule.multiplier rule - Decimal.mk 10 (-1)))%dec
  else if PricingRule.rule_type rule =? "EQUIPMENT_FEE" then
    ret (PricingRule.flat_fee rule
         * Decimal.of_int (Z.of_nat (List.length (equipment_list q))))%dec
  else if PricingRule.rule_type rule =? "COACH_FEE" then
    match coach q with
    | Some c => ret (Coach.hourly_fee c)
    | None => raise AttributeError
    end
  else ret (PricingRule.flat_fee rule).

Definition breakdown_item (rule : PricingRule.t) (rule_amount : Decimal.t)
  : BreakdownItem.t :=
  BreakdownItem.mk (PricingRule.name rule) (PricingRule.rule_type rule)
    (PyFloat.of_decimal rule_amount)
    (Some (PricingRule.is_percentage rule))
    (if PricingRule.is_percentage rule
     then Some (PyFloat.of_decimal (PricingRule.multiplier rule)) else None).

(** One turn of [for rule in pricing_rules], on the pair
    [(current_price, breakdown)]. *)
Definition apply_rule (q : Request)
  (st : Decimal.t * list BreakdownItem.t) (rule : PricingRule.t)
  : Result (Decimal.t * list BreakdownItem.t) :=
  let '(current_price, breakdown) := st in
  applied <- applies q rule ;;
  if applied : bool then
    amount <- rule_amount q current_price rule ;;
    ret ((current_price + amount)%dec,
         (breakdown ++ [breakdown_item rule amount])%list)
  else ret st.

Definition base_item : BreakdownItem.t :=
  BreakdownItem.mk "Base Court Price" "base"
    (PyFloat.of_decimal BASE_COURT_PRICE) None None.

(** The loop over an already fetched list of rules. *)
Definition run_rules (q : Request) (rules : list PricingRule.t)
  (st : Decimal.t * list BreakdownItem.t)
  : Result (Decimal.t * list BreakdownItem.t) :=
  foldM (apply_rule q) rules st.

Definition calculate_price (db : DB) (q : Request) : Result PricingData :=
  st <- run_rules q (enabled_rules db) (BASE_COURT_PRICE, [base_item]) ;;
  ret (mkPricingData (fst st) BASE_COURT_PRICE (snd st)).

(** [get_price_preview], on a date and times already read:
    [Equipment.objects.filter(id__in=equipment_ids)] yields each row once,
    and a coach that does not exist is priced as no coach. [None] is the
    answer [{'error': 'Court not found'}]. *)
Definition get_price_preview (db : DB) (court_id : Z) (date : Date)
  (start_time end_time : Time) (equipment_ids : list Z)
  (coach_id : option Z) : option (Result PricingData) :=
  match find (fun c => Z.eqb (Court.id c) court_id) (courts db) with
  | None => None
  | Some court =>
      let equipment_list :=
        order_by (fun x y => String.leb (Equipment.name x) (Equipment.name y))
          (filter (fun e => existsb (Z.eqb (Equipment.id e)) equipment_ids)
                  (equipment db)) in
      let coach :=
        match coach_id with
        | Some c =>
            if negb (Z.eqb c 0)
            then find (fun x => Z.eqb (Coach.id x) c) (coaches db)
            else None
        | None => None
        end in
      Some (calculate_price db
              (mkRequest court date start_time end_time equipment_list coach))
  end.

End PricingEngine.

(* ------------------------------------------------------------------ *)
(** ** [booking/services/availability.py]: AvailabilityService *)

(** [if some_id:] on an optional key: [None] and [0] are false. *)
Definition truthy_id (o : option Z) : bool :=
  match o with
  | Some i => negb (i =? 0)
  | None => false
  end.

Definition mem (i : Z) (l : list Z) : bool := existsb (Z.eqb i) l.

(** [Sum('quantity')] *)
Definition sumZ (l : list Z) : Z := fold_right Z.add 0 l.

Module AvailabilityService.

(** The filter every availability query shares:
    [date=date, start_time__lt=end_time, end_time__gt=start_time,
     status='CONFIRMED']. *)
Definition overlapping_confirmed (date : Date) (start_time end_time : Time)
  (b : Booking.t) : bool :=
  (Booking.date b =? date)
  && (Booking.start_time b <? end_time)
  && (Booking.end_time b >? start_time)
  && Booking.is_confirmed b.

(** [exclude(id=exclude_booking_id)], when the argument is given. *)
Definition not_excluded (exclude_booking_id : option Z) (i : Z) : bool :=
  if truthy_id exclude_booking_id
  then negb (match exclude_booking_id with Some x => i =? x | None => false end)
  else true.

Definition by_name {A : Type} (name : A -> string) (x y : A) : bool :=
  String.leb (name x) (name y).

Definition get_available_courts (db : DB) (date : Date)
  (start_time end_time : Time) : list Court.t :=
  let all_courts := filter Court.is_active (courts db) in
  let booked_court_ids :=
    map Booking.court
        (filter (overlapping_confirmed date start_time end_time) (bookings db)) in
  order_by (by_name Court.name)
    (filter (fun c => negb (mem (Court.id c) booked_court_ids)) all_courts).

(** The rows of [BookingEquipment] for [equipment_id] whose booking is
    confirmed and overlaps the window (a join on the booking). *)
Definition booked_items (db : DB) (equipment_id : Z) (date : Date)
  (start_time end_time : Time) : list BookingEquipment.t :=
  filter
    (fun be =>
       (BookingEquipment.equipment be =? equipment_id)
       && existsb (fun b => (Booking.id b =? BookingEquipment.booking be)
                            && overlapping_confirmed date start_time end_time b)
                  (bookings db))
    (booking_equipment db).

(** [Equipment.get_available_quantity] *)
Definition get_available_quantity (db : DB) (e : Equipment.t) (date : Date)
  (start_time end_time : Time) : Z :=
  let booked_quantity :=
    sumZ (map BookingEquipment.quantity
              (booked_items db (Equipment.id e) date start_time end_time)) in
  Equipment.total_quantity e - booked_quantity.

Definition get_available_equipment (db : DB) (date : Date)
  (start_time end_time : Time)
  (equipment_type : option Equipment.equipment_type_t)
  : list (Equipment.t * Z) :=
  let equipment_qs :=
    order_by (by_name Equipment.name)
      (match equipment_type with
       | Some ty =>
           filter (fun e => match Equipment.equipment_type e, ty with
                            | Equipment.RACKET, Equipment.RACKET => true
                            | Equipment.SHOES, Equipment.SHOES => true
                            | _, _ => false
                            end) (equipment db)
       | None => equipment db
       end) in
  filter (fun p => snd p >? 0)
    (map (fun e => (e, get_available_quantity db e date start_time end_time))
         equipment_qs).

Definition get_available_coaches (db : DB) (date : Date)
  (start_time end_time : Time) : list Coach.t :=
  let day_of_week := weekday date in
  let available_coach_ids :=
    map CoachAvailability.coach
      (filter
         (fun a =>
            (CoachAvailability.day_of_week a =? day_of_week)
            && (CoachAvailability.start_time a <=? start_time)
            && (CoachAvailability.end_time a >=? end_time)
            && existsb (fun c => (Coach.id c =? CoachAvailability.coach a)
                                 && Coach.is_active c)
                       (coaches db))
         (coach_availability db)) in
  let booked_coach_ids :=
    flat_map (fun b => match Booking.coach b with
                       | Some c => [c]
                       | None => []
                       end)
      (filter (overlapping_confirmed date start_time end_time) (bookings db)) in
  order_by (by_name Coach.name)
    (filter (fun c => mem (Coach.id c) available_coach_ids
                      && negb (mem (Coach.id c) booked_coach_ids))
            (coaches db)).

Definition check_court_available (db : DB) (court_id : Z) (date : Date)
  (start_time end_time : Time) (exclude_booking_id : option Z) : bool :=
  negb (existsb
          (fun b => (Booking.court b =? court_id)
                    && overlapping_confirmed date start_time end_time b
                    && not_excluded exclude_booking_id (Booking.id b))
          (bookings db)).

Definition check_coach_available (db : DB) (coach_id : Z) (date : Date)
  (start_time end_time : Time) (exclude_booking_id : option Z) : bool :=
  let day_of_week := weekday date in
  let has_availability :=
    existsb (fun a => (CoachAvailability.coach a =? coach_id)
                      && (CoachAvailability.day_of_week a =? day_of_week)
                      && (CoachAvailability.start_time a <=? start_time)
                      && (CoachAvailability.end_time a >=? end_time))
            (coach_availability db) in
  if negb has_availability then false
  else
    negb (existsb
            (fun b => match Booking.coach b with
                      | Some c => c =? coach_id
                      | None => false
                      end
                      && overlapping_confirmed date start_time end_time b
                      && not_excluded exclude_booking_id (Booking.id b))
            (bookings db)).

Definition check_equipment_available (db : DB) (equipment_id quantity : Z)
  (date : Date) (start_time end_time : Time) (exclude_booking_id : option Z)
  : Result bool :=
  e <- get_equipment db equipment_id ;;
  let booked_quantity :=
    sumZ (map BookingEquipment.quantity
            (filter (fun be => not_excluded exclude_booking_id
                                 (BookingEquipment.booking be))
                    (booked_items db equipment_id date start_time end_time))) in
  let available_quantity := Equipment.total_quantity e - booked_quantity in
  ret (available_quantity >=? quantity).

(** [{'available': ..., 'errors': ...}] *)
Record Check : Type := mkCheck { available : bool; errors : list string }.

(** [equipment_list] holds the pairs [(equipment_id, quantity)]. *)
Definition check_all_resources_available (db : DB) (date : Date)
  (start_time end_time : Time) (court_id : Z)
  (equipment_list : list (Z * Z)) (coach_id : option Z) : Result Check :=
  let errors0 :=
    if negb (check_court_available db court_id date start_time end_time None)
    then ["Selected court is not available for this time slot"%string]
    else [] in
  errors1 <-
    foldM (fun errors item =>
             ok <- check_equipment_available db (fst item) (snd item)
                     date start_time end_time None ;;
             if negb ok then
               e <- get_equipment db (fst item) ;;
               ret (errors ++ [("Insufficient " ++ Equipment.name e
                                ++ " available")%string])
             else ret errors)
          equipment_list errors0 ;;
  let errors2 :=
    if truthy_id coach_id then
      match coach_id with
      | Some c =>
          if negb (check_coach_available db c date start_time end_time None)
          then errors1
               ++ ["Selected coach is not available for this time slot"%string]
          else errors1
      | None => errors1
      end
    else errors1 in
  ret (mkCheck (match errors2 with [] => true | _ => false end) errors2).

End AvailabilityService.

(* ------------------------------------------------------------------ *)
(** ** [booking/services/waitlist.py]: WaitlistService *)

Module WaitlistService.

(** [court=court, date=date, start_time=start_time, end_time=end_time,
     status='WAITING'] *)
Definition waiting_for (court_id : Z) (date : Date)
  (start_time end_time : Time) (w : Waitlist.t) : bool :=
  (Waitlist.court w =? court_id)
  && (Waitlist.date w =? date)
  && (Waitlist.start_time w =? start_time)
  && (Waitlist.end_time w =? end_time)
  && Waitlist.is_waiting w.

(** The same filter with [user=user] in front. *)
Definition waiting_of (user court_id : Z) (date : Date)
  (start_time end_time : Time) (w : Waitlist.t) : bool :=
  (Waitlist.user w =? user)
  && waiting_for court_id date start_time end_time w.

(** [instance.save()]: the row with the key of [w] becomes [w]. *)
Definition save (w : Waitlist.t) (ws : list Waitlist.t) : list Waitlist.t :=
  map (fun x => if Waitlist.id x =? Waitlist.id w then w else x) ws.

Definition add_to_waitlist (db : DB) (user : Z) (court : Court.t)
  (date : Date) (start_time end_time : Time) (now : Timestamp)
  : option Waitlist.t * DB :=
  let existing :=
    first (filter (waiting_of user (Court.id court) date start_time end_time)
                  (waitlist db)) in
  match existing with
  | Some _ => (None, db)
  | None =>
      let waitlist_entry :=
        Waitlist.mk (waitlist_seq db) user (Court.id court) date
                    start_time end_time Waitlist.WAITING now None in
      (Some waitlist_entry,
       with_waitlist db (waitlist db ++ [waitlist_entry]) (waitlist_seq db + 1))
  end.

(** [for idx, entry in enumerate(waitlist_entries, start=1)], from [idx] *)
Fixpoint position_from (idx : Z) (user : Z) (entries : list Waitlist.t)
  : option Z :=
  match entries with
  | [] => None
  | entry :: rest =>
      if Waitlist.user entry =? user then Some idx
      else position_from (idx + 1) user rest
  end.

Definition get_waitlist_position (db : DB) (user : Z) (court : Court.t)
  (date : Date) (start_time end_time : Time) : option Z :=
  let waitlist_entries :=
    order_by (on_key Waitlist.created_at)
      (filter (waiting_for (Court.id court) date start_time end_time)
              (waitlist db)) in
  position_from 1 user waitlist_entries.

(** [print] stands for the delivery of the notification: [notify w] is
    [false] when writing the message for [w] raises. The enclosing
    [transaction.atomic()] then gives up the writes on its savepoint, which
    the result [inl] amounts to. *)
Definition notify_next_in_queue (notify : Waitlist.t -> bool) (db : DB)
  (court : Court.t) (date : Date) (start_time end_time : Time)
  (now : Timestamp) : Result (option Waitlist.t * DB) :=
  let next_in_queue :=
    first (order_by (on_key Waitlist.created_at)
             (filter (waiting_for (Court.id court) date start_time end_time)
                     (waitlist db))) in
  match next_in_queue with
  | Some w =>
      let w' := Waitlist.set_notified_at now
                  (Waitlist.set_status Waitlist.NOTIFIED w) in
      let db' := with_waitlist db (save w' (waitlist db)) (waitlist_seq db) in
      if notify w' then ret (Some w', db')
      else raise NotificationError
  | None => ret (None, db)
  end.

(** Twenty-four hours, in the microseconds of a timestamp. *)
Definition hours_24 : Z := 24 * 3600 * 1000000.

Definition stale (expiry_time : Timestamp) (w : Waitlist.t) : bool :=
  Waitlist.is_notified w
  && match Waitlist.notified_at w with
     | Some ts => ts <? expiry_time
     | None => false
     end.

Definition expire_old_notifications (db : DB) (now : Timestamp) : Z * DB :=
  let expiry_time := now - hours_24 in
  let expired_count :=
    Z.of_nat (List.length (filter (stale expiry_time) (waitlist db))) in
  (expired_count,
   with_waitlist db
     (map (fun w => if stale expiry_time w
                    then Waitlist.set_status Waitlist.EXPIRED w else w)
          (waitlist db))
     (waitlist_seq db)).

Definition get_user_waitlist_entries (db : DB) (user : Z) : list Waitlist.t :=
  order_by (on_key Waitlist.created_at)
    (filter (fun w => (Waitlist.user w =? user)
                      && (Waitlist.is_waiting w || Waitlist.is_notified w))
            (waitlist db)).

Definition remove_from_waitlist (db : DB) (waitlist_id user : Z) : bool * DB :=
  match find (fun w => (Waitlist.id w =? waitlist_id)
                       && (Waitlist.user w =? user)) (waitlist db) with
  | Some waitlist_entry =>
      (true,
       with_waitlist db
         (filter (fun w => negb (Waitlist.id w =? Waitlist.id waitlist_entry))
                 (waitlist db))
         (waitlist_seq db))
  | None => (false, db)
  end.

End WaitlistService.

(* ------------------------------------------------------------------ *)
(** ** [booking/views.py]: the views that write *)

Module Views.

(** The JSON answers of the views, by their shape. *)
Inductive Response : Type :=
| BookingConfirmed (booking_id : Z)      (* 200: success, booking_id *)
| SlotFull                               (* 409: slot_full, offer the waitlist *)
| NotAvailable (errors : list string)    (* 400: the errors of the check *)
| WaitlistJoined (position : option Z)   (* 200: success, position *)
| AlreadyInWaitlist                      (* 400: already in the waitlist *)
| WaitlistRemoved                        (* 200 *)
| WaitlistEntryNotFound                  (* 404 *)
| BookingCancelled (notified_user : option Z)   (* 200 *)
| BookingNotFound                        (* 404 *)
| Error (e : Exn).                       (* 400: error, str(e) *)

(** The body of a booking request once [json.loads] and [strptime] have
    read it; [equipment] holds the pairs [(id, quantity)]. A body they
    cannot read is answered [Error] before the database is touched. *)
Record BookingRequest : Type := mkBookingRequest
  { court_id : Z; date : Date; start_time : Time; end_time : Time;
    equipment : list (Z * Z); coach_id : option Z }.

(** [try: with transaction.atomic(): ... except Exception as e: ...]:
    a body that raises leaves the database as it was. *)
Definition answer (db : DB) (r : Result (Response * DB)) : Response * DB :=
  match r with
  | inl e => (Error e, db)
  | inr x => x
  end.

(** [BookingEquipment.objects.create]: the schema refuses a negative
    [quantity] (PositiveIntegerField) and a second row for the same
    booking and equipment (unique_together). *)
Definition create_booking_equipment (booking_id : Z) (db : DB)
  (equip_data : Z * Z) : Result DB :=
  let '(equipment_id, quantity) := equip_data in
  if (quantity <? 0)
     || existsb (fun be => (BookingEquipment.booking be =? booking_id)
                           && (BookingEquipment.equipment be =? equipment_id))
                (booking_equipment db)
  then raise IntegrityError
  else
    ret (with_booking_equipment db
           (booking_equipment db
            ++ [BookingEquipment.mk (booking_equipment_seq db) booking_id
                                    equipment_id quantity])
           (booking_equipment_seq db + 1)).

(** [Coach.objects.get(id=coach_id) if coach_id else None] *)
Definition lookup_coach (db : DB) (coach_id : option Z)
  : Result (option Coach.t) :=
  if truthy_id coach_id then
    match coach_id with
    | Some c => x <- get_coach db c ;; ret (Some x)
    | None => ret None
    end
  else ret None.

(** The Booking row [Booking.objects.create] inserts, or the exception of
    the insert. The two prices are [DecimalField(max_digits=10,
    decimal_places=2)]: the row holds them rounded to two places, and a
    price of more than ten digits raises before anything is written. The
    breakdown is a JSON column, whose check constraint refuses a text with
    [Infinity] in it. *)
Definition new_booking (db : DB) (user : Z) (req : BookingRequest)
  (now : Timestamp) (court : Court.t) (coach : option Coach.t)
  (pricing_data : PricingEngine.PricingData) : Result Booking.t :=
  base_price <-
    DecimalField.get_db_prep_save 10 2
      (PricingEngine.base_price pricing_data) ;;
  total_price <-
    DecimalField.get_db_prep_save 10 2
      (PricingEngine.total_price pricing_data) ;;
  if forallb BreakdownItem.json_valid (PricingEngine.breakdown pricing_data)
  then
    ret (Booking.mk (booking_seq db) user (Court.id court) (date req)
           (start_time req) (end_time req) (option_map Coach.id coach)
           base_price total_price (PricingEngine.breakdown pricing_data)
           Booking.CONFIRMED now now)
  else raise IntegrityError.

Definition confirm_booking_body (db : DB) (user : Z) (req : BookingRequest)
  (now : Timestamp) : Result (Response * DB) :=
  let equipment_check_list := equipment req in
  court <- get_court db (court_id req) ;;
  (* [.first()] of the filtered bookings; only whether there is one is used *)
  let existing_booking :=
    first (filter
             (fun b => (Booking.court b =? Court.id court)
                       && AvailabilityService.overlapping_confirmed
                            (date req) (start_time req) (end_time req) b)
             (bookings db)) in
  match existing_booking with
  | Some _ => ret (SlotFull, db)
  | None =>
      availability_check <-
        AvailabilityService.check_all_resources_available db
          (date req) (start_time req) (end_time req) (court_id req)
          equipment_check_list (coach_id req) ;;
      if negb (AvailabilityService.available availability_check) then
        ret (NotAvailable (AvailabilityService.errors availability_check), db)
      else
        coach <- lookup_coach db (coach_id req) ;;
        equipment_instances <-
          mapM (fun e => get_equipment db (fst e)) (equipment req) ;;
        pricing_data <-
          PricingEngine.calculate_price db
            (PricingEngine.mkRequest court (date req) (start_time req)
               (end_time req) equipment_instances coach) ;;
        booking <- new_booking db user req now court coach pricing_data ;;
        let db1 :=
          with_bookings db (bookings db ++ [booking]) (booking_seq db + 1) in
        db2 <- foldM (create_booking_equipment (Booking.id booking))
                     (equipment req) db1 ;;
        ret (BookingConfirmed (Booking.id booking), db2)
  end.

Definition confirm_booking (db : DB) (user : Z) (req : BookingRequest)
  (now : Timestamp) : Response * DB :=
  answer db (confirm_booking_body db user req now).

Definition join_waitlist (db : DB) (user court_id : Z) (date : Date)
  (start_time end_time : Time) (now : Timestamp) : Response * DB :=
  answer db
    (court <- get_court db court_id ;;
     let '(waitlist_entry, db') :=
       WaitlistService.add_to_waitlist db user court date start_time
                                       end_time now in
     match waitlist_entry with
     | Some _ =>
         ret (WaitlistJoined
                (WaitlistService.get_waitlist_position db' user court date
                   start_time end_time),
              db')
     | None => ret (AlreadyInWaitlist, db')
     end).

Definition remove_from_waitlist (db : DB) (user waitlist_id : Z)
  : Response * DB :=
  let '(removed, db') :=
    WaitlistService.remove_from_waitlist db waitlist_id user in
  if removed : bool then (WaitlistRemoved, db')
  else (WaitlistEntryNotFound, db').

(** [booking.save()]: the row with the key of [b] becomes [b]. *)
Definition save_booking (b : Booking.t) (bs : list Booking.t)
  : list Booking.t :=
  map (fun x => if Booking.id x =? Booking.id b then b else x) bs.

(** The notification runs inside the [with transaction.atomic()] block
    that cancels the booking. *)
Definition cancel_booking (notify : Waitlist.t -> bool) (db : DB)
  (user booking_id : Z) (now : Timestamp) : Response * DB :=
  match find (fun b => (Booking.id b =? booking_id)
                       && (Booking.user b =? user)
                       && Booking.is_confirmed b) (bookings db) with
  | None => (BookingNotFound, db)
  | Some booking =>
      answer db
        (court <- get_court db (Booking.court booking) ;;
         let date := Booking.date booking in
         let start_time := Booking.start_time booking in
         let end_time := Booking.end_time booking in
         let booking' := Booking.set_status Booking.CANCELLED now booking in
         let db1 :=
           with_bookings db (save_booking booking' (bookings db))
                         (booking_seq db) in
         '(notified, db2) <-
           WaitlistService.notify_next_in_queue notify db1 court date
             start_time end_time now ;;
         ret (BookingCancelled (option_map Waitlist.user notified), db2))
  end.

End Views.

(* ------------------------------------------------------------------ *)
(** ** A database to compute on: the rows of [seed_data.py], shortened *)

Module Seed.
Local Open Scope string_scope.

Definition indoor1 : Court.t := Court.mk 1 "Indoor Court 1" Court.INDOOR true.
Definition outdoor1 : Court.t := Court.mk 3 "Outdoor Court 1" Court.OUTDOOR true.

Definition racket : Equipment.t := Equipment.mk 1 "Yonex Racket" Equipment.RACKET 10.
Definition shoes : Equipment.t := Equipment.mk 2 "Court Shoes" Equipment.SHOES 8.

Definition rajesh : Coach.t := Coach.mk 1 "Coach Rajesh Kumar" (cents 20000) true.
(** A coach an administrator has switched off. *)
Definition priya : Coach.t := Coach.mk 2 "Coach Priya Sharma" (cents 25000) false.

Definition indoor_premium : PricingRule.t :=
  PricingRule.mk 1 "Indoor Court Premium" "INDOOR_PREMIUM"
    (cents 120) (cents 0) true true 1 None None "".
Definition peak_hours : PricingRule.t :=
  PricingRule.mk 2 "Peak Hours (6PM-9PM)" "PEAK_HOURS"
    (cents 150) (cents 0) true true 2 (Some (hm 18 0)) (Some (hm 21 0)) "".
Definition weekend : PricingRule.t :=
  PricingRule.mk 3 "Weekend Premium" "WEEKEND"
    (cents 130) (cents 0) true true 3 None None "5,6".
Definition racket_fee : PricingRule.t :=
  PricingRule.mk 4 "Racket Rental Fee" "EQUIPMENT_FEE"
    (cents 100) (cents 5000) false true 4 None None "".
Definition coach_fee : PricingRule.t :=
  PricingRule.mk 6 "Coach Fee" "COACH_FEE"
    (cents 100) (cents 0) false true 6 None None "".

(** 2025-11-06, a Thursday. *)
Definition thursday : Date := 739561.

Definition db : DB :=
  mkDB [indoor1; outdoor1] [racket; shoes] [rajesh; priya]
       [CoachAvailability.mk 1 1 3 (hm 6 0) (hm 12 0);
        CoachAvailability.mk 2 2 3 (hm 16 0) (hm 22 0)]
       [indoor_premium; peak_hours; weekend; racket_fee; coach_fee]
       [] [] [] 1 1 1.

(** An indoor court at a peak hour, nothing else. *)
Definition indoor_peak : PricingEngine.Request :=
  PricingEngine.mkRequest indoor1 thursday (hm 18 0) (hm 19 0) [] None.

(** Two rules of one priority, stored with the later name first: a flat
    surcharge of 100 and a premium of 50%. *)
Definition surcharge_b : PricingRule.t :=
  PricingRule.mk 7 "B flat surcharge" "INDOOR_PREMIUM"
    (cents 100) (cents 10000) false true 1 None None "".
Definition premium_a : PricingRule.t :=
  PricingRule.mk 8 "A indoor premium" "INDOOR_PREMIUM"
    (cents 150) (cents 0) true true 1 None None "".

Definition db_ties : DB :=
  mkDB [indoor1] [] [] [] [surcharge_b; premium_a] [] [] [] 1 1 1.




(** User 7 books the indoor court on Thursday from 18:00 to 19:00; users 8
    and 9 then queue for that slot, in this order. *)
Definition slot : Views.BookingRequest :=
  Views.mkBookingRequest 1 thursday (hm 18 0) (hm 19 0) [] None.

Definition db_booked : DB := snd (Views.confirm_booking db 7 slot 100).

Definition db_queue : DB :=
  snd (Views.join_waitlist
         (snd (Views.join_waitlist db_booked 8 1 thursday (hm 18 0) (hm 19 0) 200))
         9 1 thursday (hm 18 0) (hm 19 0) 300).

(** A request for zero rackets, one for minus one, on a free court. *)
Definition zero_rackets : Views.BookingRequest :=
  Views.mkBookingRequest 1 thursday (hm 9 0) (hm 10 0) [(1, 0)] None.

Definition minus_one_racket : Views.BookingRequest :=
  Views.mkBookingRequest 1 thursday (hm 9 0) (hm 10 0) [(1, -1)] None.

(** Three premiums of 3% on the indoor court: 500.00 becomes 515.0000,
    530.450000 and 546.36350000. *)
Definition premium_3 (id priority : Z) : PricingRule.t :=
  PricingRule.mk id "Premium of 3%" "INDOOR_PREMIUM"
    (cents 103) (cents 0) true true priority None None "".

Definition db_three_premiums : DB :=
  mkDB [indoor1] [] [] [] [premium_3 11 1; premium_3 12 2; premium_3 13 3]
       [] [] [] 1 1 1.

(** A flat fee that takes the total beyond ten digits. *)
Definition huge_fee : PricingRule.t :=
  PricingRule.mk 14 "Huge fee" "INDOOR_PREMIUM"
    (cents 100) (cents 9999999999) false true 1 None None "".

Definition db_huge_fee : DB :=
  mkDB [indoor1] [] [] [] [huge_fee] [] [] [] 1 1 1.

Definition morning : Views.BookingRequest :=
  Views.mkBookingRequest 1 thursday (hm 9 0) (hm 10 0) [] None.

(** A request that names the coach who is switched off. *)
Definition with_priya : Views.BookingRequest :=
  Views.mkBookingRequest 3 thursday (hm 18 0) (hm 19 0) [] (Some 2).

End Seed.

(* ------------------------------------------------------------------ *)
(** ** The predicates the properties are stated with *)

Module PricingSpec.


(** The rule applies to the request, and its test does not raise. *)
Definition applied (q : PricingEngine.Request) (rule : PricingRule.t) : bool :=
  match PricingEngine.applies q rule with
  | inr true => true
  | _ => false
  end.

(** The order the specification asks for: priority ascending, and name
    ascending among rules of one priority. *)
Definition priority_then_name (a b : PricingRule.t) : Prop :=
  PricingRule.priority a < PricingRule.priority b
  \/ (PricingRule.priority a = PricingRule.priority b
      /\ String.leb (PricingRule.name a) (PricingRule.name b) = true).

Definition by_priority : PricingRule.t -> PricingRule.t -> Prop :=
  le_on PricingRule.priority.

End PricingSpec.

Module BookingSpec.

(** No CONFIRMED booking of the court overlaps the window on that date. *)
Definition court_free (db : DB) (court_id : Z) (date : Date)
  (start_time end_time : Time) : Prop :=
  forall b, In b (bookings db) -> Booking.court b = court_id ->
            AvailabilityService.overlapping_confirmed date start_time end_time b
            = false.

(** A BookingEquipment row without its key. *)
Definition line (be : BookingEquipment.t) : Z * Z * Z :=
  (BookingEquipment.booking be, BookingEquipment.equipment be,
   BookingEquipment.quantity be).

(** No line item refers to the booking key the sequence gives out next. *)
Definition next_booking_fresh (db : DB) : Prop :=
  forall be, In be (booking_equipment db) ->
             BookingEquipment.booking be <> booking_seq db.

(** [y] is the price [x] as a column of ten digits, two of them decimal
    places, holds it: a number of hundredths below ten digits, equal to [x]
    when [x] has no digit beyond the hundredths, and otherwise the nearest
    number of hundredths, the even one of two as near. *)
Definition stored_price (x y : Decimal.t) : Prop :=
  Decimal.expo y = -2
  /\ Z.abs (Decimal.coef y) < 10 ^ 10
  /\ (-2 <= Decimal.expo x ->
      Decimal.coef y = Decimal.coef x * 10 ^ (Decimal.expo x + 2))
  /\ (Decimal.expo x < -2 ->
      2 * Z.abs (Decimal.coef x
                 - Decimal.coef y * 10 ^ (-2 - Decimal.expo x))
      <= 10 ^ (-2 - Decimal.expo x)
      /\ (2 * Z.abs (Decimal.coef x
                     - Decimal.coef y * 10 ^ (-2 - Decimal.expo x))
          = 10 ^ (-2 - Decimal.expo x) ->
          Z.even (Decimal.coef y) = true)).

(** The number [x] is ten to the eighth or more, either way: it does not
    fit ten digits of which two are decimal places. *)
Definition too_long (x : Decimal.t) : Prop :=
  10 ^ 8 * 10 ^ Z.max 0 (- Decimal.expo x)
  <= Z.abs (Decimal.coef x) * 10 ^ Z.max 0 (Decimal.expo x).

End BookingSpec.

Module WaitlistSpec.

(** The entry is WAITING for the court, date and window. *)
Definition waiting_on (court_id : Z) (date : Date) (start_time end_time : Time)
  (w : Waitlist.t) : Prop :=
  Waitlist.court w = court_id
  /\ Waitlist.date w = date
  /\ Waitlist.start_time w = start_time
  /\ Waitlist.end_time w = end_time
  /\ Waitlist.status w = Waitlist.WAITING.

(** The entry is a WAITING entry of the requester for the slot. *)
Definition waiting_as (user court_id : Z) (date : Date)
  (start_time end_time : Time) (w : Waitlist.t) : Prop :=
  Waitlist.user w = user
  /\ waiting_on court_id date start_time end_time w.

(** At most one WAITING entry per requester and slot: two rows of the table
    that are WAITING for one requester, court, date and window are one
    row. *)
Definition at_most_one_waiting (db : DB) : Prop :=
  forall (i j : nat) (w1 w2 : Waitlist.t),
    nth_error (waitlist db) i = Some w1 ->
    nth_error (waitlist db) j = Some w2 ->
    Waitlist.user w1 = Waitlist.user w2 ->
    Waitlist.court w1 = Waitlist.court w2 ->
    Waitlist.date w1 = Waitlist.date w2 ->
    Waitlist.start_time w1 = Waitlist.start_time w2 ->
    Waitlist.end_time w1 = Waitlist.end_time w2 ->
    Waitlist.status w1 = Waitlist.WAITING ->
    Waitlist.status w2 = Waitlist.WAITING ->
    i = j.

(** One operation of the core on the database: the four writers of the
    waitlist service and the four views that write. *)
Inductive step : DB -> DB -> Prop :=
| step_add_to_waitlist db user court date s e now :
    step db (snd (WaitlistService.add_to_waitlist db user court date s e now))
| step_notify_next_in_queue notify db court date s e now r db' :
    WaitlistService.notify_next_in_queue notify db court date s e now
    = inr (r, db') ->
    step db db'
| step_expire_old_notifications db now :
    step db (snd (WaitlistService.expire_old_notifications db now))
| step_remove_from_waitlist db waitlist_id user :
    step db (snd (WaitlistService.remove_from_waitlist db waitlist_id user))
| step_confirm_booking db user req now :
    step db (snd (Views.confirm_booking db user req now))
| step_join_waitlist db user court_id date s e now :
    step db (snd (Views.join_waitlist db user court_id date s e now))
| step_remove_view db user waitlist_id :
    step db (snd (Views.remove_from_waitlist db user waitlist_id))
| step_cancel_booking notify db user booking_id now :
    step db (snd (Views.cancel_booking notify db user booking_id now)).

(** The entry [add_to_waitlist] creates. *)
Definition new_entry (db : DB) (user : Z) (court : Court.t) (date : Date)
  (start_time end_time : Time) (now : Timestamp) : Waitlist.t :=
  Waitlist.mk (waitlist_seq db) user (Court.id court) date start_time end_time
              Waitlist.WAITING now None.

End WaitlistSpec.

Module DBSpec.

(** A primary key: no two rows of the table carry the same one. *)
Definition unique_ids {A : Type} (id : A -> Z) (l : list A) : Prop :=
  NoDup (map id l).

End DBSpec.

Module AvailabilitySpec.

(** The equipment line is short: the check answers [False], or does not
    answer. *)
Definition short (db : DB) (date : Date) (start_time end_time : Time)
  (item : Z * Z) : bool :=
  match AvailabilityService.check_equipment_available db (fst item) (snd item)
          date start_time end_time None with
  | inr true => false
  | _ => true
  end.

(** The coach asked for, if any, fails [check_coach_available]. *)
Definition coach_fails (db : DB) (date : Date) (start_time end_time : Time)
  (coach_id : option Z) : bool :=
  match coach_id with
  | Some c =>
      truthy_id coach_id
      && negb (AvailabilityService.check_coach_available db c date start_time
                 end_time None)
  | None => false
  end.

Definition b2n (b : bool) : nat := if b then 1%nat else 0%nat.

End AvailabilitySpec.

Module BookingInv.

(** Two bookings may stand together: they are not both CONFIRMED for one
    court and date with windows that overlap. *)
Definition compatible (b1 b2 : Booking.t) : Prop :=
  Booking.is_confirmed b1 = true ->
  Booking.is_confirmed b2 = true ->
  Booking.court b1 = Booking.court b2 ->
  Booking.date b1 = Booking.date b2 ->
  _time_overlaps (Booking.start_time b1) (Booking.end_time b1)
                 (Booking.start_time b2) (Booking.end_time b2) = false.

(** No two rows of the booking table are a double booking. *)
Definition no_double_booking (db : DB) : Prop :=
  ForallOrdPairs compatible (bookings db).

(** Every booking key is below the next of the sequence. *)
Definition ids_below_seq (db : DB) : Prop :=
  forall b, In b (bookings db) -> Booking.id b < booking_seq db.

(** [b'] is the row [b] at a later time: the key, the requester and the
    slot are those of [b], and the status is that of [b] or CANCELLED. *)
Definition later_row (b b' : Booking.t) : Prop :=
  Booking.id b' = Booking.id b
  /\ Booking.user b' = Booking.user b
  /\ Booking.court b' = Booking.court b
  /\ Booking.date b' = Booking.date b
  /\ Booking.start_time b' = Booking.start_time b
  /\ Booking.end_time b' = Booking.end_time b
  /\ (Booking.status b' = Booking.status b
      \/ Booking.status b' = Booking.CANCELLED).

End BookingInv.

Module QueueSpec.

(** The queue of a slot: its WAITING entries, oldest first. *)
Definition queue (db : DB) (court_id : Z) (date : Date)
  (start_time end_time : Time) : list Waitlist.t :=
  order_by (on_key Waitlist.created_at)
    (filter (WaitlistService.waiting_for court_id date start_time end_time)
            (waitlist db)).

End QueueSpec.

Module EquipmentSpec.

(** The units of one equipment a request asks for, over all its lines. *)
Definition requested (lines : list (Z * Z)) (equipment_id : Z) : Z :=
  sumZ (map snd (filter (fun item => fst item =? equipment_id) lines)).

(** No booking carries the key the sequence gives out next. *)
Definition booking_ids_fresh (db : DB) : Prop :=
  forall b, In b (bookings db) -> Booking.id b <> booking_seq db.

(** The booked quantity of [get_available_quantity], read off the line
    items without their keys. *)
Definition booked_quantity (bs : list Booking.t) (lines : list (Z * Z * Z))
  (equipment_id : Z) (date : Date) (start_time end_time : Time) : Z :=
  sumZ (map snd
          (filter
             (fun l =>
                (snd (fst l) =? equipment_id)
                && existsb
                     (fun b => (Booking.id b =? fst (fst l))
                               && AvailabilityService.overlapping_confirmed
                                    date start_time end_time b) bs)
             lines)).

End EquipmentSpec.

(* ------------------------------------------------------------------ *)
(** ** [AvailabilityService.get_time_slots] *)

Module TimeSlots.

(** A day, and a minute, in the microseconds of [Time]. *)
Definition day : Z := 24 * 3600 * 1000000.
Definition minute : Z := 60 * 1000000.

(** [date.min.toordinal()] and [date.max.toordinal()] *)
Definition min_ordinal : Z := 1.
Definition max_ordinal : Z := 3652059.

(** The greatest number of days of a [timedelta], either way. *)
Definition max_delta_days : Z := 999999999.

Record Slot : Type := mkSlot
  { start_time : Time; end_time : Time; display : string }.

(** What a run of the function comes to: the list it returns, the
    [OverflowError] of the date arithmetic, or a loop that is still turning
    when the fuel is spent. *)
Inductive Outcome : Type :=
| Slots (slots : list Slot)
| Overflow
| OutOfFuel.

Definition two_digits (n : Z) : string :=
  String (ascii_of_nat (48 + Z.to_nat (n / 10)))
    (String (ascii_of_nat (48 + Z.to_nat (n mod 10))) EmptyString).

(** [t.strftime('%I:%M %p')] in the C locale, for a time of whole minutes. *)
Definition strftime_I_M_p (t : Time) : string :=
  let h := t / (60 * minute) in
  let m := (t / minute) mod 60 in
  let h12 := if h mod 12 =? 0 then 12 else h mod 12 in
  let am_pm := if h <? 12 then "AM"%string else "PM"%string in
  (two_digits h12 ++ ":" ++ two_digits m ++ " " ++ am_pm)%string.

(** [while current_time < end_time_limit: ...], [fuel] turns at most. *)
Fixpoint loop (fuel : nat) (date : Date) (delta : Z) (end_time_limit : Time)
  (current_time : Time) (slots : list Slot) : Outcome :=
  match fuel with
  | O => OutOfFuel
  | S fuel' =>
      if current_time <? end_time_limit then
        (* datetime.combine(date, current_time) + timedelta(...) *)
        let end_datetime := current_time + delta in
        let end_ordinal := date + end_datetime / day in
        if (end_ordinal <? min_ordinal) || (max_ordinal <? end_ordinal)
        then Overflow
        else
          let slot_end_time := end_datetime mod day in
          if slot_end_time >? end_time_limit then Slots slots
          else
            loop fuel' date delta end_time_limit slot_end_time
              (slots
               ++ [mkSlot current_time slot_end_time
                     (strftime_I_M_p current_time ++ " - "
                      ++ strftime_I_M_p slot_end_time)%string])
      else Slots slots
  end.

(** [timedelta(minutes=n)] raises when it spans more than [max_delta_days]
    days; it is built anew in every turn, so only when the loop is entered,
    which it always is: 6:00 is before 22:00. *)
Definition get_time_slots (fuel : nat) (date : Date)
  (slot_duration_minutes : Z) : Outcome :=
  let start_hour := 6 in
  let end_hour := 22 in
  let current_time := hm start_hour 0 in
  let end_time_limit := hm end_hour 0 in
  match fuel with
  | O => OutOfFuel
  | S _ =>
      let days := slot_duration_minutes / 1440 in
      if (days <? - max_delta_days) || (max_delta_days <? days) then Overflow
      else loop fuel date (slot_duration_minutes * minute) end_time_limit
                current_time []
  end.

(** The slots follow one another from [t]: each starts where the one before
    ended and before the limit, ends [delta] later on the clock, and not
    after the limit. *)
Inductive chained (delta : Z) (limit : Time) : Time -> list Slot -> Prop :=
| chained_nil t : chained delta limit t []
| chained_cons t slot rest :
    start_time slot = t ->
    t < limit ->
    end_time slot = (t + delta) mod day ->
    end_time slot <= limit ->
    chained delta limit (end_time slot) rest ->
    chained delta limit t (slot :: rest).

(** The slot number [i] of an even division from 6:00, [n] minutes each. *)
Definition even_slot (n : Z) (i : nat) : Slot :=
  let s := hm 6 0 + Z.of_nat i * (n * minute) in
  let e := hm 6 0 + (Z.of_nat i + 1) * (n * minute) in
  mkSlot s e (strftime_I_M_p s ++ " - " ++ strftime_I_M_p e)%string.

End TimeSlots.

(* ================================================================== *)
(** * Properties *)

(* ------------------------------------------------------------------ *)
(** ** The error monad and the loops *)

Lemma bind_inr {A B : Type} (m : Result A) (k : A -> Result B) (b : B) :
  bind m k = inr b -> exists a, m = inr a /\ k a = inr b.
Proof.
  destruct m as [e | a]; simpl; intros H.
  - discriminate.
  - exists a. split; [reflexivity | exact H].
Qed.

(** Open the first bind of a computation known to return. *)
Ltac unbind H x :=
  apply bind_inr in H;
  let Hx := fresh "H" x in
  destruct H as [x [Hx H]].

Lemma foldM_app {A S : Type} (f : S -> A -> Result S) (l1 l2 : list A) (s : S) :
  foldM f (l1 ++ l2) s = bind (foldM f l1 s) (foldM f l2).
Proof.
  revert s. induction l1 as [| x l1 IH]; intros s; simpl.
  - reflexivity.
  - destruct (f s x) as [e | s']; simpl; [reflexivity | apply IH].
Qed.

Lemma mapM_length {A B : Type} (f : A -> Result B) (l : list A) (r : list B) :
  mapM f l = inr r -> List.length r = List.length l.
Proof.
  revert r. induction l as [| x l IH]; intros r; simpl.
  - intros H. injection H as <-. reflexivity.
  - destruct (f x) as [e | y]; simpl; [discriminate |].
    destruct (mapM f l) as [e | ys]; simpl; [discriminate |].
    intros H. injection H as <-. simpl. f_equal. apply IH. reflexivity.
Qed.

(* ------------------------------------------------------------------ *)
(** ** [order_by] sorts, permutes, and keeps ties in scan order *)

Section OrderByPerm.
Context {A : Type} (leb : A -> A -> bool).

Lemma insert_by_perm (x : A) (l : list A) :
  Permutation (x :: l) (insert_by leb x l).
Proof.
  induction l as [| y l IH]; simpl.
  - apply Permutation_refl.
  - destruct (leb x y).
    + apply Permutation_refl.
    + eapply perm_trans; [apply perm_swap |].
      apply perm_skip. exact IH.
Qed.

Lemma order_by_perm (l : list A) : Permutation l (order_by leb l).
Proof.
  induction l as [| x l IH]; simpl.
  - apply perm_nil.
  - eapply perm_trans; [| apply insert_by_perm].
    apply perm_skip. exact IH.
Qed.

Lemma order_by_In (l : list A) (x : A) : In x (order_by leb l) <-> In x l.
Proof.
  split; intros H.
  - eapply Permutation_in; [apply Permutation_sym, order_by_perm | exact H].
  - eapply Permutation_in; [apply order_by_perm | exact H].
Qed.

End OrderByPerm.

Section OrderByFacts.
Context {A : Type} (key : A -> Z).

Local Abbreviation le_key := (le_on key).

Lemma insert_by_sorted (x : A) (l : list A) :
  StronglySorted le_key l -> StronglySorted le_key (insert_by (on_key key) x l).
Proof.
  induction 1 as [| y l Hs IH Hall]; simpl.
  - constructor; constructor.
  - unfold on_key at 1. destruct (Z.leb_spec (key x) (key y)) as [Hle | Hlt].
    + constructor.
      * constructor; assumption.
      * constructor; [exact Hle |].
        eapply Forall_impl; [| exact Hall].
        unfold le_key. intros a Ha. lia.
    + constructor; [exact IH |].
      assert (Hp := insert_by_perm (on_key key) x l).
      eapply Permutation_Forall; [exact Hp |].
      constructor; [unfold le_key; lia | exact Hall].
Qed.

Lemma order_by_sorted (l : list A) :
  StronglySorted le_key (order_by (on_key key) l).
Proof.
  induction l as [| x l IH]; simpl.
  - constructor.
  - apply insert_by_sorted. exact IH.
Qed.

Lemma insert_by_ties (k : Z) (x : A) (l : list A) :
  filter (fun a => key a =? k) (insert_by (on_key key) x l)
  = filter (fun a => key a =? k) (x :: l).
Proof.
  induction l as [| y l IH].
  - reflexivity.
  - cbn [insert_by]. unfold on_key at 1.
    destruct (Z.leb_spec (key x) (key y)) as [Hle | Hlt]; [reflexivity |].
    cbn [filter] in *. rewrite IH.
    destruct (Z.eqb_spec (key y) k) as [Hy | Hy];
      destruct (Z.eqb_spec (key x) k) as [Hx | Hx]; try reflexivity.
    lia.
Qed.

(** Stability: the rows of one key come out in the order they went in. *)
Lemma order_by_ties (k : Z) (l : list A) :
  filter (fun a => key a =? k) (order_by (on_key key) l)
  = filter (fun a => key a =? k) l.
Proof.
  induction l as [| x l IH].
  - reflexivity.
  - cbn [order_by]. rewrite insert_by_ties. cbn [filter]. rewrite IH.
    reflexivity.
Qed.

(** [order_by(...).first()] is a row of the query with the least key. *)
Lemma first_order_by_least (l : list A) (x : A) :
  first (order_by (on_key key) l) = Some x ->
  In x l /\ forall y, In y l -> key x <= key y.
Proof.
  intros H.
  assert (Hp := order_by_perm (on_key key) l).
  assert (Hs := order_by_sorted l).
  destruct (order_by (on_key key) l) as [| h t]; [discriminate |].
  injection H as ->.
  split.
  - eapply Permutation_in; [apply Permutation_sym; exact Hp | left; reflexivity].
  - intros y Hy.
    apply (Permutation_in _ Hp) in Hy.
    inversion Hs as [| ? ? _ Hall]; subst.
    destruct Hy as [<- | Hy]; [lia |].
    rewrite Forall_forall in Hall. apply Hall. exact Hy.
Qed.

Lemma first_order_by_none (l : list A) :
  first (order_by (on_key key) l) = None -> l = [].
Proof.
  intros H.
  assert (Hp := order_by_perm (on_key key) l).
  destruct (order_by (on_key key) l); [| discriminate].
  apply Permutation_sym, Permutation_nil in Hp. exact Hp.
Qed.

End OrderByFacts.

(* ------------------------------------------------------------------ *)
(** ** The overlap test *)

(** C8. [_time_overlaps] is the test of half-open windows: it says true
    exactly when the first window starts before the end of the second and
    ends after its start. It is symmetric in its two windows; and two
    adjacent windows, the second starting where the first ends, never
    overlap, in either order, as with [9,10) and [10,11). *)
Theorem time_overlaps_symmetric_adjacent :
  (forall s1 e1 s2 e2 : Time,
      _time_overlaps s1 e1 s2 e2 = true <-> s1 < e2 /\ e1 > s2)
  /\ (forall s1 e1 s2 e2 : Time,
         _time_overlaps s1 e1 s2 e2 = _time_overlaps s2 e2 s1 e1)
  /\ (forall s m e : Time,
         _time_overlaps s m m e = false /\ _time_overlaps m e s m = false)
  /\ _time_overlaps (hm 9 0) (hm 10 0) (hm 10 0) (hm 11 0) = false
  /\ _time_overlaps (hm 10 0) (hm 11 0) (hm 9 0) (hm 10 0) = false.
Proof.
  split; [| split; [| split; [| split; reflexivity]]].
  - intros s1 e1 s2 e2. unfold _time_overlaps.
    rewrite andb_true_iff, Z.ltb_lt, Z.gtb_ltb, Z.ltb_lt. lia.
  - intros s1 e1 s2 e2. unfold _time_overlaps.
    rewrite andb_comm.
    f_equal.
    + rewrite Z.gtb_ltb. reflexivity.
    + rewrite Z.gtb_ltb. reflexivity.
  - intros s m e. unfold _time_overlaps. rewrite !Z.gtb_ltb, !Z.ltb_irrefl.
    rewrite andb_false_r. split; reflexivity.
Qed.

(* ------------------------------------------------------------------ *)
(** ** The pricing engine *)

Module PricingFacts.
Import PricingEngine.
Local Open Scope string_scope.

(** An applied rule adds its amount to the price and records the amount. *)
Lemma apply_rule_applied (q : Request) (p : Decimal.t)
  (bd : list BreakdownItem.t) (rule : PricingRule.t) (a : Decimal.t) :
  applies q rule = inr true ->
  rule_amount q p rule = inr a ->
  apply_rule q (p, bd) rule
  = inr ((p + a)%dec, (bd ++ [breakdown_item rule a])%list).
Proof.
  intros Happ Hamt. unfold apply_rule. rewrite Happ. simpl.
  rewrite Hamt. reflexivity.
Qed.


Lemma run_rules_snoc (q : Request) (pre : list PricingRule.t)
  (rule : PricingRule.t) (st0 st : Decimal.t * list BreakdownItem.t) :
  run_rules q pre st0 = inr st ->
  run_rules q (pre ++ [rule]) st0 = apply_rule q st rule.
Proof.
  intros H. unfold run_rules in *. rewrite foldM_app, H. simpl.
  destruct (apply_rule q st rule); reflexivity.
Qed.

(** The names of the breakdown, after the base entry, are those of the
    rules that applied, in the order the rules were fetched. *)
Lemma run_rules_names (q : Request) (rules : list PricingRule.t) :
  forall st st',
    run_rules q rules st = inr st' ->
    map BreakdownItem.rule (snd st')
    = (map BreakdownItem.rule (snd st)
       ++ map PricingRule.name (filter (PricingSpec.applied q) rules))%list.
Proof.
  unfold run_rules.
  induction rules as [| r rules IH]; intros [p bd] st' H; simpl in H.
  - injection H as <-. simpl. rewrite app_nil_r. reflexivity.
  - apply bind_inr in H. destruct H as [s1 [H1 H2]].
    apply IH in H2. rewrite H2. clear H2 IH.
    unfold apply_rule in H1. cbn [filter]. unfold PricingSpec.applied at 2.
    destruct (applies q r) as [e | [|]]; simpl in H1; try discriminate.
    + apply bind_inr in H1. destruct H1 as [a [_ H1]].
      injection H1 as <-. simpl. rewrite map_app, <- app_assoc. reflexivity.
    + injection H1 as <-. reflexivity.
Qed.

End PricingFacts.







(** C6. A flat-fee rule that applies adds: for EQUIPMENT_FEE, its flat fee
    times the number of equipment entries of the request (one per line item
    in a booking, whatever the quantities); for COACH_FEE, the hourly fee of
    the coach, the flat fee of the rule playing no part; for any other type,
    its flat fee. In a booking the entries are one per line item. With a flat
    fee of 50 and two lines the rule adds 100; a COACH_FEE rule with flat fee
    0 and a coach at 200 adds 200. *)
Theorem flat_fee_rule_amounts :
  (forall (q : PricingEngine.Request) (current_price : Decimal.t)
          (breakdown : list BreakdownItem.t) (rule : PricingRule.t),
      PricingEngine.applies q rule = inr true ->
      PricingRule.is_percentage rule = false ->
      exists delta,
        PricingEngine.apply_rule q (current_price, breakdown) rule
        = inr ((current_price + delta)%dec,
               breakdown ++ [PricingEngine.breakdown_item rule delta])
        /\ BreakdownItem.amount (PricingEngine.breakdown_item rule delta)
           = PyFloat.of_decimal delta
        /\ (PricingRule.rule_type rule = "EQUIPMENT_FEE"%string ->
            delta = (PricingRule.flat_fee rule
                     * Decimal.of_int
                         (Z.of_nat (List.length (PricingEngine.equipment_list q))))%dec)
        /\ (PricingRule.rule_type rule = "COACH_FEE"%string ->
            exists c, PricingEngine.coach q = Some c
                      /\ delta = Coach.hourly_fee c)
        /\ (PricingRule.rule_type rule <> "EQUIPMENT_FEE"%string ->
            PricingRule.rule_type rule <> "COACH_FEE"%string ->
            delta = PricingRule.flat_fee rule))
  /\ (forall (db : DB) (lines : list (Z * Z)) (instances : list Equipment.t),
         mapM (fun e => get_equipment db (fst e)) lines = inr instances ->
         List.length instances = List.length lines)
  /\ PricingEngine.rule_amount
       (PricingEngine.mkRequest Seed.indoor1 Seed.thursday (hm 9 0) (hm 10 0)
          [Seed.racket; Seed.shoes] None)
       (cents 50000) Seed.racket_fee
     = inr (cents 10000)
  /\ PricingEngine.rule_amount
       (PricingEngine.mkRequest Seed.indoor1 Seed.thursday (hm 9 0) (hm 10 0)
          [] (Some Seed.rajesh))
       (cents 50000) Seed.coach_fee
     = inr (cents 20000).
Proof.
  split; [| split; [| repeat split; reflexivity]].
  - intros q p bd rule Happ Hflat.
    unfold PricingEngine.applies in Happ.
    assert (Hamt : exists delta,
               PricingEngine.rule_amount q p rule = inr delta
               /\ (PricingRule.rule_type rule = "EQUIPMENT_FEE"%string ->
                   delta = (PricingRule.flat_fee rule
                            * Decimal.of_int
                                (Z.of_nat (List.length (PricingEngine.equipment_list q))))%dec)
               /\ (PricingRule.rule_type rule = "COACH_FEE"%string ->
                   exists c, PricingEngine.coach q = Some c
                             /\ delta = Coach.hourly_fee c)
               /\ (PricingRule.rule_type rule <> "EQUIPMENT_FEE"%string ->
                   PricingRule.rule_type rule <> "COACH_FEE"%string ->
                   delta = PricingRule.flat_fee rule)).
    { unfold PricingEngine.rule_amount. rewrite Hflat.
      destruct (String.eqb_spec (PricingRule.rule_type rule) "EQUIPMENT_FEE")
        as [He | He].
      - eexists. split; [reflexivity |]. split; [reflexivity |].
        split; [rewrite He; discriminate | contradiction].
      - destruct (String.eqb_spec (PricingRule.rule_type rule) "COACH_FEE")
          as [Hc | Hc].
        + rewrite Hc in Happ. cbn in Happ.
          destruct (PricingEngine.coach q) as [c |]; [| discriminate].
          eexists. split; [reflexivity |]. split; [contradiction |].
          split; [| contradiction].
          intros _. exists c. split; reflexivity.
        + eexists. split; [reflexivity |]. split; [contradiction |].
          split; [contradiction | reflexivity]. }
    destruct Hamt as [delta [Hamt Hcases]].
    exists delta. split; [| split; [reflexivity | exact Hcases]].
    apply PricingFacts.apply_rule_applied; [| exact Hamt].
    unfold PricingEngine.applies. exact Happ.
  - intros db lines instances H. eapply mapM_length. exact H.
Qed.

(** The general part at the coach rule of the seed data: flat fee 0, coach
    at 200. *)
Lemma flat_fee_rule_witness :
  exists delta,
    PricingEngine.apply_rule
      (PricingEngine.mkRequest Seed.indoor1 Seed.thursday (hm 9 0) (hm 10 0)
         [] (Some Seed.rajesh))
      (cents 50000, [PricingEngine.base_item]) Seed.coach_fee
    = inr ((cents 50000 + delta)%dec,
           [PricingEngine.base_item;
            PricingEngine.breakdown_item Seed.coach_fee delta])
    /\ delta = cents 20000.
Proof.
  destruct (proj1 flat_fee_rule_amounts
              (PricingEngine.mkRequest Seed.indoor1 Seed.thursday (hm 9 0)
                 (hm 10 0) [] (Some Seed.rajesh))
              (cents 50000) [PricingEngine.base_item] Seed.coach_fee
              eq_refl eq_refl)
    as [delta [Hstep [_ [_ [Hcoach _]]]]].
  exists delta. split; [exact Hstep |].
  destruct (Hcoach eq_refl) as [c [Hc ->]].
  injection Hc as <-. reflexivity.
Defined.

(** C4, as stated, fails: two enabled rules of priority 1, stored as
    "B flat surcharge" then "A indoor premium", are fetched and applied in
    that order, the later name first; the price is (500 + 100) * 1.5 = 900,
    where the order by name would give 500 * 1.5 + 100 = 850. *)
Lemma equal_priority_rules_not_by_name :
  PricingEngine.enabled_rules Seed.db_ties = [Seed.surcharge_b; Seed.premium_a]
  /\ PricingRule.priority Seed.surcharge_b = PricingRule.priority Seed.premium_a
  /\ String.ltb (PricingRule.name Seed.premium_a)
                (PricingRule.name Seed.surcharge_b) = true
  /\ ~ StronglySorted PricingSpec.priority_then_name
         (PricingEngine.enabled_rules Seed.db_ties)
  /\ (exists pd,
         PricingEngine.calculate_price Seed.db_ties Seed.indoor_peak = inr pd
         /\ map BreakdownItem.rule (PricingEngine.breakdown pd)
            = ["Base Court Price"; "B flat surcharge"; "A indoor premium"]%string
         /\ PricingEngine.total_price pd = Decimal.mk 9000000 (-4))
  /\ (exists st,
         PricingEngine.run_rules Seed.indoor_peak
           [Seed.premium_a; Seed.surcharge_b]
           (PricingEngine.BASE_COURT_PRICE, [PricingEngine.base_item]) = inr st
         /\ fst st = Decimal.mk 8500000 (-4)).
Proof.
  split; [reflexivity |]. split; [reflexivity |]. split; [reflexivity |].
  split; [| split].
  - intros Hs. change (PricingEngine.enabled_rules Seed.db_ties)
      with [Seed.surcharge_b; Seed.premium_a] in Hs.
    inversion Hs as [| ? ? _ Hall]; subst.
    inversion Hall as [| ? ? Hab _]; subst.
    destruct Hab as [Hlt | [_ Hleb]].
    + cbn in Hlt. lia.
    + vm_compute in Hleb. discriminate.
  - eexists. split; [vm_compute; reflexivity |]. split; reflexivity.
  - eexists. split; [vm_compute; reflexivity |]. reflexivity.
Qed.

(** C4, amended. The enabled rules are fetched in ascending priority and
    nothing else orders them: the list is a permutation of the enabled rows,
    sorted on the priority, and the rules of one priority keep the order of
    the rows; the breakdown names the rules that applied in that order. *)
Theorem enabled_rules_ordered_by_priority_only :
  forall db : DB,
    StronglySorted PricingSpec.by_priority (PricingEngine.enabled_rules db)
    /\ Permutation (filter PricingRule.is_enabled (pricing_rules db))
                   (PricingEngine.enabled_rules db)
    /\ (forall p : Z,
           filter (fun r => PricingRule.priority r =? p)
                  (PricingEngine.enabled_rules db)
           = filter (fun r => PricingRule.priority r =? p)
                    (filter PricingRule.is_enabled (pricing_rules db)))
    /\ (forall (q : PricingEngine.Request) (pd : PricingEngine.PricingData),
           PricingEngine.calculate_price db q = inr pd ->
           map BreakdownItem.rule (PricingEngine.breakdown pd)
           = "Base Court Price"%string
             :: map PricingRule.name
                    (filter (PricingSpec.applied q)
                            (PricingEngine.enabled_rules db))).
Proof.
  intros db. unfold PricingEngine.enabled_rules.
  split; [apply order_by_sorted |].
  split; [apply order_by_perm |].
  split; [intros p; apply order_by_ties |].
  intros q pd Hcalc.
  unfold PricingEngine.calculate_price in Hcalc.
  apply bind_inr in Hcalc. destruct Hcalc as [st [Hrun Hpd]].
  injection Hpd as <-. cbn [PricingEngine.breakdown].
  apply PricingFacts.run_rules_names in Hrun. exact Hrun.
Qed.

(** The amended order at the two tied rules. *)
Lemma enabled_rules_order_witness :
  exists pd,
    PricingEngine.calculate_price Seed.db_ties Seed.indoor_peak = inr pd
    /\ map BreakdownItem.rule (PricingEngine.breakdown pd)
       = ["Base Court Price"; "B flat surcharge"; "A indoor premium"]%string.
Proof.
  destruct (PricingEngine.calculate_price Seed.db_ties Seed.indoor_peak)
    as [e | pd] eqn:E.
  - vm_compute in E. discriminate.
  - exists pd. split; [reflexivity |].
    rewrite (proj2 (proj2 (proj2
               (enabled_rules_ordered_by_priority_only Seed.db_ties)))
               Seed.indoor_peak pd E).
    reflexivity.
Defined.

(* ------------------------------------------------------------------ *)
(** ** Lookups and queries *)

Lemma first_filter_some {A : Type} (p : A -> bool) (l : list A) (x : A) :
  In x l -> p x = true -> exists y, first (filter p l) = Some y.
Proof.
  intros Hin Hp.
  assert (H : In x (filter p l)) by (apply filter_In; split; assumption).
  destruct (filter p l) as [| y t]; [contradiction |].
  exists y. reflexivity.
Qed.

Lemma first_filter_none {A : Type} (p : A -> bool) (l : list A) :
  first (filter p l) = None -> forall x, In x l -> p x = false.
Proof.
  intros H x Hin.
  destruct (p x) eqn:Hp; [| reflexivity].
  destruct (first_filter_some p l x Hin Hp) as [y Hy]. congruence.
Qed.

Lemma get_court_id (db : DB) (i : Z) (c : Court.t) :
  get_court db i = inr c -> Court.id c = i /\ In c (courts db).
Proof.
  unfold get_court, get_or_raise. intros H.
  destruct (find _ (courts db)) as [c' |] eqn:Hf; [| discriminate].
  injection H as <-. apply find_some in Hf. destruct Hf as [Hin Heq].
  apply Z.eqb_eq in Heq. split; assumption.
Qed.

Lemma existsb_false_forall {A : Type} (p : A -> bool) (l : list A) :
  existsb p l = false <-> forall x, In x l -> p x = false.
Proof.
  split.
  - intros H x Hin. destruct (p x) eqn:Hp; [| reflexivity].
    assert (existsb p l = true) by (apply existsb_exists; exists x; auto).
    congruence.
  - intros H. destruct (existsb p l) eqn:He; [| reflexivity].
    apply existsb_exists in He. destruct He as [x [Hin Hp]].
    rewrite (H x Hin) in Hp. discriminate.
Qed.

(* ------------------------------------------------------------------ *)
(** ** Booking *)

(** C1. When the court of the request has a CONFIRMED booking on the date of
    the request whose window overlaps the requested one, [confirm_booking]
    answers [SlotFull], the answer that offers the waitlist, which is neither
    the itemised nor the generic error, and the database is left as it was:
    no Booking row and no BookingEquipment row is created. *)
Theorem confirm_booking_slot_taken :
  forall (db : DB) (user : Z) (req : Views.BookingRequest) (now : Timestamp)
         (court : Court.t) (b : Booking.t),
    get_court db (Views.court_id req) = inr court ->
    In b (bookings db) ->
    Booking.court b = Views.court_id req ->
    Booking.date b = Views.date req ->
    Booking.start_time b < Views.end_time req ->
    Booking.end_time b > Views.start_time req ->
    Booking.status b = Booking.CONFIRMED ->
    Views.confirm_booking db user req now = (Views.SlotFull, db)
    /\ (forall errors, Views.SlotFull <> Views.NotAvailable errors)
    /\ (forall e, Views.SlotFull <> Views.Error e).
Proof.
  intros db user req now court b Hcourt Hin Hc Hd Hs He Hst.
  split; [| split; intros; discriminate].
  unfold Views.confirm_booking, Views.confirm_booking_body.
  rewrite Hcourt. cbn [bind].
  destruct (get_court_id _ _ _ Hcourt) as [Hid _].
  edestruct (first_filter_some
               (fun b0 => (Booking.court b0 =? Court.id court)
                          && AvailabilityService.overlapping_confirmed
                               (Views.date req) (Views.start_time req)
                               (Views.end_time req) b0)
               (bookings db) b Hin) as [y Hy].
  - unfold AvailabilityService.overlapping_confirmed, Booking.is_confirmed.
    rewrite Hst, Hid, Hc, Hd.
    rewrite !Z.eqb_refl. cbn [andb].
    replace (Booking.start_time b <? Views.end_time req) with true
      by (symmetry; apply Z.ltb_lt; lia).
    replace (Booking.end_time b >? Views.start_time req) with true
      by (symmetry; rewrite Z.gtb_ltb; apply Z.ltb_lt; lia).
    reflexivity.
  - rewrite Hy. reflexivity.
Qed.

(** On the seeded database: the slot user 7 holds is refused to user 8, for
    a window that overlaps it by half an hour. *)
Lemma confirm_booking_slot_taken_witness :
  Views.confirm_booking Seed.db_booked 8
    (Views.mkBookingRequest 1 Seed.thursday (hm 18 30) (hm 19 30) [(1, 2)] None)
    150
  = (Views.SlotFull, Seed.db_booked).
Proof.
  refine (proj1 (confirm_booking_slot_taken Seed.db_booked 8
                   (Views.mkBookingRequest 1 Seed.thursday (hm 18 30) (hm 19 30)
                      [(1, 2)] None)
                   150 Seed.indoor1
                   (nth 0 (bookings Seed.db_booked)
                        (Booking.mk 0 0 0 0 0 0 None (cents 0) (cents 0) []
                           Booking.CANCELLED 0 0))
                   _ _ _ _ _ _ _)).
  - vm_compute. reflexivity.
  - vm_compute. left. reflexivity.
  - vm_compute. reflexivity.
  - vm_compute. reflexivity.
  - vm_compute. reflexivity.
  - vm_compute. reflexivity.
  - vm_compute. reflexivity.
Defined.

(* ------------------------------------------------------------------ *)
(** ** Cancellation *)

Lemma notify_next_in_queue_bookings (notify : Waitlist.t -> bool) (db db' : DB)
  (court : Court.t) (date : Date) (s e : Time) (now : Timestamp)
  (notified : option Waitlist.t) :
  WaitlistService.notify_next_in_queue notify db court date s e now
  = inr (notified, db') ->
  bookings db' = bookings db.
Proof.
  unfold WaitlistService.notify_next_in_queue.
  destruct (first _) as [w |].
  - destruct (notify _); [| discriminate].
    intros H. injection H as _ <-. reflexivity.
  - intros H. injection H as _ <-. reflexivity.
Qed.

Lemma save_booking_In (b b' : Booking.t) (bs : list Booking.t) :
  In b bs -> Booking.id b' = Booking.id b -> In b' (Views.save_booking b' bs).
Proof.
  intros Hin Hid. unfold Views.save_booking.
  apply in_map_iff. exists b. split; [| exact Hin].
  rewrite Hid, Z.eqb_refl. reflexivity.
Qed.

Lemma save_booking_same_id (b' x : Booking.t) (bs : list Booking.t) :
  In x (Views.save_booking b' bs) -> Booking.id x = Booking.id b' -> x = b'.
Proof.
  unfold Views.save_booking. intros Hin Hid.
  apply in_map_iff in Hin. destruct Hin as [y [Hy _]].
  destruct (Z.eqb_spec (Booking.id y) (Booking.id b')) as [_ | Hne].
  - symmetry. exact Hy.
  - subst x. contradiction.
Qed.

(** C2, as stated, fails: user 7 cancels the confirmed booking 1 while users
    8 and 9 wait for its slot, and the notification raises. The view answers
    the generic error and the database is the one it started from: booking 1
    is still CONFIRMED. *)
Lemma failed_notification_undoes_cancellation :
  map (fun b => (Booking.id b, Booking.user b, Booking.status b))
      (bookings Seed.db_queue)
  = [(1, 7, Booking.CONFIRMED)]
  /\ Views.cancel_booking (fun _ => false) Seed.db_queue 7 1 400
     = (Views.Error NotificationError, Seed.db_queue)
  /\ map Booking.status
         (bookings (snd (Views.cancel_booking (fun _ => false)
                           Seed.db_queue 7 1 400)))
     = [Booking.CONFIRMED].
Proof.
  split; [vm_compute; reflexivity |]. split; vm_compute; reflexivity.
Qed.

(** C2, amended. The cancellation and the notification of the waitlist are
    one transaction. For a CONFIRMED booking of the requester: when the
    notification step raises, the view answers the generic error and the
    database is unchanged, so the booking stays CONFIRMED; when it returns,
    the view answers success and, in the database it leaves, the booking is
    CANCELLED. *)
Theorem cancellation_commits_only_with_notification :
  forall (notify : Waitlist.t -> bool) (db : DB) (user booking_id : Z)
         (now : Timestamp) (booking : Booking.t) (court : Court.t),
    find (fun b => (Booking.id b =? booking_id)
                   && (Booking.user b =? user)
                   && Booking.is_confirmed b) (bookings db) = Some booking ->
    get_court db (Booking.court booking) = inr court ->
    let cancelled := Booking.set_status Booking.CANCELLED now booking in
    let db1 :=
      with_bookings db (Views.save_booking cancelled (bookings db))
                    (booking_seq db) in
    let step :=
      WaitlistService.notify_next_in_queue notify db1 court
        (Booking.date booking) (Booking.start_time booking)
        (Booking.end_time booking) now in
    (forall e, step = inl e ->
               Views.cancel_booking notify db user booking_id now
               = (Views.Error e, db)
               /\ In booking (bookings db)
               /\ Booking.status booking = Booking.CONFIRMED)
    /\ (forall notified db2,
           step = inr (notified, db2) ->
           Views.cancel_booking notify db user booking_id now
           = (Views.BookingCancelled (option_map Waitlist.user notified), db2)
           /\ In cancelled (bookings db2)
           /\ Booking.status cancelled = Booking.CANCELLED
           /\ forall b, In b (bookings db2) -> Booking.id b = booking_id ->
                        Booking.status b = Booking.CANCELLED).
Proof.
  intros notify db user booking_id now booking court Hfind Hcourt
         cancelled db1 step.
  assert (Hfound := find_some _ _ Hfind).
  destruct Hfound as [Hin Hp].
  apply andb_prop in Hp. destruct Hp as [Hp Hconf].
  apply andb_prop in Hp. destruct Hp as [Hid _].
  apply Z.eqb_eq in Hid.
  split.
  - intros e Hstep. split; [| split].
    + unfold Views.cancel_booking. rewrite Hfind, Hcourt. cbn [bind].
      fold cancelled. fold db1. fold step. rewrite Hstep. reflexivity.
    + exact Hin.
    + unfold Booking.is_confirmed in Hconf.
      destruct (Booking.status booking); [reflexivity | discriminate].
  - intros notified db2 Hstep. split; [| split; [| split]].
    + unfold Views.cancel_booking. rewrite Hfind, Hcourt. cbn [bind].
      fold cancelled. fold db1. fold step. rewrite Hstep. reflexivity.
    + rewrite (notify_next_in_queue_bookings _ _ _ _ _ _ _ _ _ Hstep).
      apply save_booking_In with (b := booking); [exact Hin | reflexivity].
    + reflexivity.
    + intros b Hb Hbid.
      rewrite (notify_next_in_queue_bookings _ _ _ _ _ _ _ _ _ Hstep) in Hb.
      cbn [db1 bookings with_bookings] in Hb.
      apply save_booking_same_id in Hb.
      * subst b. reflexivity.
      * cbn. congruence.
Qed.

(** Both halves on the seeded queue: a notification that raises leaves
    booking 1 CONFIRMED, one that returns cancels it and notifies user 8. *)
Lemma cancellation_witness :
  Views.cancel_booking (fun _ => false) Seed.db_queue 7 1 400
  = (Views.Error NotificationError, Seed.db_queue)
  /\ fst (Views.cancel_booking (fun _ => true) Seed.db_queue 7 1 400)
     = Views.BookingCancelled (Some 8).
Proof.
  pose (booking := nth 0 (bookings Seed.db_queue)
                       (Booking.mk 0 0 0 0 0 0 None (cents 0) (cents 0) []
                          Booking.CANCELLED 0 0)).
  assert (Hfind : find (fun b => (Booking.id b =? 1) && (Booking.user b =? 7)
                                 && Booking.is_confirmed b)
                       (bookings Seed.db_queue) = Some booking)
    by (vm_compute; reflexivity).
  assert (Hcourt : get_court Seed.db_queue (Booking.court booking)
                   = inr Seed.indoor1)
    by (vm_compute; reflexivity).
  pose proof (cancellation_commits_only_with_notification
                (fun _ => false) Seed.db_queue 7 1 400 booking Seed.indoor1
                Hfind Hcourt) as [Hraise _].
  pose proof (cancellation_commits_only_with_notification
                (fun _ => true) Seed.db_queue 7 1 400 booking Seed.indoor1
                Hfind Hcourt) as [_ Hreturn].
  split.
  - assert (Hstep : WaitlistService.notify_next_in_queue (fun _ => false)
                      (with_bookings Seed.db_queue
                         (Views.save_booking
                            (Booking.set_status Booking.CANCELLED 400 booking)
                            (bookings Seed.db_queue))
                         (booking_seq Seed.db_queue))
                      Seed.indoor1 (Booking.date booking)
                      (Booking.start_time booking) (Booking.end_time booking) 400
                    = inl NotificationError)
      by (vm_compute; reflexivity).
    destruct (Hraise NotificationError Hstep) as [Hans _]. exact Hans.
  - destruct (WaitlistService.notify_next_in_queue (fun _ => true)
                (with_bookings Seed.db_queue
                   (Views.save_booking
                      (Booking.set_status Booking.CANCELLED 400 booking)
                      (bookings Seed.db_queue))
                   (booking_seq Seed.db_queue))
                Seed.indoor1 (Booking.date booking) (Booking.start_time booking)
                (Booking.end_time booking) 400) as [e | [notified db2]] eqn:E.
    + vm_compute in E. discriminate.
    + destruct (Hreturn notified db2 eq_refl) as [Hans _]. rewrite Hans.
      vm_compute in E. injection E as <- _. reflexivity.
Defined.

(* ------------------------------------------------------------------ *)
(** ** The path of [confirm_booking] past the checks *)

Lemma filter_all_false {A : Type} (p : A -> bool) (l : list A) :
  (forall x, In x l -> p x = false) -> filter p l = [].
Proof.
  induction l as [| x l IH]; intros H; simpl.
  - reflexivity.
  - rewrite (H x (or_introl eq_refl)). apply IH.
    intros y Hy. apply H. right. exact Hy.
Qed.

Lemma filter_all_true {A : Type} (p : A -> bool) (l : list A) :
  (forall x, In x l -> p x = true) -> filter p l = l.
Proof.
  induction l as [| x l IH]; intros H; simpl.
  - reflexivity.
  - rewrite (H x (or_introl eq_refl)). f_equal. apply IH.
    intros y Hy. apply H. right. exact Hy.
Qed.

Lemma court_free_no_existing_booking (db : DB) (court : Court.t)
  (date : Date) (s e : Time) :
  BookingSpec.court_free db (Court.id court) date s e ->
  first (filter (fun b => (Booking.court b =? Court.id court)
                          && AvailabilityService.overlapping_confirmed date s e b)
                (bookings db)) = None.
Proof.
  intros Hfree. rewrite filter_all_false; [reflexivity |].
  intros b Hb.
  destruct (Z.eqb_spec (Booking.court b) (Court.id court)) as [Hc | Hc].
  - rewrite (Hfree b Hb Hc). reflexivity.
  - reflexivity.
Qed.

Lemma court_free_check_court_available (db : DB) (court_id : Z)
  (date : Date) (s e : Time) :
  BookingSpec.court_free db court_id date s e ->
  AvailabilityService.check_court_available db court_id date s e None = true.
Proof.
  intros Hfree. unfold AvailabilityService.check_court_available.
  apply negb_true_iff, existsb_false_forall.
  intros b Hb.
  destruct (Z.eqb_spec (Booking.court b) court_id) as [Hc | Hc].
  - rewrite (Hfree b Hb Hc). reflexivity.
  - reflexivity.
Qed.

(** *** The decimal columns *)

Module DecimalFacts.

Lemma ndigits_fuel_bound (fuel : nat) :
  forall n, 0 <= n < 2 ^ (Z.of_nat fuel + 1) ->
            1 <= Decimal.ndigits_fuel fuel n
            /\ n < 10 ^ Decimal.ndigits_fuel fuel n.
Proof.
  induction fuel as [| fuel IH]; intros n Hn.
  - cbn in *. lia.
  - cbn [Decimal.ndigits_fuel].
    destruct (Z.ltb_spec n 10) as [Hlt | Hge]; [cbn; lia |].
    assert (Hpow : 2 ^ (Z.of_nat (S fuel) + 1) = 2 * 2 ^ (Z.of_nat fuel + 1)).
    { rewrite Nat2Z.inj_succ, <- Z.pow_succ_r by lia. f_equal; lia. }
    assert (Hp : 0 < 2 ^ (Z.of_nat fuel + 1)) by (apply Z.pow_pos_nonneg; lia).
    destruct (IH (n / 10)) as [H1 Hb].
    { split; [apply Z.div_pos; lia |].
      apply Z.div_lt_upper_bound; lia. }
    split; [lia |].
    rewrite Z.pow_add_r by lia. change (10 ^ 1) with 10.
    assert (Hdm := Z.div_mod n 10 ltac:(lia)).
    assert (Hm := Z.mod_pos_bound n 10 ltac:(lia)).
    lia.
Qed.

(** A number is below ten to the number of its digits. *)
Lemma ndigits_bound (n : Z) :
  1 <= Decimal.ndigits n /\ Z.abs n < 10 ^ Decimal.ndigits n.
Proof.
  unfold Decimal.ndigits. apply ndigits_fuel_bound.
  split; [lia |].
  rewrite Z2Nat.id by apply Z.log2_nonneg.
  destruct (Z.eq_dec (Z.abs n) 0) as [-> | Hnz]; [cbn; lia |].
  apply Z.log2_spec. lia.
Qed.

(** The rounding of [round_half_even]: to the nearest, and on a tie to the
    even one. *)
Lemma round_half_even_spec (c d : Z) :
  0 <= c -> 0 < d ->
  let q := Decimal.round_half_even c d in
  0 <= q
  /\ 2 * Z.abs (c - q * 10 ^ d) <= 10 ^ d
  /\ (2 * Z.abs (c - q * 10 ^ d) = 10 ^ d -> Z.even q = true).
Proof.
  intros Hc Hd. unfold Decimal.round_half_even.
  assert (Hp : 10 ^ d = 2 * (5 * 10 ^ (d - 1))).
  { replace d with (Z.succ (d - 1)) at 1 by lia.
    rewrite Z.pow_succ_r by lia. lia. }
  assert (Hh : 0 < 5 * 10 ^ (d - 1))
    by (assert (0 < 10 ^ (d - 1)) by (apply Z.pow_pos_nonneg; lia); lia).
  set (half := 5 * 10 ^ (d - 1)) in *.
  set (p := 10 ^ d) in *.
  assert (Hdm := Z.div_mod c p ltac:(lia)).
  assert (Hm := Z.mod_pos_bound c p ltac:(lia)).
  assert (Hq : 0 <= c / p) by (apply Z.div_pos; lia).
  set (q := c / p) in *. set (r := c mod p) in *.
  assert (Hqp : q * p = p * q) by apply Z.mul_comm.
  destruct (Z.ltb_spec half r) as [Hlt | Hle]; cbn [orb].
  - cbn zeta. split; [lia |]. split; [lia |]. intros Htie. lia.
  - destruct (Z.eqb_spec r half) as [Heq | Hne]; cbn [andb].
    + destruct (Z.odd q) eqn:Hodd; cbn zeta.
      * split; [lia |]. split; [lia |]. intros _.
        rewrite Z.even_add. rewrite <- Z.negb_odd, Hodd. reflexivity.
      * split; [lia |]. split; [lia |]. intros _.
        rewrite <- Z.negb_odd, Hodd. reflexivity.
    + cbn zeta. split; [lia |]. split; [lia |]. intros Htie. lia.
Qed.

(** What the column holds when the save succeeds. *)
Lemma get_db_prep_save_stored (x y : Decimal.t) :
  DecimalField.get_db_prep_save 10 2 x = inr y -> BookingSpec.stored_price x y.
Proof.
  unfold DecimalField.get_db_prep_save, BookingSpec.stored_price.
  change (Z.opp 2) with (-2).
  destruct (Z.eqb_spec (Decimal.coef x) 0) as [Hz | Hnz].
  - intros H. injection H as <-. cbn [Decimal.coef Decimal.expo].
    rewrite Hz. split; [reflexivity |]. split; [cbn; lia |].
    split; [intros _; reflexivity |].
    intros Hlt.
    assert (0 < 10 ^ (-2 - Decimal.expo x)) by (apply Z.pow_pos_nonneg; lia).
    cbn. lia.
  - destruct (_ >? 10); [discriminate |].
    destruct (Z.gtb_spec
                (Decimal.ndigits
                   (Decimal.coef (DecimalField.rescale x (-2)))) 10)
      as [| Hdig]; [discriminate |].
    intros H. injection H as <-.
    assert (Hb := ndigits_bound (Decimal.coef (DecimalField.rescale x (-2)))).
    assert (Hpow : 10 ^ Decimal.ndigits
                          (Decimal.coef (DecimalField.rescale x (-2)))
                   <= 10 ^ 10)
      by (apply Z.pow_le_mono_r; lia).
    split; [| split; [lia |]].
    + unfold DecimalField.rescale. destruct (_ <=? _); reflexivity.
    + clear Hb Hpow Hdig. unfold DecimalField.rescale.
      destruct (Z.leb_spec (-2) (Decimal.expo x)) as [Hle | Hgt];
        cbn [Decimal.coef].
      * split; [| lia]. intros _.
        replace (Decimal.expo x - -2) with (Decimal.expo x + 2) by lia.
        reflexivity.
      * split; [lia |]. intros _.
        destruct (round_half_even_spec (Z.abs (Decimal.coef x))
                    (-2 - Decimal.expo x) ltac:(lia) ltac:(lia))
          as [Hq [Hnear Htie]].
        set (q := Decimal.round_half_even (Z.abs (Decimal.coef x))
                    (-2 - Decimal.expo x)) in *.
        set (p := 10 ^ (-2 - Decimal.expo x)) in *.
        assert (Hcases : (0 < Decimal.coef x
                          /\ Z.sgn (Decimal.coef x) = 1
                          /\ Z.abs (Decimal.coef x) = Decimal.coef x)
                         \/ (Decimal.coef x < 0
                             /\ Z.sgn (Decimal.coef x) = -1
                             /\ Z.abs (Decimal.coef x) = - Decimal.coef x))
          by lia.
        destruct Hcases as [[Hpos [Hs Ha]] | [Hneg [Hs Ha]]];
          rewrite Hs; rewrite Ha in Hnear, Htie.
        -- replace (Decimal.coef x - 1 * q * p)
             with (Decimal.coef x - q * p) by ring.
           split; [exact Hnear |]. intros H.
           replace (1 * q) with q by ring. apply Htie. exact H.
        -- replace (Decimal.coef x - -1 * q * p)
             with (- (- Decimal.coef x - q * p)) by ring.
           rewrite Z.abs_opp.
           split; [exact Hnear |]. intros H.
           replace (-1 * q) with (- q) by ring. rewrite Z.even_opp.
           apply Htie. exact H.
Qed.

End DecimalFacts.

(** What a row that [new_booking] returns is made of. *)
Lemma new_booking_inv (db : DB) (user : Z) (req : Views.BookingRequest)
  (now : Timestamp) (court : Court.t) (coach : option Coach.t)
  (pd : PricingEngine.PricingData) (b : Booking.t) :
  Views.new_booking db user req now court coach pd = inr b ->
  exists base total,
    DecimalField.get_db_prep_save 10 2 (PricingEngine.base_price pd) = inr base
    /\ DecimalField.get_db_prep_save 10 2 (PricingEngine.total_price pd)
       = inr total
    /\ forallb BreakdownItem.json_valid (PricingEngine.breakdown pd) = true
    /\ b = Booking.mk (booking_seq db) user (Court.id court) (Views.date req)
             (Views.start_time req) (Views.end_time req)
             (option_map Coach.id coach) base total
             (PricingEngine.breakdown pd) Booking.CONFIRMED now now.
Proof.
  unfold Views.new_booking. intros H.
  apply bind_inr in H. destruct H as [base [Hbase H]].
  apply bind_inr in H. destruct H as [total [Htotal H]].
  destruct (forallb _ _) eqn:Hjson; [| discriminate].
  injection H as <-. exists base, total. auto.
Qed.

(** The checks passed, the lookups done and the row accepted, the answer is
    that of the inserts of the line items. *)
Lemma confirm_booking_past_checks (db : DB) (user : Z)
  (req : Views.BookingRequest) (now : Timestamp) (court : Court.t)
  (chk : AvailabilityService.Check) (coach : option Coach.t)
  (instances : list Equipment.t) (pd : PricingEngine.PricingData)
  (booking : Booking.t) :
  get_court db (Views.court_id req) = inr court ->
  BookingSpec.court_free db (Views.court_id req) (Views.date req)
    (Views.start_time req) (Views.end_time req) ->
  AvailabilityService.check_all_resources_available db (Views.date req)
    (Views.start_time req) (Views.end_time req) (Views.court_id req)
    (Views.equipment req) (Views.coach_id req) = inr chk ->
  AvailabilityService.available chk = true ->
  Views.lookup_coach db (Views.coach_id req) = inr coach ->
  mapM (fun e => get_equipment db (fst e)) (Views.equipment req)
  = inr instances ->
  PricingEngine.calculate_price db
    (PricingEngine.mkRequest court (Views.date req) (Views.start_time req)
       (Views.end_time req) instances coach) = inr pd ->
  Views.new_booking db user req now court coach pd = inr booking ->
  Views.confirm_booking db user req now
  = match foldM (Views.create_booking_equipment (booking_seq db))
                (Views.equipment req)
                (with_bookings db (bookings db ++ [booking])
                   (booking_seq db + 1)) with
    | inl e => (Views.Error e, db)
    | inr db2 => (Views.BookingConfirmed (booking_seq db), db2)
    end.
Proof.
  intros Hcourt Hfree Hchk Havail Hcoach Hinst Hprice Hrow.
  unfold Views.confirm_booking, Views.confirm_booking_body.
  rewrite Hcourt. cbn [bind].
  destruct (get_court_id _ _ _ Hcourt) as [Hid _].
  rewrite court_free_no_existing_booking by (rewrite Hid; exact Hfree).
  rewrite Hchk. cbn [bind]. rewrite Havail. cbn [negb].
  rewrite Hcoach. cbn [bind]. rewrite Hinst. cbn [bind].
  rewrite Hprice. cbn [bind]. rewrite Hrow. cbn [bind].
  destruct (new_booking_inv _ _ _ _ _ _ _ _ Hrow) as [base [total [_ [_ [_ ->]]]]].
  cbn [Booking.id].
  destruct (foldM _ _ _); reflexivity.
Qed.

(** The inserts of the line items: all of them pass when no quantity is
    negative, no equipment comes twice and the booking has no line yet for
    the equipment asked. *)
Lemma create_lines_ok (bid : Z) (lines : list (Z * Z)) :
  forall db1 : DB,
    (forall item, In item lines -> 0 <= snd item) ->
    NoDup (map fst lines) ->
    (forall be, In be (booking_equipment db1) ->
                BookingEquipment.booking be = bid ->
                ~ In (BookingEquipment.equipment be) (map fst lines)) ->
    exists db2,
      foldM (Views.create_booking_equipment bid) lines db1 = inr db2
      /\ bookings db2 = bookings db1
      /\ waitlist db2 = waitlist db1
      /\ map BookingSpec.line (booking_equipment db2)
         = map BookingSpec.line (booking_equipment db1)
           ++ map (fun item => (bid, fst item, snd item)) lines.
Proof.
  induction lines as [| [eid q] lines IH]; intros db1 Hq Hnd Hfresh.
  - exists db1. cbn. rewrite app_nil_r. repeat split; reflexivity.
  - cbn [foldM]. unfold Views.create_booking_equipment at 1.
    replace (q <? 0) with false
      by (symmetry; apply Z.ltb_ge; apply (Hq (eid, q)); left; reflexivity).
    cbn [orb].
    replace (existsb _ (booking_equipment db1)) with false.
    2:{ symmetry. apply existsb_false_forall. intros be Hbe.
        destruct (Z.eqb_spec (BookingEquipment.booking be) bid) as [Hb | Hb];
          [| reflexivity].
        destruct (Z.eqb_spec (BookingEquipment.equipment be) eid) as [He | He];
          [| reflexivity].
        exfalso. apply (Hfresh be Hbe Hb). left. symmetry. exact He. }
    cbn [bind ret].
    inversion Hnd as [| ? ? Hnotin Hnd']; subst.
    edestruct (IH (with_booking_equipment db1
                     (booking_equipment db1
                      ++ [BookingEquipment.mk (booking_equipment_seq db1)
                                              bid eid q])
                     (booking_equipment_seq db1 + 1)))
      as [db2 [Hrun [Hb [Hw Hl]]]].
    + intros item Hitem. apply Hq. right. exact Hitem.
    + exact Hnd'.
    + cbn [booking_equipment with_booking_equipment].
      intros be Hbe Hbid Hin.
      apply in_app_or in Hbe. destruct Hbe as [Hbe | [<- | []]].
      * apply (Hfresh be Hbe Hbid). right. exact Hin.
      * cbn in Hin. contradiction.
    + exists db2. split; [exact Hrun |].
      split; [exact Hb |]. split; [exact Hw |].
      rewrite Hl. cbn [booking_equipment with_booking_equipment].
      rewrite map_app, <- app_assoc. reflexivity.
Qed.

(** The inserts raise, with [IntegrityError] and nothing else, as soon as one
    quantity is negative. *)
Lemma create_lines_negative (bid : Z) (lines : list (Z * Z)) :
  forall db1 : DB,
    (exists item, In item lines /\ snd item < 0) ->
    foldM (Views.create_booking_equipment bid) lines db1 = inl IntegrityError.
Proof.
  induction lines as [| [eid q] lines IH]; intros db1 [item [Hin Hneg]].
  - contradiction.
  - cbn [foldM]. unfold Views.create_booking_equipment at 1.
    destruct ((q <? 0) || existsb _ (booking_equipment db1)) eqn:Hc.
    + reflexivity.
    + cbn [bind ret]. apply IH.
      destruct Hin as [<- | Hin].
      * apply orb_false_elim in Hc. destruct Hc as [Hq _].
        apply Z.ltb_ge in Hq. cbn in Hneg. lia.
      * exists item. split; assumption.
Qed.

Lemma get_equipment_id (db : DB) (i : Z) (e : Equipment.t) :
  get_equipment db i = inr e -> Equipment.id e = i.
Proof.
  unfold get_equipment, get_or_raise. intros H.
  destruct (find _ (equipment db)) as [e' |] eqn:Hf; [| discriminate].
  injection H as <-. apply find_some in Hf. destruct Hf as [_ Heq].
  apply Z.eqb_eq in Heq. exact Heq.
Qed.

(** With nothing excluded, the check compares the requested quantity with
    [get_available_quantity], whatever the sign of the request. *)
Lemma check_equipment_available_spec (db : DB) (eid q : Z) (e : Equipment.t)
  (date : Date) (s t : Time) :
  get_equipment db eid = inr e ->
  AvailabilityService.check_equipment_available db eid q date s t None
  = inr (AvailabilityService.get_available_quantity db e date s t >=? q).
Proof.
  intros He. unfold AvailabilityService.check_equipment_available.
  rewrite He. cbn [bind].
  rewrite filter_all_true by (intros; reflexivity).
  unfold AvailabilityService.get_available_quantity.
  rewrite (get_equipment_id _ _ _ He). reflexivity.
Qed.

(* ------------------------------------------------------------------ *)
(** ** Coaches *)

Lemma get_coach_id (db : DB) (i : Z) (c : Coach.t) :
  get_coach db i = inr c -> Coach.id c = i /\ In c (coaches db).
Proof.
  unfold get_coach, get_or_raise. intros H.
  destruct (find _ (coaches db)) as [c' |] eqn:Hf; [| discriminate].
  injection H as <-. apply find_some in Hf. destruct Hf as [Hin Heq].
  apply Z.eqb_eq in Heq. split; assumption.
Qed.

(** C9. A coach whose rows are all inactive, who has a weekly window that
    contains the requested one and no overlapping CONFIRMED booking, passes
    [check_coach_available] and the combined check, and never appears in
    [get_available_coaches]; on a free court, when the price is computed and
    the booking row is accepted by its columns, [confirm_booking] confirms
    the request and the booking it stores carries that coach. *)
Theorem inactive_coach_passes_combined_check :
  forall (db : DB) (user : Z) (req : Views.BookingRequest) (now : Timestamp)
         (court : Court.t) (cid : Z) (c : Coach.t) (a : CoachAvailability.t)
         (pd : PricingEngine.PricingData) (booking : Booking.t),
    Views.coach_id req = Some cid ->
    cid <> 0 ->
    Views.equipment req = [] ->
    get_court db (Views.court_id req) = inr court ->
    BookingSpec.court_free db (Views.court_id req) (Views.date req)
      (Views.start_time req) (Views.end_time req) ->
    get_coach db cid = inr c ->
    (forall c', In c' (coaches db) -> Coach.id c' = cid ->
                Coach.is_active c' = false) ->
    In a (coach_availability db) ->
    CoachAvailability.coach a = cid ->
    CoachAvailability.day_of_week a = weekday (Views.date req) ->
    CoachAvailability.start_time a <= Views.start_time req ->
    CoachAvailability.end_time a >= Views.end_time req ->
    (forall b, In b (bookings db) -> Booking.coach b = Some cid ->
               AvailabilityService.overlapping_confirmed (Views.date req)
                 (Views.start_time req) (Views.end_time req) b = false) ->
    PricingEngine.calculate_price db
      (PricingEngine.mkRequest court (Views.date req) (Views.start_time req)
         (Views.end_time req) [] (Some c)) = inr pd ->
    Views.new_booking db user req now court (Some c) pd = inr booking ->
    Coach.is_active c = false
    /\ AvailabilityService.check_coach_available db cid (Views.date req)
         (Views.start_time req) (Views.end_time req) None = true
    /\ AvailabilityService.check_all_resources_available db (Views.date req)
         (Views.start_time req) (Views.end_time req) (Views.court_id req)
         [] (Some cid)
       = inr (AvailabilityService.mkCheck true [])
    /\ (forall x,
           In x (AvailabilityService.get_available_coaches db (Views.date req)
                   (Views.start_time req) (Views.end_time req)) ->
           Coach.id x <> cid)
    /\ Views.confirm_booking db user req now
       = (Views.BookingConfirmed (booking_seq db),
          with_bookings db (bookings db ++ [booking]) (booking_seq db + 1))
    /\ Booking.coach booking = Some cid
    /\ Booking.status booking = Booking.CONFIRMED.
Proof.
  intros db user req now court cid c a pd booking Hcid Hnz Heq Hcourt Hfree Hc
         Hinactive Ha Hac Had Has Hae Hnobook Hprice Hrow.
  destruct (get_coach_id _ _ _ Hc) as [Hcid' Hcin].
  assert (Hcoach :
            AvailabilityService.check_coach_available db cid (Views.date req)
              (Views.start_time req) (Views.end_time req) None = true).
  { unfold AvailabilityService.check_coach_available.
    replace (existsb _ (coach_availability db)) with true.
    2:{ symmetry. apply existsb_exists. exists a. split; [exact Ha |].
        rewrite Hac, Had, !Z.eqb_refl. cbn [andb].
        apply andb_true_intro. split.
        - apply Z.leb_le. exact Has.
        - apply Z.geb_le. lia. }
    cbn [negb]. apply negb_true_iff, existsb_false_forall.
    intros b Hb. destruct (Booking.coach b) as [c0 |] eqn:Hbc; [| reflexivity].
    destruct (Z.eqb_spec c0 cid) as [-> | Hne]; [| reflexivity].
    rewrite (Hnobook b Hb Hbc). reflexivity. }
  assert (Hall :
            AvailabilityService.check_all_resources_available db
              (Views.date req) (Views.start_time req) (Views.end_time req)
              (Views.court_id req) [] (Some cid)
            = inr (AvailabilityService.mkCheck true [])).
  { unfold AvailabilityService.check_all_resources_available.
    rewrite (court_free_check_court_available _ _ _ _ _ Hfree).
    cbn [negb foldM bind ret]. unfold truthy_id.
    replace (cid =? 0) with false by (symmetry; apply Z.eqb_neq; exact Hnz).
    cbn [negb]. rewrite Hcoach. reflexivity. }
  split; [apply Hinactive; assumption |].
  split; [exact Hcoach |]. split; [exact Hall |]. split.
  - intros x Hx Hxid.
    unfold AvailabilityService.get_available_coaches in Hx.
    apply order_by_In in Hx. apply filter_In in Hx. destruct Hx as [Hxin Hx].
    apply andb_prop in Hx. destruct Hx as [Hx _].
    unfold mem in Hx. apply existsb_exists in Hx.
    destruct Hx as [i [Hi Hxi]]. apply Z.eqb_eq in Hxi. subst i.
    apply in_map_iff in Hi. destruct Hi as [a' [Ha' Hf]].
    apply filter_In in Hf. destruct Hf as [_ Hf].
    apply andb_prop in Hf. destruct Hf as [_ Hact].
    apply existsb_exists in Hact. destruct Hact as [c' [Hc' Hact]].
    apply andb_prop in Hact. destruct Hact as [Hid Hactive].
    apply Z.eqb_eq in Hid.
    rewrite (Hinactive c' Hc') in Hactive; [discriminate | congruence].
  - split.
    + rewrite (confirm_booking_past_checks db user req now court
                 (AvailabilityService.mkCheck true []) (Some c) [] pd booking).
      * rewrite Heq. reflexivity.
      * exact Hcourt.
      * exact Hfree.
      * rewrite Heq, Hcid. exact Hall.
      * reflexivity.
      * rewrite Hcid. unfold Views.lookup_coach, truthy_id.
        replace (cid =? 0) with false by (symmetry; apply Z.eqb_neq; exact Hnz).
        cbn [negb]. rewrite Hc. reflexivity.
      * rewrite Heq. reflexivity.
      * exact Hprice.
      * exact Hrow.
    + destruct (new_booking_inv _ _ _ _ _ _ _ _ Hrow)
        as [base [total [_ [_ [_ ->]]]]].
      cbn. split; [congruence | reflexivity].
Qed.

(** On the seeded database: the switched-off coach is booked for Thursday
    18:00 to 19:00 on the outdoor court, and the listing for that window does
    not show her. *)
Lemma inactive_coach_witness :
  fst (Views.confirm_booking Seed.db 7 Seed.with_priya 100)
  = Views.BookingConfirmed 1
  /\ map Booking.coach
         (bookings (snd (Views.confirm_booking Seed.db 7 Seed.with_priya 100)))
     = [Some 2]
  /\ Coach.is_active Seed.priya = false
  /\ forall x,
       In x (AvailabilityService.get_available_coaches Seed.db Seed.thursday
               (hm 18 0) (hm 19 0)) ->
       Coach.id x <> 2.
Proof.
  destruct (PricingEngine.calculate_price Seed.db
              (PricingEngine.mkRequest Seed.outdoor1 Seed.thursday (hm 18 0)
                 (hm 19 0) [] (Some Seed.priya))) as [e | pd] eqn:Hprice;
    [vm_compute in Hprice; discriminate |].
  destruct (Views.new_booking Seed.db 7 Seed.with_priya 100 Seed.outdoor1
              (Some Seed.priya) pd) as [e | booking] eqn:Hrow.
  { vm_compute in Hprice. injection Hprice as <-.
    vm_compute in Hrow. discriminate. }
  destruct (inactive_coach_passes_combined_check Seed.db 7 Seed.with_priya 100
              Seed.outdoor1 2 Seed.priya
              (CoachAvailability.mk 2 2 3 (hm 16 0) (hm 22 0)) pd booking)
    as [Hoff [_ [_ [Hlist [Hans [Hcoach _]]]]]].
  - reflexivity.
  - discriminate.
  - reflexivity.
  - reflexivity.
  - intros b [].
  - reflexivity.
  - intros c' [<- | [<- | []]]; [discriminate | reflexivity].
  - right. left. reflexivity.
  - reflexivity.
  - reflexivity.
  - vm_compute. discriminate.
  - vm_compute. discriminate.
  - intros b [].
  - exact Hprice.
  - exact Hrow.
  - rewrite Hans. cbn [fst snd bookings with_bookings].
    change (bookings Seed.db) with (@nil Booking.t). cbn [app map].
    rewrite Hcoach.
    split; [reflexivity |]. split; [reflexivity |].
    split; [exact Hoff | exact Hlist].
Defined.

(* ------------------------------------------------------------------ *)
(** ** Tables with a primary key *)

Lemma unique_ids_same_row {A : Type} (id : A -> Z) (l : list A) (x y : A) :
  DBSpec.unique_ids id l -> In x l -> In y l -> id x = id y -> x = y.
Proof.
  unfold DBSpec.unique_ids.
  induction l as [| a l IH]; intros Hnd Hx Hy Hid; [contradiction |].
  cbn [map] in Hnd. inversion Hnd as [| ? ? Hnotin Hnd']; subst.
  destruct Hx as [-> | Hx]; destruct Hy as [-> | Hy].
  - reflexivity.
  - exfalso. apply Hnotin. rewrite Hid. apply in_map. exact Hy.
  - exfalso. apply Hnotin. rewrite <- Hid. apply in_map. exact Hx.
  - apply IH; assumption.
Qed.

Lemma unique_ids_find {A : Type} (id : A -> Z) (l : list A) (x : A) :
  DBSpec.unique_ids id l -> In x l ->
  find (fun y => id y =? id x) l = Some x.
Proof.
  intros Hnd Hx.
  destruct (find (fun y => id y =? id x) l) as [y |] eqn:Hf.
  - apply find_some in Hf. destruct Hf as [Hy Hid]. apply Z.eqb_eq in Hid.
    f_equal. apply (unique_ids_same_row id l); assumption.
  - exfalso. apply (find_none _ _ Hf) in Hx. rewrite Z.eqb_refl in Hx.
    discriminate.
Qed.

(* ------------------------------------------------------------------ *)
(** ** The waitlist *)

(** The same in terms of the filter of the service: for every requester
    and slot, that filter lets at most one row through. *)
Local Abbreviation waiting_count_le_one db :=
  (forall u c d s e,
      (List.length
         (filter (WaitlistService.waiting_of u c d s e) (waitlist db)) <= 1)%nat).

Module WaitlistFacts.
Import WaitlistService.

Lemma waiting_on_iff (c : Z) (d : Date) (s e : Time) (w : Waitlist.t) :
  waiting_for c d s e w = true <-> WaitlistSpec.waiting_on c d s e w.
Proof.
  unfold waiting_for, Waitlist.is_waiting, WaitlistSpec.waiting_on.
  rewrite !andb_true_iff, !Z.eqb_eq.
  destruct (Waitlist.status w); intuition (try discriminate; auto).
Qed.

Lemma waiting_as_iff (u c : Z) (d : Date) (s e : Time) (w : Waitlist.t) :
  waiting_of u c d s e w = true <-> WaitlistSpec.waiting_as u c d s e w.
Proof.
  unfold waiting_of, WaitlistSpec.waiting_as.
  rewrite andb_true_iff, Z.eqb_eq, waiting_on_iff. reflexivity.
Qed.

Lemma not_waiting_as (u c : Z) (d : Date) (s e : Time) (w : Waitlist.t) :
  waiting_of u c d s e w = false <-> ~ WaitlistSpec.waiting_as u c d s e w.
Proof.
  rewrite <- waiting_as_iff. destruct (waiting_of u c d s e w); split;
    try congruence; intros H; exfalso; apply H; reflexivity.
Qed.


(** A filter lets at most one row through exactly when two rows that pass
    are one row. *)
Lemma filter_le_one {A : Type} (p : A -> bool) (l : list A) :
  (List.length (filter p l) <= 1)%nat
  <-> forall i j x y,
        nth_error l i = Some x -> nth_error l j = Some y ->
        p x = true -> p y = true -> i = j.
Proof.
  induction l as [| a l IH].
  - split; [intros _ [| i] j x y H; discriminate | cbn; lia].
  - cbn [filter]. destruct (p a) eqn:Hpa.
    + cbn [List.length]. split.
      * intros Hlen.
        assert (Hnil : filter p l = [])
          by (destruct (filter p l); [reflexivity | cbn in Hlen; lia]).
        assert (Hnone : forall n z, nth_error l n = Some z -> p z = false).
        { intros n z Hz. apply nth_error_In in Hz.
          destruct (p z) eqn:Hpz; [| reflexivity].
          assert (Hin : In z (filter p l)) by (apply filter_In; auto).
          rewrite Hnil in Hin. contradiction. }
        intros [| i] [| j] x y Hx Hy Hpx Hpy; cbn in Hx, Hy.
        -- reflexivity.
        -- rewrite (Hnone j y Hy) in Hpy. discriminate.
        -- rewrite (Hnone i x Hx) in Hpx. discriminate.
        -- rewrite (Hnone j y Hy) in Hpy. discriminate.
      * intros H.
        rewrite filter_all_false; [cbn; lia |].
        intros z Hz. apply In_nth_error in Hz. destruct Hz as [n Hn].
        destruct (p z) eqn:Hpz; [| reflexivity].
        assert (Habs := H 0%nat (S n) a z eq_refl Hn Hpa Hpz). discriminate.
    + rewrite IH. split.
      * intros H [| i] [| j] x y Hx Hy Hpx Hpy; cbn in Hx, Hy.
        -- reflexivity.
        -- injection Hx as <-. congruence.
        -- injection Hy as <-. congruence.
        -- f_equal. eapply H; eassumption.
      * intros H i j x y Hx Hy Hpx Hpy.
        assert (Heq := H (S i) (S j) x y Hx Hy Hpx Hpy). lia.
Qed.

Lemma at_most_one_waiting_count (db : DB) :
  WaitlistSpec.at_most_one_waiting db <-> waiting_count_le_one db.
Proof.
  split.
  - intros H u c d s e. apply filter_le_one.
    intros i j x y Hx Hy Hpx Hpy.
    apply waiting_as_iff in Hpx. apply waiting_as_iff in Hpy.
    destruct Hpx as [Hu1 [Hc1 [Hd1 [Hs1 [He1 Hst1]]]]].
    destruct Hpy as [Hu2 [Hc2 [Hd2 [Hs2 [He2 Hst2]]]]].
    apply (H i j x y Hx Hy); congruence.
  - intros H i j w1 w2 H1 H2 Hu Hc Hd Hs He Hst1 Hst2.
    apply (proj1 (filter_le_one _ _)
             (H (Waitlist.user w1) (Waitlist.court w1) (Waitlist.date w1)
                (Waitlist.start_time w1) (Waitlist.end_time w1))
             i j w1 w2 H1 H2).
    + apply waiting_as_iff. repeat split; auto.
    + apply waiting_as_iff. repeat split; auto.
Qed.

Lemma waiting_for_true (c : Z) (d : Date) (s e : Time) (w : Waitlist.t) :
  waiting_for c d s e w = true <->
  Waitlist.court w = c /\ Waitlist.date w = d /\ Waitlist.start_time w = s
  /\ Waitlist.end_time w = e /\ Waitlist.status w = Waitlist.WAITING.
Proof.
  unfold waiting_for, Waitlist.is_waiting.
  rewrite !andb_true_iff, !Z.eqb_eq.
  destruct (Waitlist.status w); intuition (try discriminate; auto).
Qed.

Lemma waiting_of_true (u c : Z) (d : Date) (s e : Time) (w : Waitlist.t) :
  waiting_of u c d s e w = true <->
  Waitlist.user w = u /\ waiting_for c d s e w = true.
Proof.
  unfold waiting_of. rewrite andb_true_iff, Z.eqb_eq. reflexivity.
Qed.


(** Rewriting rows by a function that keeps a row or makes it fail [p]
    cannot add rows that pass [p]. *)
Lemma filter_map_shrinks {A : Type} (p : A -> bool) (f : A -> A) (l : list A) :
  (forall x, f x = x \/ p (f x) = false) ->
  (List.length (filter p (map f l)) <= List.length (filter p l))%nat.
Proof.
  intros Hf. induction l as [| x l IH]; simpl.
  - lia.
  - destruct (Hf x) as [Hx | Hx].
    + rewrite Hx. destruct (p x); simpl; lia.
    + rewrite Hx. destruct (p x); simpl; lia.
Qed.

Lemma filter_filter_shrinks {A : Type} (p q : A -> bool) (l : list A) :
  (List.length (filter p (filter q l)) <= List.length (filter p l))%nat.
Proof.
  induction l as [| x l IH]; simpl.
  - lia.
  - destruct (q x); simpl; destruct (p x); simpl; lia.
Qed.

Lemma add_to_waitlist_new (db : DB) (user : Z) (court : Court.t) (date : Date)
  (s e : Time) (now : Timestamp) :
  (forall w, In w (waitlist db) ->
             waiting_of user (Court.id court) date s e w = false) ->
  add_to_waitlist db user court date s e now
  = (Some (WaitlistSpec.new_entry db user court date s e now),
     with_waitlist db
       (waitlist db ++ [WaitlistSpec.new_entry db user court date s e now])
       (waitlist_seq db + 1)).
Proof.
  intros Hnone. unfold add_to_waitlist.
  rewrite filter_all_false by exact Hnone. reflexivity.
Qed.

Lemma add_to_waitlist_duplicate (db : DB) (user : Z) (court : Court.t)
  (date : Date) (s e : Time) (now : Timestamp) (w : Waitlist.t) :
  In w (waitlist db) ->
  waiting_of user (Court.id court) date s e w = true ->
  add_to_waitlist db user court date s e now = (None, db).
Proof.
  intros Hin Hw. unfold add_to_waitlist.
  destruct (first_filter_some _ _ _ Hin Hw) as [y Hy].
  rewrite Hy. reflexivity.
Qed.

Lemma add_to_waitlist_invariant (db : DB) (user : Z) (court : Court.t)
  (date : Date) (s e : Time) (now : Timestamp) :
  waiting_count_le_one db ->
  waiting_count_le_one
    (snd (add_to_waitlist db user court date s e now)).
Proof.
  intros Hinv. unfold add_to_waitlist.
  destruct (first (filter _ (waitlist db))) as [w |] eqn:Hex.
  - exact Hinv.
  - cbn [snd]. intros u c d s' e'.
    cbn [waitlist with_waitlist]. rewrite filter_app, length_app.
    cbn [filter].
    destruct (waiting_of u c d s' e' _) eqn:Hnew.
    + apply waiting_of_true in Hnew. destruct Hnew as [Hu Hnew].
      apply waiting_for_true in Hnew.
      cbn in Hu, Hnew. destruct Hnew as [Hc [Hd [Hs [He _]]]].
      subst u c d s' e'.
      rewrite filter_all_false; [cbn; lia |].
      apply first_filter_none. exact Hex.
    + cbn [List.length]. specialize (Hinv u c d s' e'). lia.
Qed.

Lemma notify_next_in_queue_invariant (notify : Waitlist.t -> bool) (db db' : DB)
  (court : Court.t) (date : Date) (s e : Time) (now : Timestamp)
  (r : option Waitlist.t) :
  notify_next_in_queue notify db court date s e now = inr (r, db') ->
  waiting_count_le_one db ->
  waiting_count_le_one db'.
Proof.
  unfold notify_next_in_queue. intros H Hinv.
  destruct (first _) as [w |].
  - destruct (notify _); [| discriminate].
    injection H as _ <-. intros u c d s' e'.
    cbn [waitlist with_waitlist]. unfold save.
    eapply Nat.le_trans; [| apply (Hinv u c d s' e')].
    apply filter_map_shrinks. intros x.
    destruct (Waitlist.id x =? _); [right | left; reflexivity].
    unfold waiting_of, waiting_for. cbn. rewrite !andb_false_r. reflexivity.
  - injection H as _ <-. exact Hinv.
Qed.

Lemma expire_old_notifications_invariant (db : DB) (now : Timestamp) :
  waiting_count_le_one db ->
  waiting_count_le_one (snd (expire_old_notifications db now)).
Proof.
  intros Hinv u c d s e. unfold expire_old_notifications.
  cbn [snd waitlist with_waitlist].
  eapply Nat.le_trans; [| apply (Hinv u c d s e)].
  apply filter_map_shrinks. intros x.
  destruct (stale _ x); [right | left; reflexivity].
  unfold waiting_of, waiting_for. cbn. rewrite !andb_false_r. reflexivity.
Qed.

Lemma remove_from_waitlist_invariant (db : DB) (waitlist_id user : Z) :
  waiting_count_le_one db ->
  waiting_count_le_one
    (snd (remove_from_waitlist db waitlist_id user)).
Proof.
  intros Hinv. unfold remove_from_waitlist.
  destruct (find _ (waitlist db)) as [w |]; [| exact Hinv].
  intros u c d s e. cbn [snd waitlist with_waitlist].
  eapply Nat.le_trans; [| apply (Hinv u c d s e)].
  apply filter_filter_shrinks.
Qed.

End WaitlistFacts.

Lemma waiting_count_ext (db db' : DB) :
  waitlist db' = waitlist db ->
  waiting_count_le_one db -> waiting_count_le_one db'.
Proof.
  intros Heq Hinv u c d s e. rewrite Heq. apply Hinv.
Qed.

Lemma create_lines_waitlist (bid : Z) (lines : list (Z * Z)) :
  forall db1 db2 : DB,
    foldM (Views.create_booking_equipment bid) lines db1 = inr db2 ->
    waitlist db2 = waitlist db1.
Proof.
  induction lines as [| [eid q] lines IH]; intros db1 db2 H; cbn [foldM] in H.
  - injection H as <-. reflexivity.
  - apply bind_inr in H. destruct H as [db' [Hstep Hrest]].
    apply IH in Hrest. rewrite Hrest.
    unfold Views.create_booking_equipment in Hstep.
    destruct (_ || _); [discriminate |].
    injection Hstep as <-. reflexivity.
Qed.

Lemma confirm_booking_waitlist (db : DB) (user : Z)
  (req : Views.BookingRequest) (now : Timestamp) :
  waitlist (snd (Views.confirm_booking db user req now)) = waitlist db.
Proof.
  unfold Views.confirm_booking, Views.answer.
  destruct (Views.confirm_booking_body db user req now) as [e | [r db']] eqn:H;
    [reflexivity |].
  cbn [snd]. unfold Views.confirm_booking_body in H.
  unbind H court.
  destruct (first _); [injection H as _ <-; reflexivity |].
  unbind H chk.
  destruct (negb _); [injection H as _ <-; reflexivity |].
  unbind H coach. unbind H instances. unbind H pd. unbind H booking.
  unbind H db2.
  injection H as _ <-.
  apply create_lines_waitlist in Hdb2. exact Hdb2.
Qed.

Lemma step_count_invariant (db db' : DB) :
  WaitlistSpec.step db db' ->
  waiting_count_le_one db -> waiting_count_le_one db'.
Proof.
  intros Hstep Hinv.
  destruct Hstep
    as [db user court date s e now
       | notify db court date s e now r db' Hn
       | db now
       | db waitlist_id user
       | db user req now
       | db user court_id date s e now
       | db user waitlist_id
       | notify db user booking_id now].
  - apply WaitlistFacts.add_to_waitlist_invariant. exact Hinv.
  - eapply WaitlistFacts.notify_next_in_queue_invariant; eassumption.
  - apply WaitlistFacts.expire_old_notifications_invariant. exact Hinv.
  - apply WaitlistFacts.remove_from_waitlist_invariant. exact Hinv.
  - eapply waiting_count_ext; [apply confirm_booking_waitlist | exact Hinv].
  - unfold Views.join_waitlist, Views.answer.
    destruct (get_court db court_id) as [err | court]; cbn [bind];
      [exact Hinv |].
    assert (Hadd := WaitlistFacts.add_to_waitlist_invariant db user court date
                      s e now Hinv).
    destruct (WaitlistService.add_to_waitlist db user court date s e now)
      as [[entry |] db1]; exact Hadd.
  - unfold Views.remove_from_waitlist.
    assert (Hrm := WaitlistFacts.remove_from_waitlist_invariant db waitlist_id
                     user Hinv).
    destruct (WaitlistService.remove_from_waitlist db waitlist_id user)
      as [[|] db1]; exact Hrm.
  - unfold Views.cancel_booking.
    destruct (find _ (bookings db)) as [booking |]; [| exact Hinv].
    unfold Views.answer.
    destruct (get_court db (Booking.court booking)) as [err | court];
      cbn [bind]; [exact Hinv |].
    destruct (WaitlistService.notify_next_in_queue _ _ _ _ _ _ _)
      as [err | [notified db2]] eqn:Hn; cbn [bind]; [exact Hinv |].
    eapply WaitlistFacts.notify_next_in_queue_invariant; [exact Hn |].
    eapply waiting_count_ext; [| exact Hinv]. reflexivity.
Qed.

Lemma step_invariant (db db' : DB) :
  WaitlistSpec.step db db' ->
  WaitlistSpec.at_most_one_waiting db -> WaitlistSpec.at_most_one_waiting db'.
Proof.
  intros Hstep Hinv.
  apply (proj2 (WaitlistFacts.at_most_one_waiting_count db')).
  apply (step_count_invariant db db' Hstep).
  exact (proj1 (WaitlistFacts.at_most_one_waiting_count db) Hinv).
Qed.

(** C10. [add_to_waitlist] creates a WAITING entry exactly when no row of
    the table is a WAITING entry of the requester for the court, date and
    window, and returns [None] and leaves the database alone exactly when
    there is one; every operation of the core keeps at most one WAITING
    entry per requester and slot; entries of the pair that are NOTIFIED or
    EXPIRED do not stand in the way; and nothing asks that the slot be
    booked: on a court that is free for the window, [join_waitlist] adds the
    requester. *)
Theorem add_to_waitlist_one_waiting_per_pair :
  (forall (db : DB) (user : Z) (court : Court.t) (date : Date) (s e : Time)
          (now : Timestamp),
      ((forall w, In w (waitlist db) ->
                  ~ WaitlistSpec.waiting_as user (Court.id court) date s e w)
       <-> WaitlistService.add_to_waitlist db user court date s e now
           = (Some (WaitlistSpec.new_entry db user court date s e now),
              with_waitlist db
                (waitlist db
                 ++ [WaitlistSpec.new_entry db user court date s e now])
                (waitlist_seq db + 1)))
      /\ ((exists w, In w (waitlist db)
                     /\ WaitlistSpec.waiting_as user (Court.id court) date
                          s e w)
          <-> WaitlistService.add_to_waitlist db user court date s e now
              = (None, db)))
  /\ (forall db db' : DB,
         WaitlistSpec.step db db' ->
         WaitlistSpec.at_most_one_waiting db ->
         WaitlistSpec.at_most_one_waiting db')
  /\ (forall (db : DB) (user : Z) (court : Court.t) (date : Date) (s e : Time)
             (now : Timestamp),
         (forall w, In w (waitlist db) ->
                    Waitlist.user w = user ->
                    Waitlist.court w = Court.id court ->
                    Waitlist.date w = date ->
                    Waitlist.start_time w = s ->
                    Waitlist.end_time w = e ->
                    Waitlist.status w = Waitlist.NOTIFIED
                    \/ Waitlist.status w = Waitlist.EXPIRED) ->
         fst (WaitlistService.add_to_waitlist db user court date s e now)
         = Some (WaitlistSpec.new_entry db user court date s e now))
  /\ (forall (db : DB) (user court_id : Z) (date : Date) (s e : Time)
             (now : Timestamp) (court : Court.t),
         get_court db court_id = inr court ->
         BookingSpec.court_free db court_id date s e ->
         (forall w, In w (waitlist db) ->
                    ~ WaitlistSpec.waiting_as user court_id date s e w) ->
         exists position,
           Views.join_waitlist db user court_id date s e now
           = (Views.WaitlistJoined position,
              with_waitlist db
                (waitlist db
                 ++ [WaitlistSpec.new_entry db user court date s e now])
                (waitlist_seq db + 1))).
Proof.
  split; [| split; [| split]].
  - intros db user court date s e now. split; split.
    + intros Hnone. apply WaitlistFacts.add_to_waitlist_new.
      intros w Hin. apply WaitlistFacts.not_waiting_as. apply Hnone. exact Hin.
    + intros Hadd w Hin Hw. apply WaitlistFacts.waiting_as_iff in Hw.
      rewrite (WaitlistFacts.add_to_waitlist_duplicate _ _ _ _ _ _ now w Hin Hw)
        in Hadd.
      discriminate.
    + intros [w [Hin Hw]]. apply WaitlistFacts.waiting_as_iff in Hw.
      eapply WaitlistFacts.add_to_waitlist_duplicate; eassumption.
    + intros Hadd. unfold WaitlistService.add_to_waitlist in Hadd.
      destruct (first (filter _ (waitlist db))) as [w |] eqn:Hf;
        [| discriminate].
      exists w. unfold first in Hf.
      assert (Hin : In w (filter
                            (WaitlistService.waiting_of user (Court.id court)
                               date s e) (waitlist db))).
      { destruct (filter _ (waitlist db)); [discriminate |].
        injection Hf as ->. left. reflexivity. }
      apply filter_In in Hin. destruct Hin as [Hin Hw].
      split; [exact Hin |]. apply WaitlistFacts.waiting_as_iff. exact Hw.
  - exact step_invariant.
  - intros db user court date s e now Hstatus.
    rewrite WaitlistFacts.add_to_waitlist_new; [reflexivity |].
    intros w Hin.
    destruct (WaitlistService.waiting_of user (Court.id court) date s e w)
      eqn:Hw; [| reflexivity].
    apply WaitlistFacts.waiting_of_true in Hw. destruct Hw as [Hu Hw].
    apply WaitlistFacts.waiting_for_true in Hw.
    destruct Hw as [Hc [Hd [Hs [He Hst]]]].
    destruct (Hstatus w Hin Hu Hc Hd Hs He) as [H | H]; congruence.
  - intros db user court_id date s e now court Hcourt _ Hnone.
    destruct (get_court_id _ _ _ Hcourt) as [Hid _].
    unfold Views.join_waitlist. rewrite Hcourt. cbn [bind].
    rewrite WaitlistFacts.add_to_waitlist_new.
    + eexists. reflexivity.
    + rewrite Hid. intros w Hin. apply WaitlistFacts.not_waiting_as.
      apply Hnone. exact Hin.
Qed.

(** On the seeded database, where nothing is booked: user 8 joins the
    waitlist of the free indoor court and is first in the queue; asking
    again while that entry is WAITING adds nothing. *)
Lemma add_to_waitlist_witness :
  let entry := Waitlist.mk 1 8 1 Seed.thursday (hm 18 0) (hm 19 0)
                           Waitlist.WAITING 200 None in
  let db1 := with_waitlist Seed.db [entry] 2 in
  Views.join_waitlist Seed.db 8 1 Seed.thursday (hm 18 0) (hm 19 0) 200
  = (Views.WaitlistJoined (Some 1), db1)
  /\ WaitlistService.add_to_waitlist db1 8 Seed.indoor1 Seed.thursday (hm 18 0)
       (hm 19 0) 250
     = (None, db1)
  /\ List.length (waitlist db1) = 1%nat.
Proof.
  intros entry db1. split; [| split; [| reflexivity]].
  - destruct (proj2 (proj2 (proj2 add_to_waitlist_one_waiting_per_pair))
                Seed.db 8 1 Seed.thursday (hm 18 0) (hm 19 0) 200 Seed.indoor1
                eq_refl) as [position Hjoin].
    + intros b [].
    + intros w [].
    + rewrite Hjoin. f_equal.
      assert (Hpos : fst (Views.join_waitlist Seed.db 8 1 Seed.thursday
                            (hm 18 0) (hm 19 0) 200)
                     = Views.WaitlistJoined (Some 1))
        by (vm_compute; reflexivity).
      rewrite Hjoin in Hpos. exact Hpos.
  - apply (proj1 (proj2 (proj1 add_to_waitlist_one_waiting_per_pair
                           db1 8 Seed.indoor1 Seed.thursday (hm 18 0)
                           (hm 19 0) 250))).
    exists entry. split; [left; reflexivity |].
    repeat split; reflexivity.
Defined.



(* ================================================================== *)
(** * Further properties of the services *)

Lemma mem_map_filter {A : Type} (f : A -> Z) (p : A -> bool) (i : Z)
  (l : list A) :
  mem i (map f (filter p l)) = existsb (fun x => (f x =? i) && p x) l.
Proof.
  unfold mem. induction l as [| x l IH]; [reflexivity |].
  cbn [filter existsb]. destruct (p x) eqn:Hp.
  - cbn [map existsb]. rewrite IH, Z.eqb_sym, andb_true_r. reflexivity.
  - rewrite IH, andb_false_r. reflexivity.
Qed.

Lemma existsb_pointwise {A : Type} (p q : A -> bool) (l : list A) :
  (forall x, p x = q x) -> existsb p l = existsb q l.
Proof.
  intros H. induction l as [| x l IH]; [reflexivity |].
  cbn [existsb]. rewrite H, IH. reflexivity.
Qed.

(* ------------------------------------------------------------------ *)
(** ** The listings agree with the checks *)

(** X1. A court is in the listing of [get_available_courts] exactly when it
    is a row of the table, is active, and passes [check_court_available]
    for the same date and window. *)
Theorem available_courts_agree_with_check :
  forall (db : DB) (date : Date) (s e : Time) (c : Court.t),
    In c (AvailabilityService.get_available_courts db date s e)
    <-> In c (courts db)
        /\ Court.is_active c = true
        /\ AvailabilityService.check_court_available db (Court.id c) date s e
             None = true.
Proof.
  intros db date s e c.
  unfold AvailabilityService.get_available_courts,
         AvailabilityService.check_court_available.
  rewrite order_by_In, filter_In, filter_In, mem_map_filter.
  assert (Heq : existsb
                  (fun b => (Booking.court b =? Court.id c)
                            && AvailabilityService.overlapping_confirmed
                                 date s e b
                            && AvailabilityService.not_excluded None
                                 (Booking.id b)) (bookings db)
                = existsb
                    (fun x => (Booking.court x =? Court.id c)
                              && AvailabilityService.overlapping_confirmed
                                   date s e x) (bookings db)).
  { apply existsb_pointwise. intros b. cbn. rewrite andb_true_r. reflexivity. }
  rewrite Heq. tauto.
Qed.

(** X2. With coach keys unique, a coach is in the listing of
    [get_available_coaches] exactly when the row is in the table, is active,
    and passes [check_coach_available] for the same date and window. *)
Theorem available_coaches_agree_with_check :
  forall (db : DB) (date : Date) (s e : Time) (c : Coach.t),
    DBSpec.unique_ids Coach.id (coaches db) ->
    (In c (AvailabilityService.get_available_coaches db date s e)
     <-> In c (coaches db)
         /\ Coach.is_active c = true
         /\ AvailabilityService.check_coach_available db (Coach.id c) date s e
              None = true).
Proof.
  intros db date s e c Hnd.
  unfold AvailabilityService.get_available_coaches,
         AvailabilityService.check_coach_available.
  rewrite order_by_In, filter_In, andb_true_iff, negb_true_iff.
  rewrite mem_map_filter.
  set (window := fun a : CoachAvailability.t =>
                   (CoachAvailability.coach a =? Coach.id c)
                   && (CoachAvailability.day_of_week a =? weekday date)
                   && (CoachAvailability.start_time a <=? s)
                   && (CoachAvailability.end_time a >=? e)).
  set (booked := fun b : Booking.t =>
                   match Booking.coach b with
                   | Some c0 => c0 =? Coach.id c
                   | None => false
                   end
                   && AvailabilityService.overlapping_confirmed date s e b
                   && AvailabilityService.not_excluded None (Booking.id b)).
  assert (Hbooked :
            mem (Coach.id c)
                (flat_map (fun b => match Booking.coach b with
                                    | Some c0 => [c0]
                                    | None => []
                                    end)
                   (filter (AvailabilityService.overlapping_confirmed date s e)
                           (bookings db)))
            = existsb booked (bookings db)).
  { unfold mem, booked. induction (bookings db) as [| b bs IH]; [reflexivity |].
    cbn [filter existsb].
    destruct (AvailabilityService.overlapping_confirmed date s e b) eqn:Ho.
    - cbn [flat_map]. rewrite existsb_app, IH.
      destruct (Booking.coach b) as [c0 |]; cbn.
      + rewrite (Z.eqb_sym (Coach.id c) c0).
        destruct (c0 =? Coach.id c); reflexivity.
      + reflexivity.
    - rewrite IH, andb_false_r. reflexivity. }
  rewrite Hbooked. clear Hbooked.
  split.
  - intros [Hin [Hex Hfree]]. split; [exact Hin |].
    apply existsb_exists in Hex. destruct Hex as [a [Ha Hw]].
    apply andb_prop in Hw. destruct Hw as [Hca Hw].
    apply andb_prop in Hw. destruct Hw as [Hw Hact].
    apply Z.eqb_eq in Hca.
    apply existsb_exists in Hact. destruct Hact as [c' [Hc' Hact]].
    apply andb_prop in Hact. destruct Hact as [Hid Hactive].
    apply Z.eqb_eq in Hid.
    assert (c' = c).
    { apply (unique_ids_same_row Coach.id (coaches db)); try assumption.
      congruence. }
    subst c'. split; [exact Hactive |].
    replace (existsb window (coach_availability db)) with true.
    + cbn [negb]. rewrite Hfree. reflexivity.
    + symmetry. apply existsb_exists. exists a. split; [exact Ha |].
      unfold window. rewrite Hca, Z.eqb_refl. cbn [andb]. exact Hw.
  - intros [Hin [Hactive Hchk]]. split; [exact Hin |].
    destruct (existsb window (coach_availability db)) eqn:Hex;
      cbn [negb] in Hchk; [| discriminate].
    apply negb_true_iff in Hchk. split; [| exact Hchk].
    apply existsb_exists in Hex. destruct Hex as [a [Ha Hw]].
    unfold window in Hw.
    apply andb_prop in Hw. destruct Hw as [Hw He].
    apply andb_prop in Hw. destruct Hw as [Hw Hs].
    apply andb_prop in Hw. destruct Hw as [Hca Hd].
    apply Z.eqb_eq in Hca.
    apply existsb_exists. exists a. split; [exact Ha |].
    cbn beta. rewrite Hca, Z.eqb_refl, Hd, Hs, He. cbn [andb].
    apply existsb_exists. exists c. split; [exact Hin |].
    rewrite Z.eqb_refl, Hactive. reflexivity.
Qed.

(** On the seeded database: on Thursday morning the active coach is listed
    and passes the check. *)
Lemma available_coaches_witness :
  In Seed.rajesh
     (AvailabilityService.get_available_coaches Seed.db Seed.thursday
        (hm 9 0) (hm 10 0))
  /\ AvailabilityService.check_coach_available Seed.db 1 Seed.thursday
       (hm 9 0) (hm 10 0) None = true.
Proof.
  assert (Hnd : DBSpec.unique_ids Coach.id (coaches Seed.db)).
  { unfold DBSpec.unique_ids. cbn.
    constructor; [intros [H | []]; discriminate |].
    constructor; [intros [] | constructor]. }
  assert (Hin : In Seed.rajesh
                   (AvailabilityService.get_available_coaches Seed.db
                      Seed.thursday (hm 9 0) (hm 10 0)))
    by (vm_compute; left; reflexivity).
  split; [exact Hin |].
  apply (proj1 (available_coaches_agree_with_check Seed.db Seed.thursday
                  (hm 9 0) (hm 10 0) Seed.rajesh Hnd)) in Hin.
  destruct Hin as [_ [_ Hchk]]. exact Hchk.
Defined.

(** X3. With equipment keys unique, an entry [(e, q)] of
    [get_available_equipment] is a row of the table with [q] its available
    quantity, [q] is positive, and [check_equipment_available] on that row
    accepts a request of [n] units exactly when [n <= q]; without a type
    filter, every row with a positive available quantity is listed. *)
Theorem available_equipment_agrees_with_check :
  forall (db : DB) (date : Date) (s t : Time)
         (ty : option Equipment.equipment_type_t) (e : Equipment.t) (q : Z),
    DBSpec.unique_ids Equipment.id (equipment db) ->
    (In (e, q) (AvailabilityService.get_available_equipment db date s t ty) ->
     In e (equipment db)
     /\ q = AvailabilityService.get_available_quantity db e date s t
     /\ 0 < q
     /\ forall n,
          AvailabilityService.check_equipment_available db (Equipment.id e) n
            date s t None = inr (n <=? q))
    /\ (In e (equipment db) ->
        0 < AvailabilityService.get_available_quantity db e date s t ->
        In (e, AvailabilityService.get_available_quantity db e date s t)
           (AvailabilityService.get_available_equipment db date s t None)).
Proof.
  intros db date s t ty e q Hnd. split.
  - unfold AvailabilityService.get_available_equipment. intros Hin.
    apply filter_In in Hin. destruct Hin as [Hin Hpos]. cbn [snd] in Hpos.
    apply in_map_iff in Hin. destruct Hin as [e' [Heq Hin]].
    injection Heq as -> <-.
    apply order_by_In in Hin.
    assert (Hrow : In e (equipment db)).
    { destruct ty; [apply filter_In in Hin; tauto | exact Hin]. }
    split; [exact Hrow |]. split; [reflexivity |].
    split; [rewrite Z.gtb_ltb in Hpos; apply Z.ltb_lt; exact Hpos |].
    intros n.
    rewrite (check_equipment_available_spec db (Equipment.id e) n e).
    + rewrite Z.geb_leb. reflexivity.
    + unfold get_equipment. rewrite unique_ids_find by assumption. reflexivity.
  - intros Hrow Hpos. unfold AvailabilityService.get_available_equipment.
    apply filter_In. split.
    + apply in_map_iff. exists e. split; [reflexivity |].
      apply order_by_In. exact Hrow.
    + cbn [snd]. rewrite Z.gtb_ltb. apply Z.ltb_lt. exact Hpos.
Qed.

(** On the seeded database, where nothing is booked: the ten rackets are
    listed, ten can be had and eleven cannot. *)
Lemma available_equipment_witness :
  In (Seed.racket, 10)
     (AvailabilityService.get_available_equipment Seed.db Seed.thursday
        (hm 9 0) (hm 10 0) None)
  /\ AvailabilityService.check_equipment_available Seed.db 1 10 Seed.thursday
       (hm 9 0) (hm 10 0) None = inr true
  /\ AvailabilityService.check_equipment_available Seed.db 1 11 Seed.thursday
       (hm 9 0) (hm 10 0) None = inr false.
Proof.
  assert (Hnd : DBSpec.unique_ids Equipment.id (equipment Seed.db)).
  { unfold DBSpec.unique_ids. cbn.
    constructor; [intros [H | []]; discriminate |].
    constructor; [intros [] | constructor]. }
  assert (Hin : In (Seed.racket, 10)
                   (AvailabilityService.get_available_equipment Seed.db
                      Seed.thursday (hm 9 0) (hm 10 0) None))
    by (vm_compute; right; left; reflexivity).
  split; [exact Hin |].
  destruct (proj1 (available_equipment_agrees_with_check Seed.db Seed.thursday
                     (hm 9 0) (hm 10 0) None Seed.racket 10 Hnd) Hin)
    as [_ [_ [_ Hchk]]].
  split; [exact (Hchk 10) | exact (Hchk 11)].
Defined.

(* ------------------------------------------------------------------ *)
(** ** The combined check *)

Section CheckAll.
Variables (db : DB) (date : Date) (s t : Time).

(** The body of the loop over the equipment lines. *)
Local Abbreviation check_item :=
  (fun (errors : list string) (item : Z * Z) =>
     ok <- AvailabilityService.check_equipment_available db (fst item)
             (snd item) date s t None ;;
     if negb ok then
       e <- get_equipment db (fst item) ;;
       ret (errors ++ [("Insufficient " ++ Equipment.name e
                        ++ " available")%string])
     else ret errors).

Lemma check_items_run (lines : list (Z * Z)) :
  forall errs errs',
    foldM check_item lines errs = inr errs' ->
    (forall item, In item lines ->
                  exists e, get_equipment db (fst item) = inr e)
    /\ exists added,
         errs' = errs ++ added
         /\ List.length added
            = List.length (filter (AvailabilitySpec.short db date s t) lines).
Proof.
  induction lines as [| item lines IH]; intros errs errs' H; cbn [foldM] in H.
  - injection H as <-. split; [intros ? [] |].
    exists []. rewrite app_nil_r. split; reflexivity.
  - unbind H errs1.
    apply IH in H. destruct H as [Hex [added [-> Hlen]]].
    unfold AvailabilityService.check_equipment_available in Herrs1.
    cbn [filter]. unfold AvailabilitySpec.short at 1.
    unfold AvailabilityService.check_equipment_available at 1.
    destruct (get_equipment db (fst item)) as [err | e] eqn:He;
      [discriminate |].
    cbn [bind ret] in Herrs1 |- *.
    split.
    + intros item' [<- | Hin]; [exists e; exact He | apply Hex; exact Hin].
    + destruct (_ >=? snd item); cbn [negb bind ret] in Herrs1;
        injection Herrs1 as <-.
      * exists added. split; [reflexivity | exact Hlen].
      * eexists (_ :: added). rewrite <- app_assoc. split; [reflexivity |].
        cbn [List.length]. rewrite Hlen. reflexivity.
Qed.

Lemma check_items_total (lines : list (Z * Z)) :
  forall errs,
    (forall item, In item lines ->
                  exists e, get_equipment db (fst item) = inr e) ->
    exists errs', foldM check_item lines errs = inr errs'.
Proof.
  induction lines as [| item lines IH]; intros errs Hex; cbn [foldM].
  - eexists. reflexivity.
  - destruct (Hex item (or_introl eq_refl)) as [e He].
    unfold AvailabilityService.check_equipment_available.
    rewrite He. cbn [bind ret].
    destruct (negb _); cbn [bind ret]; apply IH;
      intros item' Hin; apply Hex; right; exact Hin.
Qed.

Lemma check_items_missing (lines : list (Z * Z)) :
  forall errs,
    (exists item, In item lines /\ get_equipment db (fst item) = inl DoesNotExist) ->
    foldM check_item lines errs = inl DoesNotExist.
Proof.
  induction lines as [| item lines IH]; intros errs [bad [Hin Hbad]].
  - contradiction.
  - cbn [foldM].
    unfold AvailabilityService.check_equipment_available at 1.
    destruct (get_equipment db (fst item)) as [err | e] eqn:He.
    + unfold get_equipment, get_or_raise in He.
      destruct (find _ (equipment db)); [discriminate |].
      injection He as <-. reflexivity.
    + cbn [bind ret].
      assert (Hrest : exists item0, In item0 lines
                        /\ get_equipment db (fst item0) = inl DoesNotExist).
      { destruct Hin as [<- | Hin]; [congruence |].
        exists bad. split; assumption. }
      destruct (negb _); cbn [bind ret]; apply IH; exact Hrest.
Qed.

End CheckAll.

(** X4. [check_all_resources_available] does not stop at the first failure.
    When every equipment key of the request exists it returns, with one
    error for the court if it is taken, one for each equipment line that is
    short and one for the coach if unavailable, and [available] is true
    exactly when there is none; when some equipment key does not exist it
    raises [DoesNotExist]. *)
Theorem check_all_reports_every_failure :
  forall (db : DB) (date : Date) (s t : Time) (court_id : Z)
         (lines : list (Z * Z)) (coach_id : option Z),
    ((forall item, In item lines ->
                   exists e, get_equipment db (fst item) = inr e) ->
     exists chk,
       AvailabilityService.check_all_resources_available db date s t court_id
         lines coach_id = inr chk
       /\ List.length (AvailabilityService.errors chk)
          = (AvailabilitySpec.b2n
               (negb (AvailabilityService.check_court_available db court_id
                        date s t None))
             + List.length (filter (AvailabilitySpec.short db date s t) lines)
             + AvailabilitySpec.b2n
                 (AvailabilitySpec.coach_fails db date s t coach_id))%nat
       /\ (AvailabilityService.available chk = true
           <-> AvailabilityService.errors chk = []))
    /\ ((exists item, In item lines
                      /\ get_equipment db (fst item) = inl DoesNotExist) ->
        AvailabilityService.check_all_resources_available db date s t court_id
          lines coach_id = inl DoesNotExist).
Proof.
  intros db date s t court_id lines coach_id. split.
  - intros Hex. unfold AvailabilityService.check_all_resources_available.
    set (errors0 := if negb (AvailabilityService.check_court_available db
                               court_id date s t None)
                    then _ else _).
    destruct (check_items_total db date s t lines errors0 Hex) as [errs1 Hrun].
    rewrite Hrun. cbn [bind ret]. eexists. split; [reflexivity |].
    cbn [AvailabilityService.errors AvailabilityService.available].
    apply check_items_run in Hrun. destruct Hrun as [_ [added [-> Hlen]]].
    split.
    + unfold AvailabilitySpec.coach_fails.
      destruct coach_id as [c |]; cbn [truthy_id].
      * destruct (negb (c =? 0)); cbn [andb].
        -- destruct (negb (AvailabilityService.check_coach_available _ _ _ _ _ _));
             rewrite ?length_app, Hlen; subst errors0;
             destruct (negb (AvailabilityService.check_court_available _ _ _ _ _ _));
             cbn; lia.
        -- rewrite length_app, Hlen; subst errors0;
             destruct (negb (AvailabilityService.check_court_available _ _ _ _ _ _));
             cbn; lia.
      * rewrite length_app, Hlen; subst errors0;
          destruct (negb (AvailabilityService.check_court_available _ _ _ _ _ _));
          cbn; lia.
    + match goal with |- _ <-> ?l = [] =>
        destruct l; split; intros; try reflexivity; discriminate
      end.
  - intros Hbad. unfold AvailabilityService.check_all_resources_available.
    rewrite (check_items_missing db date s t lines _ Hbad). reflexivity.
Qed.

(** On the booked slot of the seeded database, a request for eleven rackets,
    nine pairs of shoes and the morning coach collects four errors; a
    request for an equipment key that does not exist raises. *)
Lemma check_all_witness :
  (exists chk,
      AvailabilityService.check_all_resources_available Seed.db_booked
        Seed.thursday (hm 18 0) (hm 19 0) 1 [(1, 11); (2, 9)] (Some 1)
      = inr chk
      /\ List.length (AvailabilityService.errors chk) = 4%nat)
  /\ AvailabilityService.check_all_resources_available Seed.db
       Seed.thursday (hm 18 0) (hm 19 0) 1 [(1, 1); (99, 1)] None
     = inl DoesNotExist.
Proof.
  split.
  - destruct (proj1 (check_all_reports_every_failure Seed.db_booked
                       Seed.thursday (hm 18 0) (hm 19 0) 1 [(1, 11); (2, 9)]
                       (Some 1)))
      as [chk [Hrun [Hlen _]]].
    + intros item [<- | [<- | []]]; eexists; vm_compute; reflexivity.
    + exists chk. split; [exact Hrun |]. rewrite Hlen. vm_compute. reflexivity.
  - apply (proj2 (check_all_reports_every_failure Seed.db Seed.thursday
                    (hm 18 0) (hm 19 0) 1 [(1, 1); (99, 1)] None)).
    exists (99, 1). split; [right; left; reflexivity | reflexivity].
Defined.

Lemma filter_nil_all_false {A : Type} (p : A -> bool) (l : list A) :
  filter p l = [] -> forall x, In x l -> p x = false.
Proof.
  intros H x Hin. destruct (p x) eqn:Hp; [| reflexivity].
  assert (Hx : In x (filter p l)) by (apply filter_In; split; assumption).
  rewrite H in Hx. contradiction.
Qed.

Lemma check_all_available_inv (db : DB) (date : Date) (s t : Time)
  (court_id : Z) (lines : list (Z * Z)) (coach_id : option Z)
  (chk : AvailabilityService.Check) :
  AvailabilityService.check_all_resources_available db date s t court_id
    lines coach_id = inr chk ->
  AvailabilityService.available chk = true ->
  AvailabilityService.check_court_available db court_id date s t None = true
  /\ (forall item, In item lines ->
                   AvailabilityService.check_equipment_available db (fst item)
                     (snd item) date s t None = inr true)
  /\ AvailabilitySpec.coach_fails db date s t coach_id = false.
Proof.
  unfold AvailabilityService.check_all_resources_available. intros H Hav.
  unbind H errs1. injection H as <-.
  cbn [AvailabilityService.available] in Hav.
  apply check_items_run in Herrs1. destruct Herrs1 as [_ [added [-> Hlen]]].
  assert (Hnil : (if negb (AvailabilityService.check_court_available db
                             court_id date s t None)
                  then ["Selected court is not available for this time slot"%string]
                  else []) = [] /\ added = []
                 /\ AvailabilitySpec.coach_fails db date s t coach_id = false).
  { unfold AvailabilitySpec.coach_fails.
    destruct coach_id as [c |]; cbn [truthy_id] in Hav |- *;
      [destruct (negb (c =? 0)); cbn [andb];
       [destruct (negb (AvailabilityService.check_coach_available _ _ _ _ _ _)) |]
      |];
      match type of Hav with
      | match ?l with [] => _ | _ => _ end = true =>
          destruct l eqn:E; [| discriminate]
      end;
      repeat match goal with
             | H : _ ++ _ = [] |- _ =>
                 apply app_eq_nil in H; destruct H as [? ?]
             end;
      try discriminate; tauto. }
  destruct Hnil as [Hcourt [-> Hcoach]].
  split; [| split; [| exact Hcoach]].
  - destruct (AvailabilityService.check_court_available _ _ _ _ _ _);
      [reflexivity | discriminate].
  - intros item Hin.
    assert (Hs : AvailabilitySpec.short db date s t item = false).
    { apply (filter_nil_all_false _ lines); [| exact Hin].
      apply length_zero_iff_nil. symmetry. exact Hlen. }
    unfold AvailabilitySpec.short in Hs.
    destruct (AvailabilityService.check_equipment_available _ _ _ _ _ _ _)
      as [err | [|]]; [discriminate | reflexivity | discriminate].
Qed.

(** What the inserts of the line items leave behind when they all pass. *)
Lemma create_lines_inv (bid : Z) (lines : list (Z * Z)) :
  forall db1 db2 : DB,
    foldM (Views.create_booking_equipment bid) lines db1 = inr db2 ->
    (forall item, In item lines -> 0 <= snd item)
    /\ bookings db2 = bookings db1
    /\ booking_seq db2 = booking_seq db1
    /\ courts db2 = courts db1
    /\ equipment db2 = equipment db1
    /\ coaches db2 = coaches db1
    /\ coach_availability db2 = coach_availability db1
    /\ pricing_rules db2 = pricing_rules db1
    /\ map BookingSpec.line (booking_equipment db2)
       = map BookingSpec.line (booking_equipment db1)
         ++ map (fun item => (bid, fst item, snd item)) lines.
Proof.
  induction lines as [| [eid q] lines IH]; intros db1 db2 H; cbn [foldM] in H.
  - injection H as <-. cbn. rewrite app_nil_r.
    repeat split; try reflexivity. intros ? [].
  - unbind H db'. apply IH in H.
    unfold Views.create_booking_equipment in Hdb'.
    destruct ((q <? 0) || _) eqn:Hc; [discriminate |].
    injection Hdb' as <-.
    apply orb_false_elim in Hc. destruct Hc as [Hq _]. apply Z.ltb_ge in Hq.
    destruct H as [Hqs [Hb [Hseq [H1 [H2 [H3 [H4 [H5 Hl]]]]]]]].
    cbn [bookings booking_seq courts equipment coaches coach_availability
         pricing_rules booking_equipment with_booking_equipment] in *.
    repeat split; try assumption.
    + intros item [<- | Hin]; [exact Hq | apply Hqs; exact Hin].
    + rewrite Hl, map_app, <- app_assoc. reflexivity.
Qed.

(** The steps a confirmed request went through. *)
Lemma confirm_booking_confirmed_inv (db db' : DB) (user : Z)
  (req : Views.BookingRequest) (now : Timestamp) (id : Z) :
  Views.confirm_booking db user req now = (Views.BookingConfirmed id, db') ->
  exists court chk coach instances pd,
    get_court db (Views.court_id req) = inr court
    /\ first (filter
                (fun b => (Booking.court b =? Court.id court)
                          && AvailabilityService.overlapping_confirmed
                               (Views.date req) (Views.start_time req)
                               (Views.end_time req) b)
                (bookings db)) = None
    /\ AvailabilityService.check_all_resources_available db (Views.date req)
         (Views.start_time req) (Views.end_time req) (Views.court_id req)
         (Views.equipment req) (Views.coach_id req) = inr chk
    /\ AvailabilityService.available chk = true
    /\ Views.lookup_coach db (Views.coach_id req) = inr coach
    /\ mapM (fun e => get_equipment db (fst e)) (Views.equipment req)
       = inr instances
    /\ PricingEngine.calculate_price db
         (PricingEngine.mkRequest court (Views.date req) (Views.start_time req)
            (Views.end_time req) instances coach) = inr pd
    /\ id = booking_seq db
    /\ exists booking,
         Views.new_booking db user req now court coach pd = inr booking
         /\ foldM (Views.create_booking_equipment (booking_seq db))
                  (Views.equipment req)
                  (with_bookings db (bookings db ++ [booking])
                     (booking_seq db + 1)) = inr db'.
Proof.
  unfold Views.confirm_booking, Views.answer.
  destruct (Views.confirm_booking_body db user req now) as [e | [r db0]] eqn:H;
    [discriminate |].
  intros Heq. injection Heq as -> ->.
  unfold Views.confirm_booking_body in H.
  unbind H court.
  destruct (first _) eqn:Hfirst; [discriminate |].
  unbind H chk.
  destruct (negb (AvailabilityService.available chk)) eqn:Hav; [discriminate |].
  apply negb_false_iff in Hav.
  unbind H coach. unbind H instances. unbind H pd. unbind H booking.
  unbind H db2.
  injection H as <- <-.
  destruct (new_booking_inv _ _ _ _ _ _ _ _ Hbooking)
    as [base [total [_ [_ [_ Hrow]]]]].
  exists court, chk, coach, instances, pd.
  do 7 (split; [assumption |]).
  split; [rewrite Hrow; reflexivity |].
  exists booking. split; [exact Hbooking |].
  rewrite Hrow in Hdb2 |- *. exact Hdb2.
Qed.

(* ------------------------------------------------------------------ *)
(** ** What a confirmed booking guarantees *)

(** X5. When [confirm_booking] answers [BookingConfirmed]: the key is the
    next of the sequence; the court passed [check_court_available]; every
    equipment line names an existing row and asks a quantity between 0 and
    the available quantity; a coach, if asked, passed
    [check_coach_available]; the booking table gained exactly one row,
    CONFIRMED, for the requester, court, date, window and coach of the
    request, whose base and total price are those the engine computed for
    the request, rounded to two places, and whose breakdown is the engine's;
    the line-item table gained one row per line; and the waitlist and the
    catalogue are as before. *)
Theorem confirmed_booking_was_available :
  forall (db db' : DB) (user : Z) (req : Views.BookingRequest)
         (now : Timestamp) (id : Z),
    Views.confirm_booking db user req now = (Views.BookingConfirmed id, db') ->
    id = booking_seq db
    /\ AvailabilityService.check_court_available db (Views.court_id req)
         (Views.date req) (Views.start_time req) (Views.end_time req) None
       = true
    /\ (forall eid q,
           In (eid, q) (Views.equipment req) ->
           exists e,
             get_equipment db eid = inr e
             /\ 0 <= q
                <= AvailabilityService.get_available_quantity db e
                     (Views.date req) (Views.start_time req)
                     (Views.end_time req))
    /\ (forall c, Views.coach_id req = Some c -> c <> 0 ->
                  AvailabilityService.check_coach_available db c
                    (Views.date req) (Views.start_time req)
                    (Views.end_time req) None = true)
    /\ (exists b court coach instances pd,
           bookings db' = bookings db ++ [b]
           /\ Booking.id b = id
           /\ Booking.user b = user
           /\ Booking.court b = Views.court_id req
           /\ Booking.date b = Views.date req
           /\ Booking.start_time b = Views.start_time req
           /\ Booking.end_time b = Views.end_time req
           /\ Booking.status b = Booking.CONFIRMED
           /\ get_court db (Views.court_id req) = inr court
           /\ Views.lookup_coach db (Views.coach_id req) = inr coach
           /\ Booking.coach b = option_map Coach.id coach
           /\ mapM (fun e => get_equipment db (fst e)) (Views.equipment req)
              = inr instances
           /\ PricingEngine.calculate_price db
                (PricingEngine.mkRequest court (Views.date req)
                   (Views.start_time req) (Views.end_time req) instances coach)
              = inr pd
           /\ BookingSpec.stored_price (PricingEngine.base_price pd)
                (Booking.base_price b)
           /\ BookingSpec.stored_price (PricingEngine.total_price pd)
                (Booking.total_price b)
           /\ Booking.price_breakdown b = PricingEngine.breakdown pd)
    /\ map BookingSpec.line (booking_equipment db')
       = map BookingSpec.line (booking_equipment db)
         ++ map (fun item => (id, fst item, snd item)) (Views.equipment req)
    /\ waitlist db' = waitlist db
    /\ courts db' = courts db
    /\ equipment db' = equipment db
    /\ coaches db' = coaches db
    /\ pricing_rules db' = pricing_rules db.
Proof.
  intros db db' user req now id H.
  destruct (confirm_booking_confirmed_inv _ _ _ _ _ _ H)
    as [court [chk [coach [instances [pd
         [Hcourt [Hfirst [Hchk [Hav [Hcoach [Hinst [Hprice
           [-> [booking [Hrow Hlines]]]]]]]]]]]]]]].
  destruct (check_all_available_inv _ _ _ _ _ _ _ _ Hchk Hav)
    as [Hc [Hitems Hcf]].
  assert (Hw := create_lines_waitlist _ _ _ _ Hlines).
  destruct (create_lines_inv _ _ _ _ Hlines)
    as [Hq [Hb [_ [H1 [H2 [H3 [_ [H5 Hl]]]]]]]].
  destruct (get_court_id _ _ _ Hcourt) as [Hid _].
  split; [reflexivity |]. split; [exact Hc |]. split; [| split; [| split]].
  - intros eid q Hin.
    specialize (Hitems (eid, q) Hin). cbn [fst snd] in Hitems.
    destruct (get_equipment db eid) as [err | e] eqn:He.
    + unfold AvailabilityService.check_equipment_available in Hitems.
      rewrite He in Hitems. discriminate.
    + exists e. split; [reflexivity |].
      rewrite (check_equipment_available_spec _ _ _ _ _ _ _ He) in Hitems.
      injection Hitems as Hge. apply Z.geb_le in Hge.
      specialize (Hq (eid, q) Hin). cbn [snd] in Hq. lia.
  - intros c Hsome Hnz. unfold AvailabilitySpec.coach_fails in Hcf.
    rewrite Hsome in Hcf. cbn [truthy_id] in Hcf.
    replace (c =? 0) with false in Hcf by (symmetry; apply Z.eqb_neq; exact Hnz).
    cbn [negb andb] in Hcf. apply negb_false_iff in Hcf. exact Hcf.
  - destruct (new_booking_inv _ _ _ _ _ _ _ _ Hrow)
      as [base [total [Hbase [Htotal [_ Hfields]]]]].
    exists booking, court, coach, instances, pd.
    split; [exact Hb |]. rewrite Hfields. cbn.
    do 7 (split; [reflexivity || assumption |]).
    split; [exact Hcourt |]. split; [exact Hcoach |].
    split; [reflexivity |]. split; [exact Hinst |]. split; [exact Hprice |].
    split; [apply DecimalFacts.get_db_prep_save_stored; exact Hbase |].
    split; [apply DecimalFacts.get_db_prep_save_stored; exact Htotal |].
    reflexivity.
  - repeat split; assumption.
Qed.

(** On the seeded database: the booking of the Thursday slot by user 7. *)
Lemma confirmed_booking_witness :
  exists db',
    Views.confirm_booking Seed.db 7 Seed.slot 100
    = (Views.BookingConfirmed 1, db')
    /\ AvailabilityService.check_court_available Seed.db 1 Seed.thursday
         (hm 18 0) (hm 19 0) None = true
    /\ List.length (bookings db') = 1%nat.
Proof.
  exists Seed.db_booked.
  assert (H : Views.confirm_booking Seed.db 7 Seed.slot 100
              = (Views.BookingConfirmed 1, Seed.db_booked))
    by (vm_compute; reflexivity).
  split; [exact H |].
  destruct (confirmed_booking_was_available _ _ _ _ _ _ H)
    as [_ [Hc [_ [_ [[b [court [coach [instances [pd [Hb _]]]]]] _]]]]].
  split; [exact Hc |]. rewrite Hb. reflexivity.
Defined.

(* ------------------------------------------------------------------ *)
(** ** No double booking *)

Lemma ForallOrdPairs_snoc {A : Type} (R : A -> A -> Prop) (l : list A) (x : A) :
  ForallOrdPairs R l -> Forall (fun a => R a x) l ->
  ForallOrdPairs R (l ++ [x]).
Proof.
  induction 1 as [| a l Ha Hl IH]; intros Hx; cbn.
  - constructor; constructor.
  - inversion Hx as [| ? ? Hax Hx']; subst.
    constructor.
    + apply Forall_app. split; [exact Ha | constructor; [exact Hax | constructor]].
    + apply IH. exact Hx'.
Qed.

Lemma ForallOrdPairs_map {A : Type} (R : A -> A -> Prop) (f : A -> A)
  (l : list A) :
  (forall a b, R a b -> R (f a) (f b)) ->
  ForallOrdPairs R l -> ForallOrdPairs R (map f l).
Proof.
  intros Hf. induction 1 as [| a l Ha Hl IH]; cbn.
  - constructor.
  - constructor; [| exact IH].
    apply Forall_map. eapply Forall_impl; [| exact Ha].
    intros b. apply Hf.
Qed.

(** Whatever [confirm_booking] answers other than [BookingConfirmed], the
    database is the one it was given. *)
Lemma confirm_booking_unchanged (db db' : DB) (user : Z)
  (req : Views.BookingRequest) (now : Timestamp) (r : Views.Response) :
  Views.confirm_booking db user req now = (r, db') ->
  (exists id, r = Views.BookingConfirmed id) \/ db' = db.
Proof.
  unfold Views.confirm_booking, Views.answer.
  destruct (Views.confirm_booking_body db user req now) as [e | [r0 db0]] eqn:H.
  - intros Heq. injection Heq as _ <-. right. reflexivity.
  - intros Heq. injection Heq as -> ->.
    unfold Views.confirm_booking_body in H.
    unbind H court.
    destruct (first _); [injection H as _ <-; right; reflexivity |].
    unbind H chk.
    destruct (negb _); [injection H as _ <-; right; reflexivity |].
    unbind H coach. unbind H instances. unbind H pd. unbind H booking.
    unbind H db2.
    injection H as <- _. left. eexists. reflexivity.
Qed.

(* ------------------------------------------------------------------ *)
(** ** Quantities that are not positive *)

(** C5, as stated, fails: a request for zero rackets on a free court is not
    rejected; the combined check runs on it and passes, the booking is
    confirmed and a line of quantity 0 is stored. *)
Lemma zero_quantity_request_is_booked :
  In (1, 0) (Views.equipment Seed.zero_rackets)
  /\ bookings Seed.db = []
  /\ booking_equipment Seed.db = []
  /\ AvailabilityService.check_all_resources_available Seed.db Seed.thursday
       (hm 9 0) (hm 10 0) 1 [(1, 0)] None
     = inr (AvailabilityService.mkCheck true [])
  /\ fst (Views.confirm_booking Seed.db 7 Seed.zero_rackets 100)
     = Views.BookingConfirmed 1
  /\ map (fun b => (Booking.id b, Booking.status b))
         (bookings (snd (Views.confirm_booking Seed.db 7 Seed.zero_rackets 100)))
     = [(1, Booking.CONFIRMED)]
  /\ booking_equipment (snd (Views.confirm_booking Seed.db 7 Seed.zero_rackets 100))
     = [BookingEquipment.mk 1 1 1 0].
Proof.
  split; [left; reflexivity |].
  repeat split; vm_compute; reflexivity.
Qed.

(** C5, amended. No test of the quantities precedes the availability logic:
    [check_equipment_available] compares the quantity asked, positive or
    not, with the available quantity, and a combined check that says
    available has run it on every line. A request with a negative quantity
    is never confirmed and stores nothing; past the checks it is the insert
    of the line that the non-negative column refuses, and the view answers
    the generic error. A quantity of zero stops nothing: when the court
    exists and is free, the combined check passes, the lookups and the price
    succeed, the booking row is accepted by its columns, no equipment is
    named twice, no stored line carries the next booking key and no quantity
    is negative, the booking is confirmed and one line per item is stored
    with its quantity, zero included. *)
Theorem nonpositive_quantity_reaches_availability :
  forall (db : DB) (user : Z) (req : Views.BookingRequest) (now : Timestamp),
    (forall eid q e,
        In (eid, q) (Views.equipment req) ->
        get_equipment db eid = inr e ->
        AvailabilityService.check_equipment_available db eid q (Views.date req)
          (Views.start_time req) (Views.end_time req) None
        = inr (AvailabilityService.get_available_quantity db e (Views.date req)
                 (Views.start_time req) (Views.end_time req) >=? q))
    /\ (forall chk,
           AvailabilityService.check_all_resources_available db
             (Views.date req) (Views.start_time req) (Views.end_time req)
             (Views.court_id req) (Views.equipment req) (Views.coach_id req)
           = inr chk ->
           AvailabilityService.available chk = true ->
           forall eid q,
             In (eid, q) (Views.equipment req) ->
             exists e,
               get_equipment db eid = inr e
               /\ q <= AvailabilityService.get_available_quantity db e
                         (Views.date req) (Views.start_time req)
                         (Views.end_time req))
    /\ ((exists item, In item (Views.equipment req) /\ snd item < 0) ->
        (forall id, fst (Views.confirm_booking db user req now)
                    <> Views.BookingConfirmed id)
        /\ snd (Views.confirm_booking db user req now) = db)
    /\ (forall (court : Court.t) (chk : AvailabilityService.Check)
               (coach : option Coach.t) (instances : list Equipment.t)
               (pd : PricingEngine.PricingData) (booking : Booking.t),
           get_court db (Views.court_id req) = inr court ->
           BookingSpec.court_free db (Views.court_id req) (Views.date req)
             (Views.start_time req) (Views.end_time req) ->
           AvailabilityService.check_all_resources_available db
             (Views.date req) (Views.start_time req) (Views.end_time req)
             (Views.court_id req) (Views.equipment req) (Views.coach_id req)
           = inr chk ->
           AvailabilityService.available chk = true ->
           Views.lookup_coach db (Views.coach_id req) = inr coach ->
           mapM (fun e => get_equipment db (fst e)) (Views.equipment req)
           = inr instances ->
           PricingEngine.calculate_price db
             (PricingEngine.mkRequest court (Views.date req)
                (Views.start_time req) (Views.end_time req) instances coach)
           = inr pd ->
           Views.new_booking db user req now court coach pd = inr booking ->
           ((exists item, In item (Views.equipment req) /\ snd item < 0) ->
            Views.confirm_booking db user req now
            = (Views.Error IntegrityError, db))
           /\ (NoDup (map fst (Views.equipment req)) ->
               BookingSpec.next_booking_fresh db ->
               (forall item, In item (Views.equipment req) -> 0 <= snd item) ->
               exists db2,
                 Views.confirm_booking db user req now
                 = (Views.BookingConfirmed (booking_seq db), db2)
                 /\ bookings db2 = bookings db ++ [booking]
                 /\ map BookingSpec.line (booking_equipment db2)
                    = map BookingSpec.line (booking_equipment db)
                      ++ map (fun item => (booking_seq db, fst item, snd item))
                             (Views.equipment req))).
Proof.
  intros db user req now. split; [| split; [| split]].
  - intros eid q e _ He. apply check_equipment_available_spec. exact He.
  - intros chk Hchk Hav eid q Hin.
    destruct (check_all_available_inv _ _ _ _ _ _ _ _ Hchk Hav)
      as [_ [Hitems _]].
    specialize (Hitems (eid, q) Hin). cbn [fst snd] in Hitems.
    destruct (get_equipment db eid) as [err | e] eqn:He.
    + unfold AvailabilityService.check_equipment_available in Hitems.
      rewrite He in Hitems. discriminate.
    + exists e. split; [reflexivity |].
      rewrite (check_equipment_available_spec _ _ _ _ _ _ _ He) in Hitems.
      injection Hitems as Hge. apply Z.geb_le in Hge. exact Hge.
  - intros [item [Hin Hneg]].
    destruct (Views.confirm_booking db user req now) as [r db'] eqn:H.
    cbn [fst snd].
    assert (Hnot : forall id, r <> Views.BookingConfirmed id).
    { intros id ->.
      destruct (confirm_booking_confirmed_inv _ _ _ _ _ _ H)
        as [court [chk [coach [instances [pd
             [_ [_ [_ [_ [_ [_ [_ [_ [booking [_ Hlines]]]]]]]]]]]]]]].
      destruct (create_lines_inv _ _ _ _ Hlines) as [Hq _].
      specialize (Hq item Hin). lia. }
    split; [exact Hnot |].
    destruct (confirm_booking_unchanged _ _ _ _ _ _ H) as [[id ->] | ->];
      [exfalso; apply (Hnot id); reflexivity | reflexivity].
  - intros court chk coach instances pd booking
           Hcourt Hfree Hchk Havail Hcoach Hinst Hprice Hrow.
    assert (Hpath := confirm_booking_past_checks db user req now court chk
                       coach instances pd booking Hcourt Hfree Hchk Havail
                       Hcoach Hinst Hprice Hrow).
    split.
    + intros Hneg. rewrite Hpath.
      rewrite create_lines_negative by exact Hneg. reflexivity.
    + intros Hnd Hfresh Hq.
      destruct (create_lines_ok (booking_seq db) (Views.equipment req)
                  (with_bookings db (bookings db ++ [booking])
                     (booking_seq db + 1)) Hq Hnd)
        as [db2 [Hrun [Hb [_ Hl]]]].
      * cbn [booking_equipment with_bookings]. intros be Hbe Hbid _.
        exact (Hfresh be Hbe Hbid).
      * exists db2. rewrite Hpath, Hrun. split; [reflexivity |].
        split; [exact Hb | exact Hl].
Qed.

(** The amended statement on the seeded database: zero rackets are booked,
    minus one racket is refused at the insert and nothing is stored. *)
Lemma nonpositive_quantity_witness :
  fst (Views.confirm_booking Seed.db 7 Seed.zero_rackets 100)
  = Views.BookingConfirmed 1
  /\ Views.confirm_booking Seed.db 7 Seed.minus_one_racket 100
     = (Views.Error IntegrityError, Seed.db)
  /\ snd (Views.confirm_booking Seed.db 7 Seed.minus_one_racket 100) = Seed.db.
Proof.
  assert (Hfree : forall req,
             BookingSpec.court_free Seed.db (Views.court_id req)
               (Views.date req) (Views.start_time req) (Views.end_time req))
    by (intros req b []).
  assert (Hfresh : BookingSpec.next_booking_fresh Seed.db) by (intros be []).
  assert (Hnd : forall q : Z, NoDup (map fst [(1, q)]))
    by (intros q; constructor; [intros [] | constructor]).
  destruct (PricingEngine.calculate_price Seed.db
              (PricingEngine.mkRequest Seed.indoor1 Seed.thursday (hm 9 0)
                 (hm 10 0) [Seed.racket] None)) as [e | pd] eqn:Hprice;
    [vm_compute in Hprice; discriminate |].
  assert (Hrow : forall req,
             exists booking,
               Views.new_booking Seed.db 7 req 100 Seed.indoor1 None pd
               = inr booking).
  { intros req.
    destruct (Views.new_booking Seed.db 7 req 100 Seed.indoor1 None pd)
      as [e | booking] eqn:Hb; [| exists booking; reflexivity].
    vm_compute in Hprice. injection Hprice as <-.
    vm_compute in Hb. discriminate. }
  split; [| split].
  - destruct (Hrow Seed.zero_rackets) as [booking Hb].
    destruct (proj2 (proj2 (proj2
                (nonpositive_quantity_reaches_availability Seed.db 7
                   Seed.zero_rackets 100)))
                Seed.indoor1 (AvailabilityService.mkCheck true []) None
                [Seed.racket] pd booking
                eq_refl (Hfree Seed.zero_rackets) eq_refl eq_refl eq_refl
                eq_refl Hprice Hb) as [_ Hzero].
    destruct (Hzero (Hnd 0) Hfresh) as [db2 [Hans _]].
    + intros item [<- | []]. cbn. lia.
    + rewrite Hans. reflexivity.
  - destruct (Hrow Seed.minus_one_racket) as [booking Hb].
    destruct (proj2 (proj2 (proj2
                (nonpositive_quantity_reaches_availability Seed.db 7
                   Seed.minus_one_racket 100)))
                Seed.indoor1 (AvailabilityService.mkCheck true []) None
                [Seed.racket] pd booking
                eq_refl (Hfree Seed.minus_one_racket) eq_refl eq_refl eq_refl
                eq_refl Hprice Hb) as [Hneg _].
    apply Hneg. exists (1, -1). split; [left; reflexivity | cbn; lia].
  - apply (proj1 (proj2 (proj2
             (nonpositive_quantity_reaches_availability Seed.db 7
                Seed.minus_one_racket 100)))).
    exists (1, -1). split; [left; reflexivity | cbn; lia].
Defined.

Lemma confirm_booking_no_double_booking (db : DB) (user : Z)
  (req : Views.BookingRequest) (now : Timestamp) :
  BookingInv.no_double_booking db ->
  BookingInv.no_double_booking (snd (Views.confirm_booking db user req now)).
Proof.
  intros Hinv.
  destruct (Views.confirm_booking db user req now) as [r db'] eqn:H.
  cbn [snd].
  destruct (confirm_booking_unchanged _ _ _ _ _ _ H) as [[id ->] | ->];
    [| exact Hinv].
  destruct (confirm_booking_confirmed_inv _ _ _ _ _ _ H)
    as [court [chk [coach [instances [pd
         [Hcourt [Hfirst [_ [_ [_ [_ [_ [_ [booking [Hrow Hlines]]]]]]]]]]]]]]].
  destruct (new_booking_inv _ _ _ _ _ _ _ _ Hrow)
    as [base [total [_ [_ [_ ->]]]]].
  destruct (create_lines_inv _ _ _ _ Hlines) as [_ [Hb _]].
  unfold BookingInv.no_double_booking. rewrite Hb.
  cbn [bookings with_bookings].
  apply ForallOrdPairs_snoc; [exact Hinv |].
  apply Forall_forall. intros b Hin Hcb _ Hsame Hdate.
  assert (Hf := first_filter_none _ _ Hfirst b Hin). cbn beta in Hf.
  cbn in Hsame, Hdate |- *.
  unfold AvailabilityService.overlapping_confirmed in Hf.
  rewrite Hsame, Hdate, !Z.eqb_refl, Hcb, andb_true_r in Hf.
  cbn [andb] in Hf. exact Hf.
Qed.

Lemma cancel_booking_no_double_booking (notify : Waitlist.t -> bool) (db : DB)
  (user booking_id : Z) (now : Timestamp) :
  BookingInv.no_double_booking db ->
  BookingInv.no_double_booking
    (snd (Views.cancel_booking notify db user booking_id now)).
Proof.
  intros Hinv. unfold Views.cancel_booking.
  destruct (find _ (bookings db)) as [booking |]; [| exact Hinv].
  unfold Views.answer.
  destruct (get_court db (Booking.court booking)) as [err | court];
    cbn [bind]; [exact Hinv |].
  destruct (WaitlistService.notify_next_in_queue _ _ _ _ _ _ _)
    as [err | [notified db2]] eqn:Hn; cbn [bind ret snd]; [exact Hinv |].
  unfold BookingInv.no_double_booking.
  rewrite (notify_next_in_queue_bookings _ _ _ _ _ _ _ _ _ Hn).
  cbn [bookings with_bookings]. unfold Views.save_booking.
  apply ForallOrdPairs_map; [| exact Hinv].
  intros a b Hab.
  destruct (Booking.id a =? _); destruct (Booking.id b =? _);
    intros Ha Hb; try discriminate. exact (Hab Ha Hb).
Qed.

Lemma step_bookings_no_double_booking (db db' : DB) :
  WaitlistSpec.step db db' ->
  BookingInv.no_double_booking db -> BookingInv.no_double_booking db'.
Proof.
  intros Hstep Hinv.
  destruct Hstep
    as [db user court date s e now
       | notify db court date s e now r db' Hn
       | db now
       | db waitlist_id user
       | db user req now
       | db user court_id date s e now
       | db user waitlist_id
       | notify db user booking_id now].
  - unfold WaitlistService.add_to_waitlist.
    destruct (first _); exact Hinv.
  - unfold BookingInv.no_double_booking.
    rewrite (notify_next_in_queue_bookings _ _ _ _ _ _ _ _ _ Hn). exact Hinv.
  - exact Hinv.
  - unfold WaitlistService.remove_from_waitlist.
    destruct (find _ (waitlist db)); exact Hinv.
  - apply confirm_booking_no_double_booking. exact Hinv.
  - unfold Views.join_waitlist, Views.answer.
    destruct (get_court db court_id) as [err | court]; cbn [bind];
      [exact Hinv |].
    unfold WaitlistService.add_to_waitlist.
    destruct (first _); exact Hinv.
  - unfold Views.remove_from_waitlist, WaitlistService.remove_from_waitlist.
    destruct (find _ (waitlist db)); exact Hinv.
  - apply cancel_booking_no_double_booking. exact Hinv.
Qed.

(** X6. No double booking: if no two CONFIRMED rows of the booking table
    share a court and a date with overlapping windows, the same holds after
    any operation of the core, and so after any sequence of them. *)
Theorem no_double_booking_is_kept :
  forall db db' : DB,
    BookingInv.no_double_booking db ->
    (WaitlistSpec.step db db' -> BookingInv.no_double_booking db')
    /\ (Relation_Operators.clos_refl_trans DB WaitlistSpec.step db db' ->
        BookingInv.no_double_booking db').
Proof.
  intros db db' Hinv. split.
  - intros Hstep. eapply step_bookings_no_double_booking; eassumption.
  - intros Hsteps. induction Hsteps as [x y Hxy | x | x y z _ IH1 _ IH2].
    + eapply step_bookings_no_double_booking; eassumption.
    + exact Hinv.
    + apply IH2. apply IH1. exact Hinv.
Qed.

(** From the empty booking table of the seeded database to the state where
    user 7 has booked and two users wait. *)
Lemma no_double_booking_witness : BookingInv.no_double_booking Seed.db_queue.
Proof.
  assert (H0 : BookingInv.no_double_booking Seed.db) by constructor.
  apply (proj2 (no_double_booking_is_kept Seed.db Seed.db_queue H0)).
  eapply Relation_Operators.rt_trans;
    [| eapply Relation_Operators.rt_trans];
    apply Relation_Operators.rt_step.
  - exact (WaitlistSpec.step_confirm_booking Seed.db 7 Seed.slot 100).
  - exact (WaitlistSpec.step_join_waitlist
             (snd (Views.confirm_booking Seed.db 7 Seed.slot 100))
             8 1 Seed.thursday (hm 18 0) (hm 19 0) 200).
  - exact (WaitlistSpec.step_join_waitlist _ 9 1 Seed.thursday (hm 18 0)
             (hm 19 0) 300).
Defined.

(* ------------------------------------------------------------------ *)
(** ** The rows of the booking table over time *)

Lemma later_row_refl (b : Booking.t) : BookingInv.later_row b b.
Proof.
  unfold BookingInv.later_row. repeat split; try reflexivity. left. reflexivity.
Qed.

Lemma notify_next_in_queue_tables (notify : Waitlist.t -> bool) (db db' : DB)
  (court : Court.t) (date : Date) (s e : Time) (now : Timestamp)
  (notified : option Waitlist.t) :
  WaitlistService.notify_next_in_queue notify db court date s e now
  = inr (notified, db') ->
  courts db' = courts db /\ booking_seq db' = booking_seq db
  /\ bookings db' = bookings db.
Proof.
  unfold WaitlistService.notify_next_in_queue. intros H.
  destruct (first _) as [w |].
  - destruct (notify _); [| discriminate].
    injection H as _ <-. repeat split; reflexivity.
  - injection H as _ <-. repeat split; reflexivity.
Qed.

(** What one operation does to the booking table: every row afterwards is a
    row from before, as it was or cancelled, or it is the one new row, which
    carries the key the sequence gave out; the courts stay. *)
Lemma step_rows (db1 db2 : DB) :
  WaitlistSpec.step db1 db2 ->
  courts db2 = courts db1
  /\ booking_seq db1 <= booking_seq db2
  /\ forall b', In b' (bookings db2) ->
                (exists b, In b (bookings db1) /\ BookingInv.later_row b b')
                \/ (Booking.id b' = booking_seq db1
                    /\ booking_seq db1 < booking_seq db2).
Proof.
  assert (Hsame : forall d1 d2 : DB,
             courts d2 = courts d1 -> booking_seq d2 = booking_seq d1 ->
             bookings d2 = bookings d1 ->
             courts d2 = courts d1
             /\ booking_seq d1 <= booking_seq d2
             /\ forall b', In b' (bookings d2) ->
                           (exists b, In b (bookings d1)
                                      /\ BookingInv.later_row b b')
                           \/ (Booking.id b' = booking_seq d1
                               /\ booking_seq d1 < booking_seq d2)).
  { intros d1 d2 Hc Hs Hb. split; [exact Hc |]. split; [lia |].
    intros b' Hin. left. exists b'. rewrite <- Hb.
    split; [exact Hin | apply later_row_refl]. }
  intros Hstep.
  destruct Hstep
    as [db user court date s e now
       | notify db court date s e now r db' Hn
       | db now
       | db waitlist_id user
       | db user req now
       | db user court_id date s e now
       | db user waitlist_id
       | notify db user booking_id now].
  - unfold WaitlistService.add_to_waitlist.
    destruct (first _); apply Hsame; reflexivity.
  - destruct (notify_next_in_queue_tables _ _ _ _ _ _ _ _ _ Hn)
      as [Hc [Hs Hb]].
    apply Hsame; assumption.
  - apply Hsame; reflexivity.
  - unfold WaitlistService.remove_from_waitlist.
    destruct (find _ (waitlist db)); apply Hsame; reflexivity.
  - destruct (Views.confirm_booking db user req now) as [r db'] eqn:H.
    cbn [snd].
    destruct (confirm_booking_unchanged _ _ _ _ _ _ H) as [[id ->] | ->];
      [| apply Hsame; reflexivity].
    destruct (confirm_booking_confirmed_inv _ _ _ _ _ _ H)
      as [court [chk [coach [instances [pd
           [_ [_ [_ [_ [_ [_ [_ [_ [booking [Hrow Hlines]]]]]]]]]]]]]]].
    destruct (new_booking_inv _ _ _ _ _ _ _ _ Hrow)
      as [base [total [_ [_ [_ Hfields]]]]].
    destruct (create_lines_inv _ _ _ _ Hlines) as [_ [Hb [Hseq [Hc _]]]].
    cbn [bookings booking_seq courts with_bookings] in Hb, Hseq, Hc.
    split; [exact Hc |]. split; [lia |].
    intros b' Hin. rewrite Hb in Hin. apply in_app_or in Hin.
    destruct Hin as [Hin | [<- | []]].
    + left. exists b'. split; [exact Hin | apply later_row_refl].
    + right. rewrite Hfields. cbn [Booking.id]. lia.
  - unfold Views.join_waitlist, Views.answer.
    destruct (get_court db court_id) as [err | court]; cbn [bind];
      [apply Hsame; reflexivity |].
    unfold WaitlistService.add_to_waitlist.
    destruct (first _); apply Hsame; reflexivity.
  - unfold Views.remove_from_waitlist, WaitlistService.remove_from_waitlist.
    destruct (find _ (waitlist db)); apply Hsame; reflexivity.
  - unfold Views.cancel_booking.
    destruct (find _ (bookings db)) as [booking |] eqn:Hfind;
      [| apply Hsame; reflexivity].
    apply find_some in Hfind. destruct Hfind as [Hbin _].
    unfold Views.answer.
    destruct (get_court db (Booking.court booking)) as [err | court];
      cbn [bind]; [apply Hsame; reflexivity |].
    destruct (WaitlistService.notify_next_in_queue _ _ _ _ _ _ _)
      as [err | [notified db2]] eqn:Hn; cbn [bind ret snd];
      [apply Hsame; reflexivity |].
    destruct (notify_next_in_queue_tables _ _ _ _ _ _ _ _ _ Hn)
      as [Hc [Hs Hb]].
    cbn [bookings booking_seq courts with_bookings] in Hb, Hs, Hc.
    split; [exact Hc |]. split; [lia |].
    intros b' Hin. left. rewrite Hb in Hin. unfold Views.save_booking in Hin.
    apply in_map_iff in Hin. destruct Hin as [x [Hx Hxin]].
    destruct (Booking.id x =? _).
    + exists booking. split; [exact Hbin |]. subst b'.
      unfold BookingInv.later_row. cbn.
      repeat split; try reflexivity. right. reflexivity.
    + exists x. subst b'. split; [exact Hxin | apply later_row_refl].
Qed.

(** A property of the rows with one key that a later row inherits holds of
    them after any number of operations, the key being one the sequence has
    passed. *)
Lemma rows_invariant (P : Booking.t -> Prop) (k : Z) :
  (forall b b', BookingInv.later_row b b' -> P b -> P b') ->
  forall db1 db2 : DB,
    Relation_Operators.clos_refl_trans DB WaitlistSpec.step db1 db2 ->
    k < booking_seq db1 ->
    (forall b, In b (bookings db1) -> Booking.id b = k -> P b) ->
    courts db2 = courts db1
    /\ k < booking_seq db2
    /\ (forall b, In b (bookings db2) -> Booking.id b = k -> P b).
Proof.
  intros HP db1 db2 Hrt.
  induction Hrt as [d1 d2 Hstep | d | d1 d2 d3 _ IH1 _ IH2]; intros Hk Hrows.
  - destruct (step_rows _ _ Hstep) as [Hc [Hseq Hb]].
    split; [exact Hc |]. split; [lia |].
    intros b' Hin Hid. destruct (Hb b' Hin) as [[b [Hbin Hlater]] | [Hnew _]].
    + apply (HP b b' Hlater). apply Hrows; [exact Hbin |].
      destruct Hlater as [Hsame _]. congruence.
    + lia.
  - auto.
  - destruct (IH1 Hk Hrows) as [Hc1 [Hk1 Hrows1]].
    destruct (IH2 Hk1 Hrows1) as [Hc2 [Hk2 Hrows2]].
    split; [congruence |]. split; assumption.
Qed.

(** Every operation keeps the booking keys below the sequence. *)
Lemma step_ids_below_seq (db1 db2 : DB) :
  WaitlistSpec.step db1 db2 ->
  BookingInv.ids_below_seq db1 -> BookingInv.ids_below_seq db2.
Proof.
  intros Hstep Hinv b' Hin.
  destruct (step_rows _ _ Hstep) as [_ [Hseq Hb]].
  destruct (Hb b' Hin) as [[b [Hbin [Hid _]]] | [Hnew Hlt]].
  - specialize (Hinv b Hbin). lia.
  - lia.
Qed.

(** A CONFIRMED row of the court that overlaps the window makes the view
    answer [SlotFull] and the check say no. *)
Lemma slot_taken_by_row (db : DB) (user : Z) (req : Views.BookingRequest)
  (now : Timestamp) (court : Court.t) (b : Booking.t) :
  get_court db (Views.court_id req) = inr court ->
  In b (bookings db) ->
  Booking.court b = Views.court_id req ->
  AvailabilityService.overlapping_confirmed (Views.date req)
    (Views.start_time req) (Views.end_time req) b = true ->
  Views.confirm_booking db user req now = (Views.SlotFull, db)
  /\ AvailabilityService.check_court_available db (Views.court_id req)
       (Views.date req) (Views.start_time req) (Views.end_time req) None
     = false.
Proof.
  intros Hcourt Hin Hbc Hoc.
  destruct (get_court_id _ _ _ Hcourt) as [Hid _].
  split.
  - unfold Views.confirm_booking, Views.confirm_booking_body.
    rewrite Hcourt. cbn [bind].
    edestruct (first_filter_some
                 (fun b0 => (Booking.court b0 =? Court.id court)
                            && AvailabilityService.overlapping_confirmed
                                 (Views.date req) (Views.start_time req)
                                 (Views.end_time req) b0)
                 (bookings db) b Hin) as [y Hy].
    + rewrite Hbc, Hid, Z.eqb_refl, Hoc. reflexivity.
    + rewrite Hy. reflexivity.
  - unfold AvailabilityService.check_court_available.
    apply negb_false_iff, existsb_exists. exists b. split; [exact Hin |].
    rewrite Hbc, Z.eqb_refl, Hoc. reflexivity.
Qed.

(** X7. A confirmed slot stays taken until the booking is cancelled. In a
    database whose booking keys are below the sequence, once a request is
    confirmed the booking is in the table, CONFIRMED, under the key that
    was answered; and after any number of further operations, as long as a
    row with that key is still CONFIRMED, every request for the same court
    and date whose window overlaps the confirmed one is answered [SlotFull]
    and stores nothing, and [check_court_available] says no for that
    window. *)
Theorem confirmed_slot_stays_taken :
  forall (db db' : DB) (user : Z) (req : Views.BookingRequest)
         (now : Timestamp) (id : Z),
    BookingInv.ids_below_seq db ->
    Views.confirm_booking db user req now = (Views.BookingConfirmed id, db') ->
    (exists b, In b (bookings db') /\ Booking.id b = id
               /\ Booking.status b = Booking.CONFIRMED)
    /\ forall (db'' : DB) (user2 : Z) (req2 : Views.BookingRequest)
              (now2 : Timestamp),
         Relation_Operators.clos_refl_trans DB WaitlistSpec.step db' db'' ->
         (exists b, In b (bookings db'') /\ Booking.id b = id
                    /\ Booking.status b = Booking.CONFIRMED) ->
         Views.court_id req2 = Views.court_id req ->
         Views.date req2 = Views.date req ->
         _time_overlaps (Views.start_time req) (Views.end_time req)
                        (Views.start_time req2) (Views.end_time req2) = true ->
         Views.confirm_booking db'' user2 req2 now2 = (Views.SlotFull, db'')
         /\ AvailabilityService.check_court_available db''
              (Views.court_id req2) (Views.date req2) (Views.start_time req2)
              (Views.end_time req2) None
            = false.
Proof.
  intros db db' user req now id Hids H.
  destruct (confirm_booking_confirmed_inv _ _ _ _ _ _ H)
    as [court [chk [coach [instances [pd
         [Hcourt [_ [_ [_ [_ [_ [_ [-> [booking [Hrow Hlines]]]]]]]]]]]]]]].
  destruct (new_booking_inv _ _ _ _ _ _ _ _ Hrow)
    as [base [total [_ [_ [_ Hfields]]]]].
  destruct (create_lines_inv _ _ _ _ Hlines) as [_ [Hb [Hseq [Hcourts _]]]].
  cbn [bookings booking_seq courts with_bookings] in Hb, Hseq, Hcourts.
  destruct (get_court_id _ _ _ Hcourt) as [Hid _].
  split.
  - exists booking. split; [rewrite Hb; apply in_or_app; right; left; reflexivity |].
    rewrite Hfields. split; reflexivity.
  - intros db'' user2 req2 now2 Hrt [b [Hin [Hbid Hst]]] Hc Hd Hov.
    destruct (rows_invariant
                (fun x => Booking.court x = Views.court_id req
                          /\ Booking.date x = Views.date req
                          /\ Booking.start_time x = Views.start_time req
                          /\ Booking.end_time x = Views.end_time req)
                (booking_seq db)) with (db1 := db') (db2 := db'')
      as [Hc2 [_ Hrows]].
    + intros x x' [_ [_ [Hxc [Hxd [Hxs [Hxe _]]]]]] [H1 [H2 [H3 H4]]].
      repeat split; congruence.
    + exact Hrt.
    + lia.
    + intros x Hx Hxid. rewrite Hb in Hx. apply in_app_or in Hx.
      destruct Hx as [Hx | [<- | []]].
      * specialize (Hids x Hx). lia.
      * rewrite Hfields. cbn. repeat split; try reflexivity. exact Hid.
    + destruct (Hrows b Hin Hbid) as [Hbc [Hbd [Hbs Hbe]]].
      apply (slot_taken_by_row db'' user2 req2 now2 court b).
      * unfold get_court in *. rewrite Hc2, Hcourts, Hc. exact Hcourt.
      * exact Hin.
      * congruence.
      * unfold AvailabilityService.overlapping_confirmed, Booking.is_confirmed.
        rewrite Hbd, Hd, Z.eqb_refl, Hbs, Hbe, Hst. cbn [andb].
        rewrite andb_true_r. exact Hov.
Qed.

(** On the seeded database: user 7 books the Thursday slot, users 8 and 9
    join its waitlist, and user 8 then asks for the slot. *)
Lemma confirmed_slot_witness :
  Views.confirm_booking Seed.db_queue 8 Seed.slot 350
  = (Views.SlotFull, Seed.db_queue).
Proof.
  assert (H : Views.confirm_booking Seed.db 7 Seed.slot 100
              = (Views.BookingConfirmed 1, Seed.db_booked))
    by (vm_compute; reflexivity).
  assert (Hids : BookingInv.ids_below_seq Seed.db) by (intros b []).
  destruct (confirmed_slot_stays_taken Seed.db Seed.db_booked 7 Seed.slot 100
              1 Hids H) as [_ Hlater].
  destruct (Hlater Seed.db_queue 8 Seed.slot 350) as [Hfull _].
  - eapply Relation_Operators.rt_trans; apply Relation_Operators.rt_step.
    + exact (WaitlistSpec.step_join_waitlist Seed.db_booked
               8 1 Seed.thursday (hm 18 0) (hm 19 0) 200).
    + exact (WaitlistSpec.step_join_waitlist _ 9 1 Seed.thursday (hm 18 0)
               (hm 19 0) 300).
  - exists (nth 0 (bookings Seed.db_queue)
                (Booking.mk 0 0 0 0 0 0 None (cents 0) (cents 0) []
                   Booking.CANCELLED 0 0)).
    split; [vm_compute; left; reflexivity |].
    split; vm_compute; reflexivity.
  - reflexivity.
  - reflexivity.
  - vm_compute. reflexivity.
  - exact Hfull.
Defined.

(** X8. [confirm_booking] stores nothing unless it confirms: with any other
    answer the database is the one it was given. A court key that does not
    exist is answered with the generic error for [DoesNotExist], and so is,
    on an existing court free for the window, an equipment key that does not
    exist. *)
Theorem unconfirmed_request_stores_nothing :
  forall (db : DB) (user : Z) (req : Views.BookingRequest) (now : Timestamp),
    ((forall id, fst (Views.confirm_booking db user req now)
                 <> Views.BookingConfirmed id) ->
     snd (Views.confirm_booking db user req now) = db)
    /\ ((forall c, In c (courts db) -> Court.id c <> Views.court_id req) ->
        Views.confirm_booking db user req now
        = (Views.Error DoesNotExist, db))
    /\ (forall court,
           get_court db (Views.court_id req) = inr court ->
           BookingSpec.court_free db (Views.court_id req) (Views.date req)
             (Views.start_time req) (Views.end_time req) ->
           (exists item, In item (Views.equipment req)
                         /\ forall e, In e (equipment db) ->
                                      Equipment.id e <> fst item) ->
           Views.confirm_booking db user req now
           = (Views.Error DoesNotExist, db)).
Proof.
  intros db user req now. split; [| split].
  - intros Hne.
    destruct (Views.confirm_booking db user req now) as [r db'] eqn:H.
    cbn [fst snd] in *.
    destruct (confirm_booking_unchanged _ _ _ _ _ _ H) as [[id ->] | ->];
      [exfalso; apply (Hne id); reflexivity | reflexivity].
  - intros Hnone. unfold Views.confirm_booking, Views.confirm_booking_body.
    unfold get_court.
    destruct (find _ (courts db)) as [c |] eqn:Hf; [| reflexivity].
    apply find_some in Hf. destruct Hf as [Hin Hid]. apply Z.eqb_eq in Hid.
    exfalso. exact (Hnone c Hin Hid).
  - intros court Hcourt Hfree [item [Hin Hmissing]].
    unfold Views.confirm_booking, Views.confirm_booking_body.
    rewrite Hcourt. cbn [bind].
    destruct (get_court_id _ _ _ Hcourt) as [Hid _].
    rewrite court_free_no_existing_booking by (rewrite Hid; exact Hfree).
    unfold AvailabilityService.check_all_resources_available.
    rewrite (check_items_missing db (Views.date req) (Views.start_time req)
               (Views.end_time req) (Views.equipment req));
      [reflexivity |].
    exists item. split; [exact Hin |].
    unfold get_equipment.
    destruct (find _ (equipment db)) as [e |] eqn:Hf; [| reflexivity].
    apply find_some in Hf. destruct Hf as [He Heid]. apply Z.eqb_eq in Heid.
    exfalso. exact (Hmissing e He Heid).
Qed.

(** On the seeded database: court 99 and equipment 99 do not exist. *)
Lemma unconfirmed_request_witness :
  Views.confirm_booking Seed.db 7
    (Views.mkBookingRequest 99 Seed.thursday (hm 9 0) (hm 10 0) [] None) 100
  = (Views.Error DoesNotExist, Seed.db)
  /\ Views.confirm_booking Seed.db 7
       (Views.mkBookingRequest 1 Seed.thursday (hm 9 0) (hm 10 0) [(99, 1)] None)
       100
     = (Views.Error DoesNotExist, Seed.db).
Proof.
  split.
  - apply (proj1 (proj2 (unconfirmed_request_stores_nothing Seed.db 7
                           (Views.mkBookingRequest 99 Seed.thursday (hm 9 0)
                              (hm 10 0) [] None) 100))).
    intros c [<- | [<- | []]]; discriminate.
  - apply (proj2 (proj2 (unconfirmed_request_stores_nothing Seed.db 7
                           (Views.mkBookingRequest 1 Seed.thursday (hm 9 0)
                              (hm 10 0) [(99, 1)] None) 100))
             Seed.indoor1).
    + reflexivity.
    + intros b [].
    + exists (99, 1). split; [left; reflexivity |].
      intros e [<- | [<- | []]]; discriminate.
Defined.

(* ------------------------------------------------------------------ *)
(** ** Places in the queue *)



Lemma position_from_shift (idx user : Z) (l : list Waitlist.t) :
  WaitlistService.position_from (idx + 1) user l
  = option_map Z.succ (WaitlistService.position_from idx user l).
Proof.
  revert idx. induction l as [| x l IH]; intros idx; cbn.
  - reflexivity.
  - destruct (Waitlist.user x =? user); [cbn; f_equal; lia | apply IH].
Qed.



Section OrderByEnds.
Context {A : Type} (key : A -> Z).



(** The head of the order splits the scan: strictly greater keys before it,
    keys at least as great after it. *)
Lemma first_order_by_split (l : list A) (w : A) :
  first (order_by (on_key key) l) = Some w ->
  exists l1 l2,
    l = l1 ++ w :: l2
    /\ (forall x, In x l1 -> key w < key x)
    /\ (forall x, In x l2 -> key w <= key x).
Proof.
  revert w. induction l as [| a l IH]; intros w H; [discriminate |].
  cbn [order_by] in H.
  destruct (order_by (on_key key) l) as [| h t] eqn:Ho.
  - cbn in H. injection H as <-.
    apply (f_equal (@first A)) in Ho. apply first_order_by_none in Ho.
    subst l. exists [], []. repeat split; intros x [].
  - cbn [insert_by] in H. unfold on_key at 1 in H.
    assert (Hh : first (order_by (on_key key) l) = Some h)
      by (rewrite Ho; reflexivity).
    destruct (Z.leb_spec (key a) (key h)) as [Hle | Hlt].
    + cbn in H. injection H as <-.
      exists [], l. split; [reflexivity |]. split; [intros x [] |].
      intros x Hx. destruct (first_order_by_least _ _ _ Hh) as [_ Hmin].
      specialize (Hmin x Hx). lia.
    + cbn in H. injection H as <-.
      destruct (IH h eq_refl) as [l1 [l2 [-> [H1 H2]]]].
      exists (a :: l1), l2. split; [reflexivity |]. split; [| exact H2].
      intros x [<- | Hx]; [exact Hlt | apply H1; exact Hx].
Qed.

Lemma order_by_head_out (l1 l2 : list A) (w : A) :
  (forall x, In x l1 -> key w < key x) ->
  (forall x, In x l2 -> key w <= key x) ->
  order_by (on_key key) (l1 ++ w :: l2)
  = w :: order_by (on_key key) (l1 ++ l2).
Proof.
  intros H1 H2. induction l1 as [| a l1 IH]; cbn [app order_by].
  - destruct (order_by (on_key key) l2) as [| h t] eqn:Ho; [reflexivity |].
    cbn [insert_by]. unfold on_key at 1.
    assert (Hh : first (order_by (on_key key) l2) = Some h)
      by (rewrite Ho; reflexivity).
    destruct (first_order_by_least _ _ _ Hh) as [Hin _].
    replace (key w <=? key h) with true
      by (symmetry; apply Z.leb_le; apply H2; exact Hin).
    reflexivity.
  - rewrite IH by (intros x Hx; apply H1; right; exact Hx).
    cbn [insert_by]. unfold on_key at 1.
    replace (key a <=? key w) with false
      by (symmetry; apply Z.leb_gt; apply H1; left; reflexivity).
    reflexivity.
Qed.

End OrderByEnds.




(* ------------------------------------------------------------------ *)
(** ** First in, first out *)

Lemma filter_map_rows {A : Type} (p q : A -> bool) (f : A -> A) (l : list A) :
  (forall x, In x l ->
             (if p (f x) then [f x] else []) = (if q x then [x] else [])) ->
  filter p (map f l) = filter q l.
Proof.
  induction l as [| x l IH]; intros H; [reflexivity |].
  cbn [map filter].
  assert (Hx := H x (or_introl eq_refl)).
  rewrite IH by (intros y Hy; apply H; right; exact Hy).
  destruct (p (f x)); destruct (q x); try discriminate.
  - injection Hx as ->. reflexivity.
  - reflexivity.
Qed.

Lemma unique_ids_filter {A : Type} (id : A -> Z) (p : A -> bool) (l : list A) :
  DBSpec.unique_ids id l -> DBSpec.unique_ids id (filter p l).
Proof.
  unfold DBSpec.unique_ids. induction l as [| x l IH]; intros H; cbn.
  - constructor.
  - cbn in H. inversion H as [| ? ? Hnotin Hnd]; subst.
    destruct (p x); [| apply IH; exact Hnd].
    cbn. constructor; [| apply IH; exact Hnd].
    intros Hin. apply Hnotin. apply in_map_iff in Hin.
    destruct Hin as [y [Hy Hin]]. apply filter_In in Hin.
    apply in_map_iff. exists y. tauto.
Qed.

Lemma filter_other_ids {A : Type} (id : A -> Z) (l1 l2 : list A) (w : A) :
  DBSpec.unique_ids id (l1 ++ w :: l2) ->
  filter (fun x => negb (id x =? id w)) (l1 ++ w :: l2) = l1 ++ l2.
Proof.
  unfold DBSpec.unique_ids. rewrite map_app. cbn [map]. intros Hnd.
  assert (Hnotin := NoDup_remove_2 _ _ _ Hnd).
  rewrite filter_app. cbn [filter]. rewrite Z.eqb_refl. cbn [negb].
  rewrite !filter_all_true; [reflexivity | |].
  - intros x Hx. apply negb_true_iff, Z.eqb_neq. intros Heq.
    apply Hnotin. apply in_or_app. right. rewrite <- Heq. apply in_map. exact Hx.
  - intros x Hx. apply negb_true_iff, Z.eqb_neq. intros Heq.
    apply Hnotin. apply in_or_app. left. rewrite <- Heq. apply in_map. exact Hx.
Qed.

(** X11. First in, first out. With entry keys unique, when
    [notify_next_in_queue] notifies an entry, that entry was the head of the
    queue of the slot, its requester was at position 1, the queue of the slot
    afterwards is the rest of it in the same order, every other requester
    who had position [k] now has position [k - 1], and the queue of every
    other slot is as it was. *)
Theorem notification_serves_the_queue_in_order :
  forall (notify : Waitlist.t -> bool) (db db' : DB) (court : Court.t)
         (date : Date) (s e : Time) (now : Timestamp) (w' : Waitlist.t),
    DBSpec.unique_ids Waitlist.id (waitlist db) ->
    WaitlistService.notify_next_in_queue notify db court date s e now
    = inr (Some w', db') ->
    exists w rest,
      QueueSpec.queue db (Court.id court) date s e = w :: rest
      /\ w' = Waitlist.set_notified_at now
                (Waitlist.set_status Waitlist.NOTIFIED w)
      /\ QueueSpec.queue db' (Court.id court) date s e = rest
      /\ WaitlistService.get_waitlist_position db (Waitlist.user w) court
           date s e = Some 1
      /\ (forall u k,
             u <> Waitlist.user w ->
             WaitlistService.get_waitlist_position db u court date s e
             = Some k ->
             WaitlistService.get_waitlist_position db' u court date s e
             = Some (k - 1))
      /\ (forall c2 d2 s2 e2,
             (c2, d2, s2, e2) <> (Court.id court, date, s, e) ->
             QueueSpec.queue db' c2 d2 s2 e2 = QueueSpec.queue db c2 d2 s2 e2).
Proof.
  intros notify db db' court date s e now w' Hnd H.
  unfold WaitlistService.notify_next_in_queue in H.
  destruct (first _) as [w |] eqn:Hfirst; [| discriminate].
  destruct (notify _); [| discriminate].
  injection H as <- <-.
  set (w' := Waitlist.set_notified_at now
               (Waitlist.set_status Waitlist.NOTIFIED w)).
  destruct (first_order_by_split _ _ _ Hfirst) as [l1 [l2 [Hsplit [H1 H2]]]].
  assert (Hw : In w (waitlist db)
               /\ WaitlistService.waiting_for (Court.id court) date s e w = true).
  { apply filter_In. rewrite Hsplit. apply in_or_app. right. left. reflexivity. }
  destruct Hw as [Hwin Hww].
  assert (Hqueue : QueueSpec.queue db (Court.id court) date s e
                   = w :: order_by (on_key Waitlist.created_at) (l1 ++ l2)).
  { unfold QueueSpec.queue. rewrite Hsplit.
    apply order_by_head_out; assumption. }
  assert (Hsave : forall p : Waitlist.t -> bool,
             p w' = false ->
             filter p (WaitlistService.save w' (waitlist db))
             = filter (fun x => p x && negb (Waitlist.id x =? Waitlist.id w))
                      (waitlist db)).
  { intros p Hp. unfold WaitlistService.save. apply filter_map_rows.
    intros x Hx. change (Waitlist.id w') with (Waitlist.id w).
    destruct (Z.eqb_spec (Waitlist.id x) (Waitlist.id w)) as [Heq | Hne].
    - rewrite Hp, andb_false_r. reflexivity.
    - rewrite andb_true_r. reflexivity. }
  assert (Hrest : QueueSpec.queue
                    (with_waitlist db (WaitlistService.save w' (waitlist db))
                                   (waitlist_seq db))
                    (Court.id court) date s e
                  = order_by (on_key Waitlist.created_at) (l1 ++ l2)).
  { unfold QueueSpec.queue. cbn [waitlist with_waitlist].
    rewrite Hsave by (unfold WaitlistService.waiting_for; cbn;
                      rewrite !andb_false_r; reflexivity).
    f_equal.
    rewrite <- (filter_other_ids Waitlist.id l1 l2 w).
    - rewrite <- Hsplit.
      clear. induction (waitlist db) as [| x l IH]; [reflexivity |].
      cbn [filter].
      destruct (WaitlistService.waiting_for _ _ _ _ x); cbn [andb filter];
        [destruct (negb _) |]; rewrite IH; reflexivity.
    - rewrite <- Hsplit. apply unique_ids_filter. exact Hnd. }
  exists w, (order_by (on_key Waitlist.created_at) (l1 ++ l2)).
  split; [exact Hqueue |]. split; [reflexivity |]. split; [exact Hrest |].
  split; [| split].
  - unfold WaitlistService.get_waitlist_position.
    fold (QueueSpec.queue db (Court.id court) date s e). rewrite Hqueue.
    cbn. rewrite Z.eqb_refl. reflexivity.
  - intros u k Hu Hk.
    unfold WaitlistService.get_waitlist_position in *.
    fold (QueueSpec.queue db (Court.id court) date s e) in Hk.
    fold (QueueSpec.queue
            (with_waitlist db (WaitlistService.save w' (waitlist db))
                           (waitlist_seq db))
            (Court.id court) date s e).
    rewrite Hqueue in Hk. rewrite Hrest.
    cbn [WaitlistService.position_from] in Hk.
    replace (Waitlist.user w =? u) with false in Hk
      by (symmetry; apply Z.eqb_neq; congruence).
    rewrite position_from_shift in Hk.
    destruct (WaitlistService.position_from 1 u _) as [k0 |];
      [| discriminate].
    cbn in Hk. injection Hk as <-. f_equal. lia.
  - intros c2 d2 s2 e2 Hkey. unfold QueueSpec.queue.
    cbn [waitlist with_waitlist]. f_equal.
    unfold WaitlistService.save. apply filter_map_rows.
    intros x Hx. change (Waitlist.id w') with (Waitlist.id w).
    destruct (Z.eqb_spec (Waitlist.id x) (Waitlist.id w)) as [Heq | Hne];
      [| reflexivity].
    assert (x = w)
      by (apply (unique_ids_same_row Waitlist.id (waitlist db)); assumption).
    subst x.
    replace (WaitlistService.waiting_for c2 d2 s2 e2 w') with false
      by (unfold WaitlistService.waiting_for; cbn;
          rewrite !andb_false_r; reflexivity).
    destruct (WaitlistService.waiting_for c2 d2 s2 e2 w) eqn:Hw2;
      [| reflexivity].
    exfalso. apply Hkey.
    apply WaitlistFacts.waiting_for_true in Hw2.
    apply WaitlistFacts.waiting_for_true in Hww.
    destruct Hw2 as [<- [<- [<- [<- _]]]].
    destruct Hww as [<- [<- [<- [<- _]]]]. reflexivity.
Qed.

(** On the seeded queue: user 8 is served, user 9 moves from place 2 to
    place 1. *)
Lemma notification_order_witness :
  exists w' db',
    WaitlistService.notify_next_in_queue (fun _ => true) Seed.db_queue
      Seed.indoor1 Seed.thursday (hm 18 0) (hm 19 0) 400
    = inr (Some w', db')
    /\ WaitlistService.get_waitlist_position Seed.db_queue 9 Seed.indoor1
         Seed.thursday (hm 18 0) (hm 19 0) = Some 2
    /\ WaitlistService.get_waitlist_position db' 9 Seed.indoor1
         Seed.thursday (hm 18 0) (hm 19 0) = Some (2 - 1).
Proof.
  destruct (WaitlistService.notify_next_in_queue (fun _ => true) Seed.db_queue
              Seed.indoor1 Seed.thursday (hm 18 0) (hm 19 0) 400)
    as [err | [[w' |] db']] eqn:H;
    [vm_compute in H; discriminate | | vm_compute in H; discriminate].
  assert (Hnd : DBSpec.unique_ids Waitlist.id (waitlist Seed.db_queue)).
  { unfold DBSpec.unique_ids. vm_compute.
    constructor; [intros [Heq | []]; discriminate |].
    constructor; [intros [] | constructor]. }
  assert (Hpos : WaitlistService.get_waitlist_position Seed.db_queue 9
                   Seed.indoor1 Seed.thursday (hm 18 0) (hm 19 0) = Some 2)
    by (vm_compute; reflexivity).
  destruct (notification_serves_the_queue_in_order _ _ _ _ _ _ _ _ _ Hnd H)
    as [w [rest [Hq [_ [_ [_ [Hup _]]]]]]].
  exists w', db'. split; [reflexivity |]. split; [exact Hpos |].
  apply Hup; [| exact Hpos].
  assert (Hw : Some w = Some (Waitlist.mk 1 8 1 Seed.thursday (hm 18 0)
                                 (hm 19 0) Waitlist.WAITING 200 None)).
  { change (Some w) with (first (w :: rest)). rewrite <- Hq.
    vm_compute. reflexivity. }
  injection Hw as ->. discriminate.
Defined.

(* ------------------------------------------------------------------ *)
(** ** Expiry and removal *)

(** X12. [expire_old_notifications] returns the number of NOTIFIED entries
    notified more than twenty-four hours before [now]; it changes those rows
    to EXPIRED and no other row, keeping the places; and running it again at
    the same time or an earlier one changes nothing and returns 0. *)
Theorem expiry_is_exact_and_idempotent :
  forall (db : DB) (now : Timestamp),
    fst (WaitlistService.expire_old_notifications db now)
    = Z.of_nat (List.length
                  (filter (fun w => Waitlist.is_notified w
                                    && match Waitlist.notified_at w with
                                       | Some ts =>
                                           ts <? now - 24 * 3600 * 1000000
                                       | None => false
                                       end)
                          (waitlist db)))
    /\ (forall n w,
           nth_error (waitlist db) n = Some w ->
           exists w',
             nth_error
               (waitlist (snd (WaitlistService.expire_old_notifications db now)))
               n = Some w'
             /\ ((Waitlist.status w = Waitlist.NOTIFIED
                  /\ (exists ts, Waitlist.notified_at w = Some ts
                                 /\ ts < now - 24 * 3600 * 1000000)
                  /\ w' = Waitlist.set_status Waitlist.EXPIRED w)
                 \/ (w' = w
                     /\ ~ (Waitlist.status w = Waitlist.NOTIFIED
                           /\ exists ts, Waitlist.notified_at w = Some ts
                                         /\ ts < now - 24 * 3600 * 1000000))))
    /\ List.length
         (waitlist (snd (WaitlistService.expire_old_notifications db now)))
       = List.length (waitlist db)
    /\ bookings (snd (WaitlistService.expire_old_notifications db now))
       = bookings db
    /\ (forall now2,
           now2 <= now ->
           WaitlistService.expire_old_notifications
             (snd (WaitlistService.expire_old_notifications db now)) now2
           = (0, snd (WaitlistService.expire_old_notifications db now))).
Proof.
  intros db now. unfold WaitlistService.expire_old_notifications.
  cbn [fst snd waitlist bookings with_waitlist].
  split; [reflexivity |]. split; [| split; [apply length_map | split]].
  - intros n w Hn. rewrite nth_error_map, Hn. cbn [option_map].
    eexists. split; [reflexivity |].
    unfold WaitlistService.stale, Waitlist.is_notified,
           WaitlistService.hours_24.
    destruct (Waitlist.status w) eqn:Hst; cbn [andb];
      try (right; split; [reflexivity | intros [H _]; discriminate]).
    destruct (Waitlist.notified_at w) as [ts |] eqn:Hat.
    + destruct (Z.ltb_spec ts (now - 24 * 3600 * 1000000)) as [Hlt | Hge].
      * left. split; [reflexivity |]. split; [| reflexivity].
        exists ts. split; [reflexivity | exact Hlt].
      * right. split; [reflexivity |]. intros [_ [ts' [Heq Hlt]]].
        injection Heq as <-. lia.
    + right. split; [reflexivity |]. intros [_ [ts' [Heq _]]]. discriminate.
  - reflexivity.
  - intros now2 Hle.
    assert (Hnone : forall w,
               WaitlistService.stale (now2 - WaitlistService.hours_24)
                 (if WaitlistService.stale (now - WaitlistService.hours_24) w
                  then Waitlist.set_status Waitlist.EXPIRED w else w)
               = false).
    { intros w.
      destruct (WaitlistService.stale (now - WaitlistService.hours_24) w)
        eqn:Hs; [reflexivity |].
      unfold WaitlistService.stale in *.
      destruct (Waitlist.is_notified w); [| reflexivity]. cbn [andb] in *.
      destruct (Waitlist.notified_at w) as [ts |]; [| reflexivity].
      apply Z.ltb_ge in Hs. apply Z.ltb_ge. lia. }
    f_equal.
    + rewrite filter_all_false; [reflexivity |].
      intros x Hx. apply in_map_iff in Hx. destruct Hx as [w [<- _]].
      apply Hnone.
    + destruct db as [c eq co ca pr b be ws bs bes wsq].
      cbn [waitlist with_waitlist courts equipment coaches coach_availability
           pricing_rules bookings booking_equipment booking_seq
           booking_equipment_seq waitlist_seq].
      unfold with_waitlist. cbn. f_equal.
      rewrite map_map. apply map_ext. intros w. rewrite Hnone. reflexivity.
Qed.

(** X13. [remove_from_waitlist] deletes only an entry that carries both the
    given key and the given user: if there is one it answers [True] and the
    table afterwards holds exactly the rows with another key, in their
    order; if every row with that key belongs to someone else, or there is
    none, it answers [False] and the database is untouched; and a second
    removal answers [False]. *)
Theorem removal_needs_the_owner :
  forall (db : DB) (waitlist_id user : Z),
    ((exists w, In w (waitlist db) /\ Waitlist.id w = waitlist_id
                /\ Waitlist.user w = user) ->
     WaitlistService.remove_from_waitlist db waitlist_id user
     = (true,
        with_waitlist db
          (filter (fun w => negb (Waitlist.id w =? waitlist_id)) (waitlist db))
          (waitlist_seq db))
     /\ Views.remove_from_waitlist db user waitlist_id
        = (Views.WaitlistRemoved,
           snd (WaitlistService.remove_from_waitlist db waitlist_id user))
     /\ forall user2,
          WaitlistService.remove_from_waitlist
            (snd (WaitlistService.remove_from_waitlist db waitlist_id user))
            waitlist_id user2
          = (false,
             snd (WaitlistService.remove_from_waitlist db waitlist_id user)))
    /\ ((forall w, In w (waitlist db) -> Waitlist.id w = waitlist_id ->
                   Waitlist.user w <> user) ->
        WaitlistService.remove_from_waitlist db waitlist_id user = (false, db)
        /\ Views.remove_from_waitlist db user waitlist_id
           = (Views.WaitlistEntryNotFound, db)).
Proof.
  intros db waitlist_id user. split.
  - intros [w [Hin [Hid Hu]]].
    assert (Hrm : WaitlistService.remove_from_waitlist db waitlist_id user
                  = (true,
                     with_waitlist db
                       (filter (fun w => negb (Waitlist.id w =? waitlist_id))
                               (waitlist db))
                       (waitlist_seq db))).
    { unfold WaitlistService.remove_from_waitlist.
      destruct (find _ (waitlist db)) as [w0 |] eqn:Hf.
      - apply find_some in Hf. destruct Hf as [_ Hp].
        apply andb_prop in Hp. destruct Hp as [Hid0 _].
        apply Z.eqb_eq in Hid0. rewrite Hid0. reflexivity.
      - exfalso. apply (find_none _ _ Hf) in Hin.
        rewrite Hid, Hu, !Z.eqb_refl in Hin. discriminate. }
    split; [exact Hrm |]. split.
    + unfold Views.remove_from_waitlist. rewrite Hrm. reflexivity.
    + intros user2. rewrite Hrm. cbn [snd].
      unfold WaitlistService.remove_from_waitlist.
      cbn [waitlist with_waitlist].
      destruct (find _ (filter _ (waitlist db))) as [w0 |] eqn:Hf;
        [| reflexivity].
      apply find_some in Hf. destruct Hf as [Hin0 Hp].
      apply filter_In in Hin0. destruct Hin0 as [_ Hne].
      apply andb_prop in Hp. destruct Hp as [Hid0 _].
      rewrite Hid0 in Hne. discriminate.
  - intros Hother.
    assert (Hrm : WaitlistService.remove_from_waitlist db waitlist_id user
                  = (false, db)).
    { unfold WaitlistService.remove_from_waitlist.
      destruct (find _ (waitlist db)) as [w0 |] eqn:Hf; [| reflexivity].
      apply find_some in Hf. destruct Hf as [Hin Hp].
      apply andb_prop in Hp. destruct Hp as [Hid0 Hu0].
      apply Z.eqb_eq in Hid0. apply Z.eqb_eq in Hu0.
      exfalso. exact (Hother w0 Hin Hid0 Hu0). }
    split; [exact Hrm |].
    unfold Views.remove_from_waitlist. rewrite Hrm. reflexivity.
Qed.

(** On the seeded queue: user 9 cannot remove the entry of user 8; user 8
    can, once. *)
Lemma removal_witness :
  WaitlistService.remove_from_waitlist Seed.db_queue 1 9
  = (false, Seed.db_queue)
  /\ fst (WaitlistService.remove_from_waitlist Seed.db_queue 1 8) = true
  /\ fst (WaitlistService.remove_from_waitlist
            (snd (WaitlistService.remove_from_waitlist Seed.db_queue 1 8)) 1 8)
     = false.
Proof.
  assert (Hw : waitlist Seed.db_queue
               = [Waitlist.mk 1 8 1 Seed.thursday (hm 18 0) (hm 19 0)
                              Waitlist.WAITING 200 None;
                  Waitlist.mk 2 9 1 Seed.thursday (hm 18 0) (hm 19 0)
                              Waitlist.WAITING 300 None])
    by (vm_compute; reflexivity).
  split; [| split].
  - apply (proj2 (removal_needs_the_owner Seed.db_queue 1 9)).
    rewrite Hw. intros w [<- | [<- | []]] Hid; cbn in *; lia.
  - destruct (proj1 (removal_needs_the_owner Seed.db_queue 1 8))
      as [Hrm _].
    + rewrite Hw. eexists. split; [left; reflexivity |]. split; reflexivity.
    + rewrite Hrm. reflexivity.
  - destruct (proj1 (removal_needs_the_owner Seed.db_queue 1 8))
      as [_ [_ Hagain]].
    + rewrite Hw. eexists. split; [left; reflexivity |]. split; reflexivity.
    + rewrite (Hagain 8). reflexivity.
Defined.

(* ------------------------------------------------------------------ *)
(** ** Cancelling *)

Lemma time_overlaps_comm (s1 e1 s2 e2 : Time) :
  _time_overlaps s1 e1 s2 e2 = _time_overlaps s2 e2 s1 e1.
Proof.
  unfold _time_overlaps. rewrite !Z.gtb_ltb. apply andb_comm.
Qed.

(** X14. [cancel_booking] answers [BookingNotFound] and leaves the database
    untouched when no CONFIRMED booking with the given key belongs to the
    requester: the key does not exist, the booking is someone else's, or it
    is already CANCELLED. In a database whose booking keys are below the
    sequence, a cancellation that succeeded is for good: after any number of
    further operations every row with that key is CANCELLED, and a
    cancellation of that key, by anyone, is answered [BookingNotFound] and
    changes nothing. *)
Theorem cancellation_is_owner_only_and_final :
  forall (notify : Waitlist.t -> bool) (db : DB) (user booking_id : Z)
         (now : Timestamp),
    ((forall b, In b (bookings db) -> Booking.id b = booking_id ->
                Booking.user b <> user
                \/ Booking.status b = Booking.CANCELLED) ->
     Views.cancel_booking notify db user booking_id now
     = (Views.BookingNotFound, db))
    /\ (forall notified db' db'' notify2 user2 now2,
           BookingInv.ids_below_seq db ->
           Views.cancel_booking notify db user booking_id now
           = (Views.BookingCancelled notified, db') ->
           Relation_Operators.clos_refl_trans DB WaitlistSpec.step db' db'' ->
           (forall b, In b (bookings db'') -> Booking.id b = booking_id ->
                      Booking.status b = Booking.CANCELLED)
           /\ Views.cancel_booking notify2 db'' user2 booking_id now2
              = (Views.BookingNotFound, db'')).
Proof.
  intros notify db user booking_id now. split.
  - intros Hnone. unfold Views.cancel_booking.
    destruct (find _ (bookings db)) as [b |] eqn:Hf; [| reflexivity].
    apply find_some in Hf. destruct Hf as [Hin Hp].
    apply andb_prop in Hp. destruct Hp as [Hp Hconf].
    apply andb_prop in Hp. destruct Hp as [Hid Hu].
    apply Z.eqb_eq in Hid. apply Z.eqb_eq in Hu.
    unfold Booking.is_confirmed in Hconf.
    destruct (Hnone b Hin Hid) as [Hne | Hst];
      [contradiction | rewrite Hst in Hconf; discriminate].
  - intros notified db' db'' notify2 user2 now2 Hids H Hrt.
    unfold Views.cancel_booking in H.
    destruct (find _ (bookings db)) as [b |] eqn:Hf; [| discriminate].
    apply find_some in Hf. destruct Hf as [Hbin Hp].
    apply andb_prop in Hp. destruct Hp as [Hp _].
    apply andb_prop in Hp. destruct Hp as [Hid _]. apply Z.eqb_eq in Hid.
    unfold Views.answer in H.
    destruct (get_court db (Booking.court b)) as [err | court];
      cbn [bind] in H; [discriminate |].
    destruct (WaitlistService.notify_next_in_queue _ _ _ _ _ _ _)
      as [err | [n db2]] eqn:Hn; cbn [bind ret] in H; [discriminate |].
    injection H as _ <-.
    destruct (notify_next_in_queue_tables _ _ _ _ _ _ _ _ _ Hn)
      as [_ [Hseq Hb]].
    cbn [bookings booking_seq with_bookings] in Hb, Hseq.
    destruct (rows_invariant
                (fun x => Booking.status x = Booking.CANCELLED) booking_id)
      with (db1 := db2) (db2 := db'') as [_ [_ Hrows]].
    + intros x x' [_ [_ [_ [_ [_ [_ Hst]]]]]] Hx.
      destruct Hst as [Hst | Hst]; congruence.
    + exact Hrt.
    + specialize (Hids b Hbin). lia.
    + intros x Hx Hxid. rewrite Hb in Hx.
      apply save_booking_same_id in Hx; [subst x; reflexivity |].
      cbn. congruence.
    + split; [exact Hrows |].
      unfold Views.cancel_booking.
      destruct (find _ (bookings db'')) as [b2 |] eqn:Hf2; [| reflexivity].
      apply find_some in Hf2. destruct Hf2 as [Hin2 Hp2].
      apply andb_prop in Hp2. destruct Hp2 as [Hp2 Hconf2].
      apply andb_prop in Hp2. destruct Hp2 as [Hid2 _]. apply Z.eqb_eq in Hid2.
      unfold Booking.is_confirmed in Hconf2.
      rewrite (Hrows b2 Hin2 Hid2) in Hconf2. discriminate.
Qed.

(** On the seeded database: user 8 cannot cancel the booking of user 7; and
    after user 7 cancelled it and user 8 booked the slot, the first booking
    cannot be cancelled again. *)
Lemma cancellation_final_witness :
  Views.cancel_booking (fun _ => true) Seed.db_queue 8 1 400
  = (Views.BookingNotFound, Seed.db_queue)
  /\ fst (Views.cancel_booking (fun _ => true)
            (snd (Views.confirm_booking
                    (snd (Views.cancel_booking (fun _ => true) Seed.db_queue
                            7 1 400))
                    8 Seed.slot 450))
            7 1 500)
     = Views.BookingNotFound.
Proof.
  assert (Hb : map (fun b => (Booking.id b, Booking.user b))
                   (bookings Seed.db_queue) = [(1, 7)])
    by (vm_compute; reflexivity).
  split.
  - apply (proj1 (cancellation_is_owner_only_and_final (fun _ => true)
                    Seed.db_queue 8 1 400)).
    intros b Hin _. left.
    apply (in_map (fun b => (Booking.id b, Booking.user b))) in Hin.
    rewrite Hb in Hin. destruct Hin as [Heq | []].
    injection Heq as _ Hu. lia.
  - destruct (Views.cancel_booking (fun _ => true) Seed.db_queue 7 1 400)
      as [r db'] eqn:H.
    assert (Hr : r = Views.BookingCancelled (Some 8)).
    { apply (f_equal fst) in H. cbn [fst] in H. rewrite <- H.
      vm_compute. reflexivity. }
    subst r. cbn [snd].
    assert (Hids : BookingInv.ids_below_seq Seed.db_queue).
    { intros b Hin.
      apply (in_map (fun b => (Booking.id b, Booking.user b))) in Hin.
      rewrite Hb in Hin. destruct Hin as [Heq | []].
      injection Heq as Hi _. rewrite <- Hi. vm_compute. reflexivity. }
    destruct (proj2 (cancellation_is_owner_only_and_final (fun _ => true)
                       Seed.db_queue 7 1 400)
                (Some 8) db'
                (snd (Views.confirm_booking db' 8 Seed.slot 450))
                (fun _ => true) 7 500 Hids H) as [_ Hagain].
    + apply Relation_Operators.rt_step.
      exact (WaitlistSpec.step_confirm_booking db' 8 Seed.slot 450).
    + rewrite Hagain. reflexivity.
Defined.

(** X15. Cancelling frees the slot. If the booking table holds no double
    booking and [cancel_booking] succeeds on a booking, then afterwards the
    court of that booking passes [check_court_available] for its date and
    window, and a request for that slot is no longer answered [SlotFull]. *)
Theorem cancellation_frees_the_slot :
  forall (notify : Waitlist.t -> bool) (db db' : DB) (user booking_id : Z)
         (now : Timestamp) (b : Booking.t) (notified : option Z),
    BookingInv.no_double_booking db ->
    find (fun x => (Booking.id x =? booking_id)
                   && (Booking.user x =? user)
                   && Booking.is_confirmed x) (bookings db) = Some b ->
    Views.cancel_booking notify db user booking_id now
    = (Views.BookingCancelled notified, db') ->
    AvailabilityService.check_court_available db' (Booking.court b)
      (Booking.date b) (Booking.start_time b) (Booking.end_time b) None = true
    /\ forall user2 now2 lines coach_id,
         fst (Views.confirm_booking db' user2
                (Views.mkBookingRequest (Booking.court b) (Booking.date b)
                   (Booking.start_time b) (Booking.end_time b) lines coach_id)
                now2)
         <> Views.SlotFull.
Proof.
  intros notify db db' user booking_id now b notified Hinv Hfind H.
  assert (Hfree : BookingSpec.court_free db' (Booking.court b) (Booking.date b)
                    (Booking.start_time b) (Booking.end_time b)).
  { unfold Views.cancel_booking in H. rewrite Hfind in H.
    unfold Views.answer in H.
    destruct (get_court db (Booking.court b)) as [err | court];
      cbn [bind] in H; [discriminate |].
    destruct (WaitlistService.notify_next_in_queue _ _ _ _ _ _ _)
      as [err | [n db2]] eqn:Hn; cbn [bind ret] in H; [discriminate |].
    injection H as _ <-.
    assert (Hb := notify_next_in_queue_bookings _ _ _ _ _ _ _ _ _ Hn).
    cbn [bookings with_bookings] in Hb.
    apply find_some in Hfind. destruct Hfind as [Hbin Hp].
    apply andb_prop in Hp. destruct Hp as [_ Hbconf].
    intros x Hx Hxc. rewrite Hb in Hx.
    unfold Views.save_booking in Hx. apply in_map_iff in Hx.
    destruct Hx as [x0 [Hx0 Hin0]].
    unfold AvailabilityService.overlapping_confirmed.
    destruct (Z.eqb_spec (Booking.id x0)
                (Booking.id (Booking.set_status Booking.CANCELLED now b)))
      as [Heq | Hne].
    - subst x. cbn. rewrite !andb_false_r. reflexivity.
    - subst x0.
      destruct (Booking.is_confirmed x) eqn:Hxconf;
        [| rewrite andb_false_r; reflexivity].
      destruct (Z.eqb_spec (Booking.date x) (Booking.date b)) as [Hd | Hd];
        [| reflexivity].
      cbn [andb]. rewrite andb_true_r.
      change (_time_overlaps (Booking.start_time x) (Booking.end_time x)
                (Booking.start_time b) (Booking.end_time b) = false).
      destruct (ForallOrdPairs_In Hinv x b Hin0 Hbin) as [Heq | [Hc | Hc]].
      + subst x. exfalso. apply Hne. reflexivity.
      + exact (Hc Hxconf Hbconf Hxc Hd).
      + rewrite time_overlaps_comm.
        apply Hc; [assumption | assumption | congruence | congruence]. }
  split.
  - apply court_free_check_court_available. exact Hfree.
  - intros user2 now2 lines coach_id.
    unfold Views.confirm_booking, Views.confirm_booking_body.
    cbn [Views.court_id Views.date Views.start_time Views.end_time
         Views.equipment Views.coach_id].
    destruct (get_court db' (Booking.court b)) as [err | court] eqn:Hcourt;
      cbn [bind Views.answer fst]; [discriminate |].
    destruct (get_court_id _ _ _ Hcourt) as [Hid _].
    rewrite court_free_no_existing_booking by (rewrite Hid; exact Hfree).
    destruct (AvailabilityService.check_all_resources_available _ _ _ _ _ _ _)
      as [err | chk]; cbn [bind fst]; [discriminate |].
    destruct (negb _); cbn [ret fst]; [discriminate |].
    destruct (Views.lookup_coach _ _) as [err | coach]; cbn [bind fst];
      [discriminate |].
    destruct (mapM _ _) as [err | instances]; cbn [bind fst];
      [discriminate |].
    destruct (PricingEngine.calculate_price _ _) as [err | pd];
      cbn [bind fst]; [discriminate |].
    destruct (Views.new_booking _ _ _ _ _ _ _) as [err | booking];
      cbn [bind fst]; [discriminate |].
    destruct (foldM _ _ _) as [err | db2]; cbn [bind ret fst]; discriminate.
Qed.

(** On the seeded database: after user 7 cancels, the Thursday slot is
    free again. *)
Lemma cancellation_frees_witness :
  AvailabilityService.check_court_available
    (snd (Views.cancel_booking (fun _ => true) Seed.db_queue 7 1 400))
    1 Seed.thursday (hm 18 0) (hm 19 0) None = true.
Proof.
  destruct (Views.cancel_booking (fun _ => true) Seed.db_queue 7 1 400)
    as [r db'] eqn:H.
  assert (Hr : r = Views.BookingCancelled (Some 8)).
  { apply (f_equal fst) in H. cbn [fst] in H. rewrite <- H.
    vm_compute. reflexivity. }
  subst r. cbn [snd].
  pose (b := nth 0 (bookings Seed.db_queue)
                 (Booking.mk 0 0 0 0 0 0 None (cents 0) (cents 0) []
                    Booking.CANCELLED 0 0)).
  assert (Hfind : find (fun x => (Booking.id x =? 1) && (Booking.user x =? 7)
                                 && Booking.is_confirmed x)
                       (bookings Seed.db_queue) = Some b)
    by (vm_compute; reflexivity).
  assert (Hinv : BookingInv.no_double_booking Seed.db_queue).
  { unfold BookingInv.no_double_booking.
    assert (Hl : bookings Seed.db_queue = [b]) by (vm_compute; reflexivity).
    rewrite Hl. constructor; constructor. }
  destruct (cancellation_frees_the_slot _ _ _ _ _ _ _ _ Hinv Hfind H)
    as [Hfree _].
  exact Hfree.
Defined.

(* ------------------------------------------------------------------ *)
(** ** Equipment *)

Lemma sumZ_app (l1 l2 : list Z) : sumZ (l1 ++ l2) = sumZ l1 + sumZ l2.
Proof.
  unfold sumZ. induction l1 as [| x l1 IH]; cbn; [reflexivity | rewrite IH; lia].
Qed.

Lemma filter_pointwise_in {A : Type} (p q : A -> bool) (l : list A) :
  (forall x, In x l -> p x = q x) -> filter p l = filter q l.
Proof.
  induction l as [| x l IH]; intros H; [reflexivity |].
  cbn [filter]. rewrite (H x (or_introl eq_refl)).
  rewrite IH by (intros y Hy; apply H; right; exact Hy). reflexivity.
Qed.

Lemma booked_items_quantity (db : DB) (eid : Z) (date : Date) (s t : Time) :
  sumZ (map BookingEquipment.quantity
            (AvailabilityService.booked_items db eid date s t))
  = EquipmentSpec.booked_quantity (bookings db)
      (map BookingSpec.line (booking_equipment db)) eid date s t.
Proof.
  unfold AvailabilityService.booked_items, EquipmentSpec.booked_quantity.
  induction (booking_equipment db) as [| be l IH]; [reflexivity |].
  cbn [map filter]. unfold BookingSpec.line at 1 2. cbn [fst snd].
  destruct (_ && _); cbn [map sumZ fold_right]; [| exact IH].
  unfold sumZ in IH. rewrite IH. reflexivity.
Qed.

(** X16. Equipment is conserved. With the next booking key unused, after a
    confirmed request the available quantity of an equipment, for any date
    and window, is what it was, less the units the request asked of that
    equipment when the window overlaps the booked one on the booked date,
    and unchanged otherwise. *)
Theorem equipment_quantity_is_conserved :
  forall (db db' : DB) (user : Z) (req : Views.BookingRequest)
         (now : Timestamp) (id : Z),
    Views.confirm_booking db user req now = (Views.BookingConfirmed id, db') ->
    BookingSpec.next_booking_fresh db ->
    EquipmentSpec.booking_ids_fresh db ->
    forall (e : Equipment.t) (date : Date) (s t : Time),
      AvailabilityService.get_available_quantity db' e date s t
      = AvailabilityService.get_available_quantity db e date s t
        - (if (Views.date req =? date)
              && _time_overlaps (Views.start_time req) (Views.end_time req) s t
           then EquipmentSpec.requested (Views.equipment req) (Equipment.id e)
           else 0).
Proof.
  intros db db' user req now id H Hfresh Hids e date s t.
  destruct (confirm_booking_confirmed_inv _ _ _ _ _ _ H)
    as [court [chk [coach [instances [pd
         [_ [_ [_ [_ [_ [_ [_ [_ [booking [Hrow Hlines]]]]]]]]]]]]]]].
  destruct (new_booking_inv _ _ _ _ _ _ _ _ Hrow)
    as [base [total [_ [_ [_ ->]]]]].
  clear Hrow.
  destruct (create_lines_inv _ _ _ _ Hlines) as [_ [Hb [_ [_ [_ [_ [_ [_ Hl]]]]]]]].
  cbn [bookings booking_equipment with_bookings] in Hb, Hl.
  unfold AvailabilityService.get_available_quantity.
  rewrite !booked_items_quantity, Hb, Hl.
  set (nb := Booking.mk _ _ _ _ _ _ _ _ _ _ _ _ _).
  unfold EquipmentSpec.booked_quantity.
  rewrite filter_app, map_app, sumZ_app.
  assert (Hold :
            filter
              (fun l => (snd (fst l) =? Equipment.id e)
                        && existsb
                             (fun b => (Booking.id b =? fst (fst l))
                                       && AvailabilityService.overlapping_confirmed
                                            date s t b)
                             (bookings db ++ [nb]))
              (map BookingSpec.line (booking_equipment db))
            = filter
                (fun l => (snd (fst l) =? Equipment.id e)
                          && existsb
                               (fun b => (Booking.id b =? fst (fst l))
                                         && AvailabilityService.overlapping_confirmed
                                              date s t b)
                               (bookings db))
                (map BookingSpec.line (booking_equipment db))).
  { apply filter_pointwise_in. intros l Hin.
    apply in_map_iff in Hin. destruct Hin as [be [<- Hbe]].
    rewrite existsb_app. cbn [existsb fst snd BookingSpec.line Booking.id nb].
    replace (booking_seq db =? BookingEquipment.booking be) with false.
    - cbn [andb]. rewrite !orb_false_r. reflexivity.
    - symmetry. apply Z.eqb_neq. intros Heq.
      apply (Hfresh be Hbe). symmetry. exact Heq. }
  rewrite Hold. clear Hold.
  assert (Hnew :
            sumZ (map snd
              (filter
                 (fun l => (snd (fst l) =? Equipment.id e)
                           && existsb
                                (fun b => (Booking.id b =? fst (fst l))
                                          && AvailabilityService.overlapping_confirmed
                                               date s t b)
                                (bookings db ++ [nb]))
                 (map (fun item => (booking_seq db, fst item, snd item))
                      (Views.equipment req))))
            = if (Views.date req =? date)
                 && _time_overlaps (Views.start_time req) (Views.end_time req)
                                   s t
              then EquipmentSpec.requested (Views.equipment req) (Equipment.id e)
              else 0).
  { assert (Hex : forall item : Z * Z,
               existsb
                 (fun b => (Booking.id b =? booking_seq db)
                           && AvailabilityService.overlapping_confirmed
                                date s t b) (bookings db ++ [nb])
               = (Views.date req =? date)
                 && _time_overlaps (Views.start_time req) (Views.end_time req)
                                   s t).
    { intros _. rewrite existsb_app.
      replace (existsb _ (bookings db)) with false.
      - cbn [existsb orb].
        unfold AvailabilityService.overlapping_confirmed, Booking.is_confirmed,
               _time_overlaps.
        cbn [nb Booking.id Booking.date Booking.start_time
             Booking.end_time Booking.status].
        rewrite Z.eqb_refl.
        destruct (Views.date req =? date), (Views.start_time req <? t),
                 (Views.end_time req >? s); reflexivity.
      - symmetry. apply existsb_false_forall. intros b Hb0.
        replace (Booking.id b =? booking_seq db) with false
          by (symmetry; apply Z.eqb_neq; apply Hids; exact Hb0).
        reflexivity. }
    clear Hlines Hl H.
    unfold EquipmentSpec.requested, sumZ.
    destruct ((Views.date req =? date)
              && _time_overlaps (Views.start_time req) (Views.end_time req) s t)
      eqn:Hov;
      induction (Views.equipment req) as [| item lines IH];
      try reflexivity;
      cbn [map filter fst snd]; rewrite (Hex item); rewrite ?Hov.
    - rewrite andb_true_r.
      destruct (fst item =? Equipment.id e); cbn [map fold_right];
        rewrite IH; reflexivity.
    - rewrite andb_false_r. exact IH. }
  rewrite Hnew. lia.
Qed.

(** On the seeded database: user 7 takes three of the ten rackets from 9:00
    to 10:00; seven are left for 9:30 to 10:30, ten for 10:00 to 11:00. *)
Lemma equipment_conserved_witness :
  exists db',
    Views.confirm_booking Seed.db 7
      (Views.mkBookingRequest 1 Seed.thursday (hm 9 0) (hm 10 0) [(1, 3)] None)
      100
    = (Views.BookingConfirmed 1, db')
    /\ AvailabilityService.get_available_quantity db' Seed.racket
         Seed.thursday (hm 9 30) (hm 10 30) = 7
    /\ AvailabilityService.get_available_quantity db' Seed.racket
         Seed.thursday (hm 10 0) (hm 11 0) = 10.
Proof.
  destruct (Views.confirm_booking Seed.db 7
              (Views.mkBookingRequest 1 Seed.thursday (hm 9 0) (hm 10 0)
                 [(1, 3)] None) 100) as [r db'] eqn:H.
  assert (Hr : r = Views.BookingConfirmed 1).
  { apply (f_equal fst) in H. cbn [fst] in H. rewrite <- H.
    vm_compute. reflexivity. }
  subst r. exists db'. split; [reflexivity |].
  assert (Hfresh : BookingSpec.next_booking_fresh Seed.db) by (intros be []).
  assert (Hids : EquipmentSpec.booking_ids_fresh Seed.db) by (intros b []).
  split.
  - rewrite (equipment_quantity_is_conserved _ _ _ _ _ _ H Hfresh Hids).
    vm_compute. reflexivity.
  - rewrite (equipment_quantity_is_conserved _ _ _ _ _ _ H Hfresh Hids).
    vm_compute. reflexivity.
Defined.

(* ------------------------------------------------------------------ *)
(** ** When the pricing engine raises *)

Module PricingErrors.
Import PricingEngine.

Lemma mapM_int_error (l : list string) (e : Exn) :
  mapM PyStr.int l = inl e -> e = ValueError.
Proof.
  induction l as [| x l IH]; cbn [mapM]; [discriminate |].
  unfold PyStr.int at 1.
  destruct (match PyStr.strip x with
            | String "-"%char _ => _
            | String "+"%char _ => _
            | _ => _
            end) as [n |]; cbn [bind ret raise].
  - destruct (mapM PyStr.int l) as [e' | ys]; cbn [bind ret].
    + intros H. injection H as <-. apply IH. reflexivity.
    + discriminate.
  - intros H. injection H as <-. reflexivity.
Qed.

Lemma applies_error (q : Request) (rule : PricingRule.t) (e : Exn) :
  applies q rule = inl e ->
  e = ValueError
  /\ PricingRule.rule_type rule = "WEEKEND"%string
  /\ applicable_days (PricingRule.applies_to_days rule) = inl ValueError.
Proof.
  unfold applies.
  destruct (String.eqb_spec (PricingRule.rule_type rule) "PEAK_HOURS").
  - destruct (PricingRule.start_time rule), (PricingRule.end_time rule);
      discriminate.
  - destruct (String.eqb_spec (PricingRule.rule_type rule) "WEEKEND")
      as [Hw | _].
    + destruct (PyStr.truthy _); [| discriminate].
      destruct (applicable_days _) as [e' | days] eqn:Hd; cbn [bind ret];
        [| discriminate].
      intros H. injection H as <-.
      assert (e' = ValueError) by (eapply mapM_int_error; exact Hd).
      subst e'. repeat split. exact Hw.
    + repeat (destruct (String.eqb _ _); [discriminate |]). discriminate.
Qed.

Lemma rule_amount_total (q : Request) (p : Decimal.t) (rule : PricingRule.t) :
  applies q rule = inr true -> exists a, rule_amount q p rule = inr a.
Proof.
  unfold applies, rule_amount. intros H.
  destruct (PricingRule.is_percentage rule); [eexists; reflexivity |].
  destruct (String.eqb_spec (PricingRule.rule_type rule) "EQUIPMENT_FEE");
    [eexists; reflexivity |].
  destruct (String.eqb_spec (PricingRule.rule_type rule) "COACH_FEE")
    as [Hc | _]; [| eexists; reflexivity].
  rewrite Hc in H. cbn in H.
  destruct (coach q); [eexists; reflexivity | discriminate].
Qed.

Lemma apply_rule_error (q : Request) (st : Decimal.t * list BreakdownItem.t)
  (rule : PricingRule.t) (e : Exn) :
  apply_rule q st rule = inl e -> applies q rule = inl e.
Proof.
  destruct st as [p bd]. unfold apply_rule.
  destruct (applies q rule) as [e' | [|]] eqn:Ha; cbn [bind ret].
  - intros H. injection H as <-. reflexivity.
  - destruct (rule_amount_total q p rule Ha) as [a Hamt]. rewrite Hamt.
    discriminate.
  - discriminate.
Qed.

Lemma apply_rule_extends (q : Request) (st st' : Decimal.t * list BreakdownItem.t)
  (rule : PricingRule.t) :
  apply_rule q st rule = inr st' -> exists rest, snd st' = (snd st ++ rest)%list.
Proof.
  destruct st as [p bd]. unfold apply_rule. intros H.
  unbind H applied. destruct applied.
  - unbind H amount. injection H as <-. eexists. reflexivity.
  - injection H as <-. exists []. cbn. rewrite app_nil_r. reflexivity.
Qed.

Lemma run_rules_error (q : Request) (rules : list PricingRule.t) (e : Exn) :
  forall st,
    run_rules q rules st = inl e ->
    exists rule, In rule rules /\ applies q rule = inl e.
Proof.
  unfold run_rules.
  induction rules as [| r rules IH]; intros st H; cbn [foldM] in H;
    [discriminate |].
  destruct (apply_rule q st r) as [e' | st'] eqn:Hstep; cbn [bind] in H.
  - injection H as <-. exists r. split; [left; reflexivity |].
    eapply apply_rule_error. exact Hstep.
  - destruct (IH _ H) as [rule [Hin Ha]].
    exists rule. split; [right; exact Hin | exact Ha].
Qed.

Lemma run_rules_total (q : Request) (rules : list PricingRule.t) :
  forall st,
    (forall rule, In rule rules -> exists b, applies q rule = inr b) ->
    exists st', run_rules q rules st = inr st'
                /\ exists rest, snd st' = (snd st ++ rest)%list.
Proof.
  unfold run_rules.
  induction rules as [| r rules IH]; intros st Hok; cbn [foldM].
  - exists st. split; [reflexivity |]. exists []. rewrite app_nil_r. reflexivity.
  - destruct (apply_rule q st r) as [e | st1] eqn:Hstep.
    + apply apply_rule_error in Hstep.
      destruct (Hok r (or_introl eq_refl)) as [b Hb]. congruence.
    + cbn [bind].
      destruct (IH st1) as [st' [Hrun [rest Hrest]]].
      * intros rule Hin. apply Hok. right. exact Hin.
      * exists st'. split; [exact Hrun |].
        destruct (apply_rule_extends _ _ _ _ Hstep) as [rest1 Hrest1].
        exists (rest1 ++ rest)%list. rewrite Hrest, Hrest1, app_assoc.
        reflexivity.
Qed.

Lemma applies_weekend_ok (q : Request) (rule : PricingRule.t) :
  (PricingRule.rule_type rule = "WEEKEND"%string ->
   exists days, applicable_days (PricingRule.applies_to_days rule) = inr days) ->
  exists b, applies q rule = inr b.
Proof.
  intros Hok.
  destruct (applies q rule) as [e | b] eqn:Ha; [| exists b; reflexivity].
  apply applies_error in Ha. destruct Ha as [_ [Hw Hbad]].
  destruct (Hok Hw) as [days Hdays]. congruence.
Qed.

End PricingErrors.

(** X17. [calculate_price] raises only when the day list of an enabled
    WEEKEND rule does not parse, and then with [ValueError]; in particular
    the read of [coach.hourly_fee] never fails. When the day list of every
    enabled WEEKEND rule parses, it returns, with base price 500.00 and a
    breakdown that starts with the base entry. *)
Theorem pricing_raises_only_on_malformed_days :
  forall (db : DB) (q : PricingEngine.Request),
    (forall e,
        PricingEngine.calculate_price db q = inl e ->
        e = ValueError
        /\ exists rule,
             In rule (pricing_rules db)
             /\ PricingRule.is_enabled rule = true
             /\ PricingRule.rule_type rule = "WEEKEND"%string
             /\ PricingEngine.applicable_days (PricingRule.applies_to_days rule)
                = inl ValueError)
    /\ ((forall rule,
            In rule (pricing_rules db) ->
            PricingRule.is_enabled rule = true ->
            PricingRule.rule_type rule = "WEEKEND"%string ->
            exists days,
              PricingEngine.applicable_days (PricingRule.applies_to_days rule)
              = inr days) ->
        exists pd rest,
          PricingEngine.calculate_price db q = inr pd
          /\ PricingEngine.base_price pd = cents 50000
          /\ PricingEngine.breakdown pd = PricingEngine.base_item :: rest).
Proof.
  intros db q. split.
  - intros e H. unfold PricingEngine.calculate_price in H.
    destruct (PricingEngine.run_rules q (PricingEngine.enabled_rules db) _)
      as [e' | st] eqn:Hrun; cbn [bind] in H; [| discriminate].
    injection H as <-.
    destruct (PricingErrors.run_rules_error _ _ _ _ Hrun) as [rule [Hin Ha]].
    apply PricingErrors.applies_error in Ha. destruct Ha as [-> [Hw Hbad]].
    split; [reflexivity |]. exists rule.
    unfold PricingEngine.enabled_rules in Hin.
    apply order_by_In, filter_In in Hin. tauto.
  - intros Hok. unfold PricingEngine.calculate_price.
    destruct (PricingErrors.run_rules_total q (PricingEngine.enabled_rules db)
                (PricingEngine.BASE_COURT_PRICE, [PricingEngine.base_item]))
      as [st [Hrun [rest Hrest]]].
    + intros rule Hin. apply PricingErrors.applies_weekend_ok.
      unfold PricingEngine.enabled_rules in Hin.
      apply order_by_In, filter_In in Hin. destruct Hin as [Hin Hen].
      apply Hok; assumption.
    + rewrite Hrun. cbn [bind ret]. eexists. exists rest.
      split; [reflexivity |]. split; [reflexivity |].
      cbn [PricingEngine.breakdown]. exact Hrest.
Qed.

(** On the seeded rules, whose one day list is "5,6": a Saturday booking is
    priced. *)
Lemma pricing_total_witness :
  exists pd,
    PricingEngine.calculate_price Seed.db
      (PricingEngine.mkRequest Seed.indoor1 (Seed.thursday + 2) (hm 9 0)
         (hm 10 0) [] None) = inr pd.
Proof.
  destruct (proj2 (pricing_raises_only_on_malformed_days Seed.db
                     (PricingEngine.mkRequest Seed.indoor1 (Seed.thursday + 2)
                        (hm 9 0) (hm 10 0) [] None)))
    as [pd [rest [H _]]].
  - intros rule [<- | [<- | [<- | [<- | [<- | []]]]]] _ Hty;
      try discriminate.
    eexists. vm_compute. reflexivity.
  - exists pd. exact H.
Defined.

(* ------------------------------------------------------------------ *)
(** ** The preview and the price charged *)

Lemma foldM_pointwise {A S : Type} (f g : S -> A -> Result S) (l : list A) :
  (forall s x, f s x = g s x) -> forall s, foldM f l s = foldM g l s.
Proof.
  intros H. induction l as [| x l IH]; intros s; cbn [foldM]; [reflexivity |].
  rewrite H. destruct (g s x); cbn [bind]; [reflexivity | apply IH].
Qed.

Lemma mapM_inr_each {A B : Type} (f : A -> Result B) (l : list A) (r : list B) :
  mapM f l = inr r -> forall x, In x l -> exists y, f x = inr y.
Proof.
  revert r. induction l as [| a l IH]; intros r H x Hin; [contradiction |].
  cbn [mapM] in H. unbind H y. unbind H ys.
  destruct Hin as [<- | Hin]; [exists y; exact Hy | eapply IH; eassumption].
Qed.

(** The engine reads the equipment of a request only through its number. *)
Lemma calculate_price_equipment_length (db : DB) (court : Court.t)
  (date : Date) (s t : Time) (l1 l2 : list Equipment.t)
  (coach : option Coach.t) :
  List.length l1 = List.length l2 ->
  PricingEngine.calculate_price db
    (PricingEngine.mkRequest court date s t l1 coach)
  = PricingEngine.calculate_price db
      (PricingEngine.mkRequest court date s t l2 coach).
Proof.
  intros Hlen. unfold PricingEngine.calculate_price, PricingEngine.run_rules.
  rewrite (foldM_pointwise
             (PricingEngine.apply_rule
                (PricingEngine.mkRequest court date s t l1 coach))
             (PricingEngine.apply_rule
                (PricingEngine.mkRequest court date s t l2 coach)));
    [reflexivity |].
  intros [p bd] rule.
  unfold PricingEngine.apply_rule, PricingEngine.applies,
         PricingEngine.rule_amount.
  cbn [PricingEngine.court PricingEngine.date PricingEngine.start_time
       PricingEngine.end_time PricingEngine.equipment_list PricingEngine.coach].
  rewrite Hlen.
  destruct l1, l2; try discriminate; reflexivity.
Qed.

Lemma preview_equipment_length (db : DB) (ids : list Z) :
  DBSpec.unique_ids Equipment.id (equipment db) ->
  NoDup ids ->
  (forall i, In i ids -> exists e, get_equipment db i = inr e) ->
  List.length
    (filter (fun e => existsb (Z.eqb (Equipment.id e)) ids) (equipment db))
  = List.length ids.
Proof.
  intros Huniq Hnd Hex.
  rewrite <- (length_map Equipment.id).
  apply Permutation_length. apply NoDup_Permutation.
  - apply (unique_ids_filter Equipment.id). exact Huniq.
  - exact Hnd.
  - intros i. rewrite in_map_iff. split.
    + intros [e [<- Hin]]. apply filter_In in Hin. destruct Hin as [_ Hm].
      apply existsb_exists in Hm. destruct Hm as [j [Hj Heq]].
      apply Z.eqb_eq in Heq. rewrite Heq. exact Hj.
    + intros Hi. destruct (Hex i Hi) as [e He].
      unfold get_equipment, get_or_raise in He.
      destruct (find _ (equipment db)) as [e' |] eqn:Hf; [| discriminate].
      injection He as <-. apply find_some in Hf. destruct Hf as [Hin Heq].
      apply Z.eqb_eq in Heq. exists e'. split; [exact Heq |].
      apply filter_In. split; [exact Hin |].
      apply existsb_exists. exists i. split; [exact Hi |].
      apply Z.eqb_eq. exact Heq.
Qed.

(** X18. The price charged is the price previewed, rounded to two places.
    With equipment keys unique and no equipment named twice in the request,
    when [confirm_booking] confirms, [get_price_preview] for the same court,
    date, window, equipment keys and coach returns a price; the total and
    the base stored on the new booking are the total and the base of that
    price as a column of ten digits and two decimal places holds them (equal
    when the price has no digit beyond the hundredths, else the nearest
    number of hundredths, the even one of two as near), and the breakdown
    stored is the breakdown of that price. *)
Theorem booked_price_is_the_previewed_price :
  forall (db db' : DB) (user : Z) (req : Views.BookingRequest)
         (now : Timestamp) (id : Z),
    Views.confirm_booking db user req now = (Views.BookingConfirmed id, db') ->
    DBSpec.unique_ids Equipment.id (equipment db) ->
    NoDup (map fst (Views.equipment req)) ->
    exists pd b,
      PricingEngine.get_price_preview db (Views.court_id req) (Views.date req)
        (Views.start_time req) (Views.end_time req)
        (map fst (Views.equipment req)) (Views.coach_id req)
      = Some (inr pd)
      /\ bookings db' = bookings db ++ [b]
      /\ BookingSpec.stored_price (PricingEngine.total_price pd)
           (Booking.total_price b)
      /\ BookingSpec.stored_price (PricingEngine.base_price pd)
           (Booking.base_price b)
      /\ Booking.price_breakdown b = PricingEngine.breakdown pd.
Proof.
  intros db db' user req now id H Huniq Hnd.
  destruct (confirm_booking_confirmed_inv _ _ _ _ _ _ H)
    as [court [chk [coach [instances [pd
         [Hcourt [_ [_ [_ [Hcoach [Hinst [Hprice
           [_ [booking [Hrow Hlines]]]]]]]]]]]]]]].
  destruct (new_booking_inv _ _ _ _ _ _ _ _ Hrow)
    as [base [total [Hbase [Htotal [_ Hfields]]]]].
  destruct (create_lines_inv _ _ _ _ Hlines) as [_ [Hb _]].
  cbn [bookings with_bookings] in Hb.
  exists pd, booking.
  split; [| split; [exact Hb |]].
  2:{ rewrite Hfields. cbn.
      split; [apply DecimalFacts.get_db_prep_save_stored; exact Htotal |].
      split; [apply DecimalFacts.get_db_prep_save_stored; exact Hbase |].
      reflexivity. }
  unfold PricingEngine.get_price_preview.
  unfold get_court, get_or_raise in Hcourt.
  destruct (find _ (courts db)) as [c |]; [| discriminate].
  injection Hcourt as ->. f_equal.
  assert (Hc : match Views.coach_id req with
               | Some c =>
                   if negb (c =? 0)
                   then find (fun x => Coach.id x =? c) (coaches db)
                   else None
               | None => None
               end = coach).
  { unfold Views.lookup_coach, truthy_id in Hcoach.
    destruct (Views.coach_id req) as [c |]; [| injection Hcoach as <-; reflexivity].
    destruct (negb (c =? 0)); [| injection Hcoach as <-; reflexivity].
    unfold get_coach, get_or_raise in Hcoach.
    destruct (find _ (coaches db)) as [x |]; [| discriminate].
    cbn in Hcoach. injection Hcoach as <-. reflexivity. }
  rewrite Hc, <- Hprice.
  apply calculate_price_equipment_length.
  rewrite <- (Permutation_length (order_by_perm _ _)).
  rewrite preview_equipment_length; try assumption.
  - rewrite length_map. symmetry. eapply mapM_length. exact Hinst.
  - intros i Hi. apply in_map_iff in Hi. destruct Hi as [item [<- Hin]].
    exact (mapM_inr_each _ _ _ Hinst item Hin).
Qed.

(** With three premiums of 3% the preview is 546.36350000 and the booking
    holds 546.36. *)
Lemma booked_price_witness :
  exists pd,
    PricingEngine.get_price_preview Seed.db_three_premiums 1 Seed.thursday
      (hm 9 0) (hm 10 0) [] None = Some (inr pd)
    /\ PricingEngine.total_price pd = Decimal.mk 54636350000 (-8)
    /\ map Booking.total_price
           (bookings (snd (Views.confirm_booking Seed.db_three_premiums 7
                             (Views.mkBookingRequest 1 Seed.thursday (hm 9 0)
                                (hm 10 0) [] None) 100)))
       = [cents 54636]
    /\ BookingSpec.stored_price (PricingEngine.total_price pd) (cents 54636).
Proof.
  destruct (Views.confirm_booking Seed.db_three_premiums 7
              (Views.mkBookingRequest 1 Seed.thursday (hm 9 0) (hm 10 0)
                 [] None) 100) as [r db'] eqn:H.
  assert (Hr : r = Views.BookingConfirmed 1).
  { apply (f_equal fst) in H. cbn [fst] in H. rewrite <- H.
    vm_compute. reflexivity. }
  assert (Hrows : map Booking.total_price (bookings db') = [cents 54636]).
  { apply (f_equal snd) in H. cbn [snd] in H. rewrite <- H.
    vm_compute. reflexivity. }
  subst r.
  destruct (booked_price_is_the_previewed_price _ _ _ _ _ _ H)
    as [pd [b [Hpre [Hb [Ht _]]]]].
  - unfold DBSpec.unique_ids. cbn. constructor.
  - cbn. constructor.
  - cbn [Views.court_id Views.date Views.start_time Views.end_time
         Views.equipment Views.coach_id map] in Hpre.
    exists pd. split; [exact Hpre |].
    assert (Hpd : PricingEngine.total_price pd = Decimal.mk 54636350000 (-8)).
    { assert (Hv : option_map
                     (fun r => match r with
                               | inr p => Some (PricingEngine.total_price p)
                               | inl _ => None
                               end)
                     (PricingEngine.get_price_preview Seed.db_three_premiums 1
                        Seed.thursday (hm 9 0) (hm 10 0) [] None)
                   = Some (Some (Decimal.mk 54636350000 (-8))))
        by (vm_compute; reflexivity).
      rewrite Hpre in Hv. cbn [option_map] in Hv. injection Hv as Hv.
      exact Hv. }
    split; [exact Hpd |]. cbn [snd]. split; [exact Hrows |].
    rewrite Hb in Hrows.
    change (bookings Seed.db_three_premiums) with (@nil Booking.t) in Hrows.
    cbn [app map] in Hrows. injection Hrows as Hrow.
    rewrite <- Hrow. exact Ht.
Defined.

(** X19. [get_price_preview] answers "Court not found" exactly when no court
    has the key; it prices a coach key that names no coach as no coach; and
    it reads the equipment keys only as the set of rows they name: two lists
    that name the same rows, in any order, with repeats or with keys of no
    row, give the same answer. *)
Theorem preview_reads_keys_as_a_set :
  forall (db : DB) (court_id : Z) (date : Date) (s t : Time)
         (ids1 ids2 : list Z) (coach_id : option Z),
    (PricingEngine.get_price_preview db court_id date s t ids1 coach_id = None
     <-> forall c, In c (courts db) -> Court.id c <> court_id)
    /\ ((forall e, In e (equipment db) ->
                   (In (Equipment.id e) ids1 <-> In (Equipment.id e) ids2)) ->
        PricingEngine.get_price_preview db court_id date s t ids1 coach_id
        = PricingEngine.get_price_preview db court_id date s t ids2 coach_id)
    /\ (forall c,
           coach_id = Some c ->
           (forall x, In x (coaches db) -> Coach.id x <> c) ->
           PricingEngine.get_price_preview db court_id date s t ids1 coach_id
           = PricingEngine.get_price_preview db court_id date s t ids1 None).
Proof.
  intros db court_id date s t ids1 ids2 coach_id.
  unfold PricingEngine.get_price_preview. split; [| split].
  - destruct (find _ (courts db)) as [c |] eqn:Hf.
    + split; [discriminate |]. intros Hnone. exfalso.
      apply find_some in Hf. destruct Hf as [Hin Hid]. apply Z.eqb_eq in Hid.
      exact (Hnone c Hin Hid).
    + split; [| reflexivity]. intros _ c Hin Hid.
      apply (find_none _ _ Hf) in Hin. rewrite Hid, Z.eqb_refl in Hin.
      discriminate.
  - intros Hsame. destruct (find _ (courts db)); [| reflexivity].
    rewrite (filter_pointwise_in
               (fun e => existsb (Z.eqb (Equipment.id e)) ids1)
               (fun e => existsb (Z.eqb (Equipment.id e)) ids2));
      [reflexivity |].
    intros e He. specialize (Hsame e He).
    destruct (existsb (Z.eqb (Equipment.id e)) ids2) eqn:H2.
    + apply existsb_exists in H2. destruct H2 as [j [Hj Heq]].
      apply Z.eqb_eq in Heq. subst j.
      apply existsb_exists. exists (Equipment.id e).
      split; [apply Hsame; exact Hj | apply Z.eqb_refl].
    + apply existsb_false_forall. intros j Hj.
      destruct (Z.eqb_spec (Equipment.id e) j) as [Heq | Hne];
        [| reflexivity].
      subst j. apply Hsame in Hj.
      rewrite existsb_false_forall in H2. specialize (H2 _ Hj).
      rewrite Z.eqb_refl in H2. discriminate.
  - intros c -> Hnone. destruct (find _ (courts db)); [| reflexivity].
    destruct (negb (c =? 0)); [| reflexivity].
    destruct (find _ (coaches db)) as [x |] eqn:Hf; [| reflexivity].
    exfalso. apply find_some in Hf. destruct Hf as [Hin Hid].
    apply Z.eqb_eq in Hid. exact (Hnone x Hin Hid).
Qed.

(** On the seeded database: the keys [2; 1; 1; 99] are priced as [1; 2],
    and coach 99 as no coach. *)
Lemma preview_keys_witness :
  PricingEngine.get_price_preview Seed.db 1 Seed.thursday (hm 9 0) (hm 10 0)
    [2; 1; 1; 99] (Some 99)
  = PricingEngine.get_price_preview Seed.db 1 Seed.thursday (hm 9 0) (hm 10 0)
      [1; 2] None.
Proof.
  destruct (preview_reads_keys_as_a_set Seed.db 1 Seed.thursday (hm 9 0)
              (hm 10 0) [2; 1; 1; 99] [1; 2] (Some 99)) as [_ [Hset _]].
  destruct (preview_reads_keys_as_a_set Seed.db 1 Seed.thursday (hm 9 0)
              (hm 10 0) [1; 2] [1; 2] (Some 99)) as [_ [_ Hcoach]].
  rewrite Hset.
  - apply (Hcoach 99 eq_refl).
    intros x [<- | [<- | []]]; discriminate.
  - intros e [<- | [<- | []]]; split; intros _.
    + left. reflexivity.
    + right. left. reflexivity.
    + right. left. reflexivity.
    + left. reflexivity.
Defined.

(* ------------------------------------------------------------------ *)
(** ** Time slots *)

Module TimeSlotFacts.
Import TimeSlots.

Lemma loop_even (date : Date) (n : Z) :
  min_ordinal <= date <= max_ordinal ->
  0 < n ->
  960 mod n = 0 \/ (960 / n + 1) * n < 1080 ->
  forall (j i : nat) (fuel : nat) (acc : list Slot),
    Z.of_nat i + Z.of_nat j = 960 / n ->
    (j < fuel)%nat ->
    loop fuel date (n * minute) (hm 22 0)
         (hm 6 0 + Z.of_nat i * (n * minute)) acc
    = Slots (acc ++ map (even_slot n) (seq i j)).
Proof.
  intros Hdate Hn Hwrap.
  assert (Hk1 : 960 / n * n <= 960)
    by (rewrite Z.mul_comm; apply Z.mul_div_le; lia).
  assert (Hk2 : 960 < (960 / n + 1) * n)
    by (rewrite Z.mul_comm; apply Z.mul_succ_div_gt; lia).
  assert (Hk0 : 0 <= 960 / n) by (apply Z.div_pos; lia).
  induction j as [| j IH]; intros i fuel acc Hij Hfuel.
  - destruct fuel as [| fuel]; [lia |].
    cbn [loop seq map]. rewrite app_nil_r.
    assert (Hi : Z.of_nat i * n = 960 / n * n) by (f_equal; lia).
    destruct (Z.ltb_spec (hm 6 0 + Z.of_nat i * (n * minute)) (hm 22 0))
      as [Hlt | Hge]; [| reflexivity].
    assert (Hmod : (960 / n + 1) * n < 1080).
    { destruct Hwrap as [Hz | Hw]; [| exact Hw].
      exfalso. assert (H960 := Z.div_mod 960 n ltac:(lia)).
      unfold hm, minute in Hlt. lia. }
    assert (Hend : hm 22 0 < hm 6 0 + Z.of_nat i * (n * minute) + n * minute
                   < day)
      by (unfold hm, minute, day; lia).
    replace ((hm 6 0 + Z.of_nat i * (n * minute) + n * minute) / day) with 0
      by (symmetry; apply Z.div_small; unfold hm in *; lia).
    rewrite Z.mod_small by (unfold hm in *; lia).
    replace (date + 0 <? min_ordinal) with false
      by (symmetry; apply Z.ltb_ge; lia).
    replace (max_ordinal <? date + 0) with false
      by (symmetry; apply Z.ltb_ge; lia).
    cbn [orb].
    replace (hm 6 0 + Z.of_nat i * (n * minute) + n * minute >? hm 22 0)
      with true by (symmetry; rewrite Z.gtb_ltb; apply Z.ltb_lt; lia).
    reflexivity.
  - destruct fuel as [| fuel]; [lia |].
    cbn [loop seq map].
    assert (Hi : (Z.of_nat i + 1) * n <= 960 / n * n)
      by (apply Z.mul_le_mono_nonneg_r; lia).
    assert (Hs : hm 6 0 + Z.of_nat i * (n * minute) + n * minute
                 = hm 6 0 + (Z.of_nat i + 1) * (n * minute)) by ring.
    rewrite Hs.
    assert (Hnext : hm 6 0 + (Z.of_nat i + 1) * (n * minute)
                    = hm 6 0 + Z.of_nat (S i) * (n * minute))
      by (f_equal; f_equal; lia).
    assert (Hend : 0 <= hm 6 0 + (Z.of_nat i + 1) * (n * minute) <= hm 22 0).
    { unfold hm, minute. lia. }
    replace (hm 6 0 + Z.of_nat i * (n * minute) <? hm 22 0) with true
      by (symmetry; apply Z.ltb_lt; unfold hm, minute in *; lia).
    replace ((hm 6 0 + (Z.of_nat i + 1) * (n * minute)) / day) with 0
      by (symmetry; apply Z.div_small; unfold hm, day in *; lia).
    rewrite Z.mod_small by (unfold hm, day in *; lia).
    replace (date + 0 <? min_ordinal) with false
      by (symmetry; apply Z.ltb_ge; lia).
    replace (max_ordinal <? date + 0) with false
      by (symmetry; apply Z.ltb_ge; lia).
    cbn [orb].
    replace (hm 6 0 + (Z.of_nat i + 1) * (n * minute) >? hm 22 0) with false
      by (symmetry; rewrite Z.gtb_ltb; apply Z.ltb_ge; lia).
    rewrite Hnext, IH by lia.
    rewrite <- app_assoc. cbn [app]. f_equal. f_equal. f_equal.
    unfold even_slot. rewrite <- Hnext. reflexivity.
Qed.

Lemma loop_still (date : Date) (q : Z) :
  min_ordinal <= date + q <= max_ordinal ->
  forall (fuel : nat) (acc : list Slot),
    loop fuel date (q * day) (hm 22 0) (hm 6 0) acc = OutOfFuel.
Proof.
  intros Hdate. induction fuel as [| fuel IH]; intros acc; [reflexivity |].
  cbn [loop].
  replace (hm 6 0 <? hm 22 0) with true by reflexivity.
  rewrite Z.div_add by (unfold day; lia).
  rewrite Z.mod_add by (unfold day; lia).
  replace (hm 6 0 / day) with 0 by reflexivity.
  replace (hm 6 0 mod day) with (hm 6 0) by reflexivity.
  replace (date + (0 + q) <? min_ordinal) with false
    by (symmetry; apply Z.ltb_ge; lia).
  replace (max_ordinal <? date + (0 + q)) with false
    by (symmetry; apply Z.ltb_ge; lia).
  cbn [orb].
  replace (hm 6 0 >? hm 22 0) with false by reflexivity.
  apply IH.
Qed.

Lemma last_cons_default {A : Type} (l : list A) (a d : A) :
  last (a :: l) d = last l a.
Proof.
  revert a d. induction l as [| b l IH]; intros a d; [reflexivity |].
  change (last (a :: b :: l) d) with (last (b :: l) d).
  rewrite (IH b d), (IH b a). reflexivity.
Qed.

Lemma chained_app (delta : Z) (limit : Time) (slot : Slot) :
  forall (l : list Slot) (t0 : Time),
    chained delta limit t0 l ->
    start_time slot = last (map end_time l) t0 ->
    start_time slot < limit ->
    end_time slot = (start_time slot + delta) mod day ->
    end_time slot <= limit ->
    chained delta limit t0 (l ++ [slot]).
Proof.
  induction l as [| a l IH]; intros t0 Hc Hs Hlt He Hle.
  - cbn in Hs. cbn [app]. subst t0.
    apply chained_cons; try assumption; [reflexivity | constructor].
  - inversion Hc as [| ? ? ? Ha1 Ha2 Ha3 Ha4 Ha5]; subst.
    cbn [app]. apply chained_cons; try assumption; try reflexivity.
    apply IH; try assumption.
    cbn [map] in Hs. rewrite last_cons_default in Hs. exact Hs.
Qed.

Lemma loop_chained (date : Date) (delta : Z) (limit : Time) (t0 : Time) :
  forall (fuel : nat) (current : Time) (acc l : list Slot),
    loop fuel date delta limit current acc = Slots l ->
    chained delta limit t0 acc ->
    current = last (map end_time acc) t0 ->
    Forall (fun slot => display slot
                        = (strftime_I_M_p (start_time slot) ++ " - "
                           ++ strftime_I_M_p (end_time slot))%string) acc ->
    chained delta limit t0 l
    /\ Forall (fun slot => display slot
                           = (strftime_I_M_p (start_time slot) ++ " - "
                              ++ strftime_I_M_p (end_time slot))%string) l.
Proof.
  induction fuel as [| fuel IH]; intros current acc l H Hc Hlast Hd;
    [discriminate |].
  cbn [loop] in H.
  destruct (Z.ltb_spec current limit) as [Hlt | Hge].
  - destruct (_ || _); [discriminate |].
    destruct ((current + delta) mod day >? limit) eqn:Hgt.
    + injection H as <-. split; assumption.
    + rewrite Z.gtb_ltb in Hgt. apply Z.ltb_ge in Hgt.
      apply IH in H; [exact H | | |].
      * apply chained_app; cbn [start_time end_time]; try assumption;
          reflexivity.
      * rewrite map_app. cbn [map end_time]. rewrite last_last. reflexivity.
      * apply Forall_app. split; [exact Hd |].
        constructor; [reflexivity | constructor].
  - injection H as <-. split; assumption.
Qed.

End TimeSlotFacts.

(** X20. For a date in range and a slot of [n > 0] minutes such that the
    sixteen hours divide evenly or the first slot that would pass 22:00 ends
    before midnight (every [n] up to 120 is such), [get_time_slots] returns,
    after [960 / n] turns of the loop and one more, exactly the slots number
    0 to [960 / n - 1] of the even division from 6:00. *)
Theorem time_slots_divide_the_day_evenly :
  forall (date : Date) (n : Z) (fuel : nat),
    TimeSlots.min_ordinal <= date <= TimeSlots.max_ordinal ->
    0 < n ->
    960 mod n = 0 \/ (960 / n + 1) * n < 1080 ->
    (Z.to_nat (960 / n) < fuel)%nat ->
    TimeSlots.get_time_slots fuel date n
    = TimeSlots.Slots
        (map (TimeSlots.even_slot n) (seq 0 (Z.to_nat (960 / n)))).
Proof.
  intros date n fuel Hdate Hn Hwrap Hfuel.
  unfold TimeSlots.get_time_slots.
  destruct fuel as [| fuel]; [lia |].
  assert (Hk0 : 0 <= 960 / n) by (apply Z.div_pos; lia).
  assert (Hdays : 0 <= n / 1440 <= 960).
  { split; [apply Z.div_pos; lia |].
    destruct Hwrap as [Hz | Hw].
    - assert (H960 := Z.div_mod 960 n ltac:(lia)).
      assert (n <= 960) by nia.
      apply Z.div_le_upper_bound; lia.
    - assert (n < 1080) by nia.
      apply Z.div_le_upper_bound; lia. }
  replace (n / 1440 <? - TimeSlots.max_delta_days) with false
    by (symmetry; apply Z.ltb_ge; unfold TimeSlots.max_delta_days; lia).
  replace (TimeSlots.max_delta_days <? n / 1440) with false
    by (symmetry; apply Z.ltb_ge; unfold TimeSlots.max_delta_days; lia).
  cbn [orb].
  replace (hm 6 0) with (hm 6 0 + Z.of_nat 0 * (n * TimeSlots.minute))
    at 1 by (cbn; lia).
  rewrite (TimeSlotFacts.loop_even date n Hdate Hn Hwrap
             (Z.to_nat (960 / n)) 0 (S fuel) []); [reflexivity | lia | lia].
Qed.

(** With the default of 60 minutes: sixteen slots, the first from 06:00 AM
    and the last to 10:00 PM. *)
Lemma time_slots_witness :
  exists l,
    TimeSlots.get_time_slots 17 Seed.thursday 60 = TimeSlots.Slots l
    /\ List.length l = 16%nat
    /\ map TimeSlots.display (firstn 1 l) = ["06:00 AM - 07:00 AM"%string]
    /\ map TimeSlots.display (skipn 15 l) = ["09:00 PM - 10:00 PM"%string].
Proof.
  eexists. split.
  - apply (time_slots_divide_the_day_evenly Seed.thursday 60 17).
    + vm_compute. split; discriminate.
    + lia.
    + left. reflexivity.
    + vm_compute. lia.
  - split; [| split]; vm_compute; reflexivity.
Defined.

(** X21. A slot duration that is a whole number of days, zero included,
    makes the loop of [get_time_slots] turn without end when the date
    arithmetic stays in range: the current time is 6:00 again after every
    turn, so no number of turns brings a result. *)
Theorem time_slots_loop_forever_on_whole_days :
  forall (date : Date) (n : Z) (fuel : nat),
    n mod 1440 = 0 ->
    - TimeSlots.max_delta_days <= n / 1440 <= TimeSlots.max_delta_days ->
    TimeSlots.min_ordinal <= date + n / 1440 <= TimeSlots.max_ordinal ->
    TimeSlots.get_time_slots fuel date n = TimeSlots.OutOfFuel.
Proof.
  intros date n fuel Hmod Hdays Hdate.
  unfold TimeSlots.get_time_slots.
  destruct fuel as [| fuel]; [reflexivity |].
  replace (n / 1440 <? - TimeSlots.max_delta_days) with false
    by (symmetry; apply Z.ltb_ge; lia).
  replace (TimeSlots.max_delta_days <? n / 1440) with false
    by (symmetry; apply Z.ltb_ge; lia).
  cbn [orb].
  assert (Hn : n * TimeSlots.minute = n / 1440 * TimeSlots.day).
  { assert (H := Z.div_mod n 1440 ltac:(lia)).
    unfold TimeSlots.minute, TimeSlots.day. lia. }
  rewrite Hn. apply TimeSlotFacts.loop_still. exact Hdate.
Qed.

(** With no duration at all the loop is still turning after a thousand
    turns, and so it is with a slot of one whole day. *)
Lemma time_slots_loop_witness :
  TimeSlots.get_time_slots 1000 Seed.thursday 0 = TimeSlots.OutOfFuel
  /\ TimeSlots.get_time_slots 1000 Seed.thursday 1440 = TimeSlots.OutOfFuel.
Proof.
  split.
  - apply (time_slots_loop_forever_on_whole_days Seed.thursday 0 1000).
    + reflexivity.
    + vm_compute. split; discriminate.
    + vm_compute. split; discriminate.
  - apply (time_slots_loop_forever_on_whole_days Seed.thursday 1440 1000).
    + reflexivity.
    + vm_compute. split; discriminate.
    + vm_compute. split; discriminate.
Defined.

(** X22. Whatever the duration, a list that [get_time_slots] returns is a
    chain from 6:00: the first slot starts at 6:00, every slot starts before
    22:00 where the one before it ended, ends at its start plus the duration
    taken on the clock (modulo one day), and never after 22:00; and its
    display is the two times in the 12-hour format, joined by a dash. *)
Theorem returned_time_slots_are_chained :
  forall (fuel : nat) (date : Date) (n : Z) (l : list TimeSlots.Slot),
    TimeSlots.get_time_slots fuel date n = TimeSlots.Slots l ->
    TimeSlots.chained (n * TimeSlots.minute) (hm 22 0) (hm 6 0) l
    /\ Forall (fun slot =>
                 TimeSlots.display slot
                 = (TimeSlots.strftime_I_M_p (TimeSlots.start_time slot)
                    ++ " - "
                    ++ TimeSlots.strftime_I_M_p (TimeSlots.end_time slot))%string)
              l.
Proof.
  intros fuel date n l H.
  unfold TimeSlots.get_time_slots in H.
  destruct fuel as [| fuel]; [discriminate |].
  destruct (_ || _); [discriminate |].
  eapply TimeSlotFacts.loop_chained in H; [exact H | | |].
  - constructor.
  - reflexivity.
  - constructor.
Qed.

(** Five-hour slots: 6:00, 11:00 and 16:00 are followed by the slot from
    21:00 that ends at 2:00 on the clock, and the chain goes on from there. *)
Lemma returned_time_slots_witness :
  exists l,
    TimeSlots.get_time_slots 20 Seed.thursday 300 = TimeSlots.Slots l
    /\ List.length l = 8%nat
    /\ TimeSlots.chained (300 * TimeSlots.minute) (hm 22 0) (hm 6 0) l.
Proof.
  assert (H : exists l,
             TimeSlots.get_time_slots 20 Seed.thursday 300 = TimeSlots.Slots l
             /\ List.length l = 8%nat).
  { eexists. split; vm_compute; reflexivity. }
  destruct H as [l [Hl Hlen]].
  exists l. split; [exact Hl | split; [exact Hlen |]].
  exact (proj1 (returned_time_slots_are_chained 20 Seed.thursday 300 l Hl)).
Defined.

(* ------------------------------------------------------------------ *)
(** ** The entries of one user *)

Section OrderByFilter.
Context {A : Type} (key : A -> Z) (q : A -> bool).

Lemma insert_by_least (x : A) (l : list A) :
  Forall (fun z => key x <= key z) l ->
  insert_by (on_key key) x l = x :: l.
Proof.
  intros H. destruct l as [| y l]; [reflexivity |].
  cbn [insert_by]. unfold on_key.
  inversion H as [| ? ? Hy _]; subst.
  apply Z.leb_le in Hy. rewrite Hy. reflexivity.
Qed.

Lemma insert_by_filter (x : A) (l : list A) :
  StronglySorted (le_on key) l ->
  filter q (insert_by (on_key key) x l)
  = if q x then insert_by (on_key key) x (filter q l) else filter q l.
Proof.
  induction 1 as [| y l Hs IH Hall].
  - cbn. destruct (q x); reflexivity.
  - cbn [insert_by]. unfold on_key at 1.
    destruct (Z.leb_spec (key x) (key y)) as [Hle | Hlt].
    + cbn [filter]. destruct (q x) eqn:Hqx; [| reflexivity].
      symmetry. apply (insert_by_least x (filter q (y :: l))).
      apply Forall_forall. intros z Hz. apply filter_In in Hz.
      destruct Hz as [[-> | Hz] _]; [exact Hle |].
      rewrite Forall_forall in Hall. specialize (Hall z Hz).
      unfold le_on in Hall. lia.
    + cbn [filter]. rewrite IH.
      destruct (q y) eqn:Hqy; destruct (q x) eqn:Hqx; try reflexivity.
      cbn [insert_by].
      assert (Hf : on_key key x y = false) by (apply Z.leb_gt; exact Hlt).
      rewrite Hf. reflexivity.
Qed.

Lemma order_by_filter (l : list A) :
  filter q (order_by (on_key key) l) = order_by (on_key key) (filter q l).
Proof.
  induction l as [| x l IH]; [reflexivity |].
  cbn [order_by filter].
  rewrite insert_by_filter by apply order_by_sorted.
  rewrite IH. destruct (q x); reflexivity.
Qed.

End OrderByFilter.

Lemma filter_twice {A : Type} (p q : A -> bool) (l : list A) :
  filter q (filter p l) = filter (fun x => p x && q x) l.
Proof.
  induction l as [| x l IH]; [reflexivity |].
  cbn [filter]. destruct (p x); cbn [andb filter]; rewrite IH; reflexivity.
Qed.

(** X23. [get_user_waitlist_entries] lists exactly the rows of the user that
    are WAITING or NOTIFIED, never an EXPIRED one or one of somebody else,
    the oldest first; and after [expire_old_notifications] the user's list
    is the one before without the entries that had gone stale, the others in
    the same order and unchanged. *)
Theorem user_entries_are_the_live_ones :
  forall (db : DB) (user : Z) (now : Timestamp),
    (forall w,
        In w (WaitlistService.get_user_waitlist_entries db user)
        <-> In w (waitlist db) /\ Waitlist.user w = user
            /\ Waitlist.status w <> Waitlist.EXPIRED)
    /\ StronglySorted (le_on Waitlist.created_at)
         (WaitlistService.get_user_waitlist_entries db user)
    /\ WaitlistService.get_user_waitlist_entries
         (snd (WaitlistService.expire_old_notifications db now)) user
       = filter (fun w => negb (WaitlistService.stale
                                  (now - WaitlistService.hours_24) w))
           (WaitlistService.get_user_waitlist_entries db user).
Proof.
  intros db user now. unfold WaitlistService.get_user_waitlist_entries.
  split; [| split].
  - intros w. rewrite order_by_In, filter_In.
    unfold Waitlist.is_waiting, Waitlist.is_notified.
    split.
    + intros [Hin Hp]. apply andb_true_iff in Hp. destruct Hp as [Hu Hs].
      apply Z.eqb_eq in Hu. split; [exact Hin | split; [exact Hu |]].
      intros He. rewrite He in Hs. discriminate.
    + intros [Hin [Hu Hs]]. split; [exact Hin |].
      apply andb_true_iff. split; [apply Z.eqb_eq; exact Hu |].
      destruct (Waitlist.status w); try reflexivity. contradiction.
  - apply order_by_sorted.
  - rewrite order_by_filter, filter_twice.
    unfold WaitlistService.expire_old_notifications. cbn [snd].
    unfold with_waitlist. cbn [waitlist]. f_equal.
    apply filter_map_rows. intros w _.
    destruct (WaitlistService.stale (now - WaitlistService.hours_24) w).
    + rewrite andb_false_r. cbn. rewrite andb_false_r. reflexivity.
    + rewrite andb_true_r. reflexivity.
Qed.

(* ------------------------------------------------------------------ *)
(** ** A price the column cannot hold *)

Lemma get_db_prep_save_too_long (x : Decimal.t) :
  BookingSpec.too_long x ->
  DecimalField.get_db_prep_save 10 2 x = inl InvalidOperation.
Proof.
  unfold BookingSpec.too_long, DecimalField.get_db_prep_save.
  change (Z.opp 2) with (-2). intros Hlong.
  destruct (DecimalFacts.ndigits_bound (Decimal.coef x)) as [Hd Hb].
  set (nd := Decimal.ndigits (Decimal.coef x)) in *.
  assert (Hpos : 0 < 10 ^ Z.max 0 (- Decimal.expo x))
    by (apply Z.pow_pos_nonneg; lia).
  destruct (Z.eqb_spec (Decimal.coef x) 0) as [Hz | Hnz].
  - rewrite Hz in Hlong. change (Z.abs 0) with 0 in Hlong.
    rewrite Z.mul_0_l in Hlong. change (10 ^ 8) with 100000000 in Hlong. lia.
  - replace (nd + Decimal.expo x - 1 - -2 + 1 >? 10) with true; [reflexivity |].
    symmetry. rewrite Z.gtb_ltb. apply Z.ltb_lt.
    destruct (Z.le_gt_cases 0 (Decimal.expo x)) as [He | He].
    + rewrite Z.max_l in Hlong by lia. rewrite Z.max_r in Hlong by lia.
      change (10 ^ 0) with 1 in Hlong.
      assert (Hp : 0 < 10 ^ Decimal.expo x) by (apply Z.pow_pos_nonneg; lia).
      assert (Hlt : 10 ^ 8 < 10 ^ (nd + Decimal.expo x)).
      { rewrite Z.pow_add_r by lia.
        assert (Hm := proj1 (Z.mul_lt_mono_pos_r (10 ^ Decimal.expo x)
                               (Z.abs (Decimal.coef x)) (10 ^ nd) Hp) Hb).
        lia. }
      apply Z.pow_lt_mono_r_iff in Hlt; lia.
    + rewrite Z.max_r in Hlong by lia. rewrite Z.max_l in Hlong by lia.
      change (10 ^ 0) with 1 in Hlong.
      rewrite <- Z.pow_add_r in Hlong by lia.
      assert (Hlt : 10 ^ (8 + - Decimal.expo x) < 10 ^ nd) by lia.
      apply Z.pow_lt_mono_r_iff in Hlt; lia.
Qed.

Lemma calculate_price_base (db : DB) (q : PricingEngine.Request)
  (pd : PricingEngine.PricingData) :
  PricingEngine.calculate_price db q = inr pd ->
  PricingEngine.base_price pd = PricingEngine.BASE_COURT_PRICE.
Proof.
  unfold PricingEngine.calculate_price. intros H.
  unbind H st. injection H as <-. reflexivity.
Qed.

(** X24. A total of a hundred million or more cannot be booked: when the
    court is free, the combined check passes and the price is computed, but
    the total does not fit ten digits of which two are decimal places, the
    insert of the booking raises [decimal.InvalidOperation], the view
    answers the generic error and nothing is stored. *)
Theorem oversized_price_is_refused :
  forall (db : DB) (user : Z) (req : Views.BookingRequest) (now : Timestamp)
         (court : Court.t) (chk : AvailabilityService.Check)
         (coach : option Coach.t) (instances : list Equipment.t)
         (pd : PricingEngine.PricingData),
    get_court db (Views.court_id req) = inr court ->
    BookingSpec.court_free db (Views.court_id req) (Views.date req)
      (Views.start_time req) (Views.end_time req) ->
    AvailabilityService.check_all_resources_available db (Views.date req)
      (Views.start_time req) (Views.end_time req) (Views.court_id req)
      (Views.equipment req) (Views.coach_id req) = inr chk ->
    AvailabilityService.available chk = true ->
    Views.lookup_coach db (Views.coach_id req) = inr coach ->
    mapM (fun e => get_equipment db (fst e)) (Views.equipment req)
    = inr instances ->
    PricingEngine.calculate_price db
      (PricingEngine.mkRequest court (Views.date req) (Views.start_time req)
         (Views.end_time req) instances coach) = inr pd ->
    BookingSpec.too_long (PricingEngine.total_price pd) ->
    Views.confirm_booking db user req now = (Views.Error InvalidOperation, db).
Proof.
  intros db user req now court chk coach instances pd
         Hcourt Hfree Hchk Havail Hcoach Hinst Hprice Hlong.
  unfold Views.confirm_booking, Views.confirm_booking_body.
  rewrite Hcourt. cbn [bind].
  destruct (get_court_id _ _ _ Hcourt) as [Hid _].
  rewrite court_free_no_existing_booking by (rewrite Hid; exact Hfree).
  rewrite Hchk. cbn [bind]. rewrite Havail. cbn [negb].
  rewrite Hcoach. cbn [bind]. rewrite Hinst. cbn [bind].
  rewrite Hprice. cbn [bind].
  unfold Views.new_booking.
  rewrite (calculate_price_base _ _ _ Hprice).
  replace (DecimalField.get_db_prep_save 10 2 PricingEngine.BASE_COURT_PRICE)
    with (@inr Exn Decimal.t (cents 50000)) by reflexivity.
  cbn [bind].
  rewrite (get_db_prep_save_too_long _ Hlong). reflexivity.
Qed.

(** With a flat fee of 99999999.99 the total is 100000499.99, of eleven
    digits. *)
Lemma oversized_price_witness :
  Views.confirm_booking Seed.db_huge_fee 7 Seed.morning 100
  = (Views.Error InvalidOperation, Seed.db_huge_fee).
Proof.
  destruct (PricingEngine.calculate_price Seed.db_huge_fee
              (PricingEngine.mkRequest Seed.indoor1 Seed.thursday (hm 9 0)
                 (hm 10 0) [] None)) as [e | pd] eqn:Hprice;
    [vm_compute in Hprice; discriminate |].
  apply (oversized_price_is_refused Seed.db_huge_fee 7 Seed.morning 100
           Seed.indoor1 (AvailabilityService.mkCheck true []) None [] pd).
  - reflexivity.
  - intros b [].
  - reflexivity.
  - reflexivity.
  - reflexivity.
  - reflexivity.
  - exact Hprice.
  - vm_compute in Hprice. injection Hprice as <-.
    unfold BookingSpec.too_long. vm_compute. discriminate.
Defined.
